(** * elfpy: pricing-model base classes and market base classes

    A shallow embedding of [elfpy/pricing_models/base.py] and
    [elfpy/markets/base.py].  Python values that can raise are modelled
    by the [result] type; Python [float] is IEEE binary64 (Rocq's
    primitive floats); the two parallel class hierarchies of the source
    ([PricingModel] / [PricingModelFP], [Market] / [MarketFP]) share one
    generic definition wherever the source text is the same up to the
    numeric type. *)

From Stdlib Require Import ZArith QArith Qcanon Qround Qpower Reals Lra Lia Bool List.
From Stdlib Require Import PrimFloat FloatOps SpecFloat FloatAxioms Uint63.
From stdpp Require Import base option strings gmap.

Set Default Proof Using "Type".
#[local] Set Warnings "-inexact-float,-register-all".

(** ** Python exceptions and fallible computations *)

Inductive exn : Type :=
| AssertionError
| ZeroDivisionError
| TypeError
| ValueError
| NotImplementedError
| DecimalDivisionByZero
| DecimalInvalidOperation
| FixedPointDivisionByZero
| InvalidCheckpointTime.

Inductive result (A : Type) : Type :=
| Ok (a : A)
| Raise (e : exn).
Arguments Ok {A} a.
Arguments Raise {A} e.

Definition rbind {A B} (r : result A) (k : A -> result B) : result B :=
  match r with
  | Ok a => k a
  | Raise e => Raise e
  end.

Definition rmap {A B} (f : A -> B) (r : result A) : result B :=
  rbind r (fun a => Ok (f a)).

(** [assert c, msg]: the message is not modelled. *)
Definition py_assert (c : bool) : result unit :=
  if c then Ok tt else Raise AssertionError.

#[global] Instance result_ret : MRet result := @Ok.
#[global] Instance result_bind : MBind result := fun A B k r => rbind r k.
#[global] Instance result_fmap : FMap result := @rmap.

(** ** The numeric interface shared by the two class hierarchies

    Every arithmetic operator of the source is an overloaded Python
    operator that may raise, so the operators return a [result].  A
    decimal literal [m * 10^-d] of the source text is [klit m d]. *)

Class PyNum (N : Type) : Type := {
  klit : Z -> nat -> N;
  kadd : N -> N -> result N;
  ksub : N -> N -> result N;
  kmul : N -> N -> result N;
  kdiv : N -> N -> result N;
  kneg : N -> N;
  kabs : N -> N;
  keq : N -> N -> bool;
  klt : N -> N -> bool;
  kle : N -> N -> bool
}.

(** Exponentiation [x ** y] is kept apart: binary64 has no primitive for it. *)
Class PyPow (N : Type) : Type := {
  kpow : N -> N -> result N
}.

Definition kge {N} `{PyNum N} (x y : N) : bool := kle y x.

(** ** Python [float]: IEEE binary64 *)

Module PyFloat.

Definition is_zero (x : float) : bool := PrimFloat.is_zero x.

(** [math.isfinite] / [np.isfinite] on a float. *)
Definition isfinite (x : float) : bool := PrimFloat.is_finite x.

(** [bool(x)] for a float: [x != 0.0]; not-a-number is truthy. *)
Definition truthy (x : float) : bool := negb (is_zero x).

(** [x / y] raises [ZeroDivisionError] on a zero divisor (of either sign). *)
Definition truediv (x y : float) : result float :=
  if is_zero y then Raise ZeroDivisionError else Ok (PrimFloat.div x y).

(** A literal [m * 10^-d] with [m] and [10^d] below [2^53]: the division of
    two exactly represented integers is correctly rounded, which is the
    value the Python parser gives the literal. *)
Definition lit (m : Z) (d : nat) : float :=
  let num := PrimFloat.of_uint63 (Uint63.of_Z (Z.abs m)) in
  let den := PrimFloat.of_uint63 (Uint63.of_Z (10 ^ Z.of_nat d)) in
  let q := PrimFloat.div num den in
  if (m <? 0)%Z then PrimFloat.opp q else q.

#[global] Instance float_num : PyNum float := {
  klit := lit;
  kadd x y := Ok (PrimFloat.add x y);
  ksub x y := Ok (PrimFloat.sub x y);
  kmul x y := Ok (PrimFloat.mul x y);
  kdiv := truediv;
  kneg := PrimFloat.opp;
  kabs := PrimFloat.abs;
  keq := PrimFloat.eqb;
  klt := PrimFloat.ltb;
  kle := PrimFloat.leb
}.

End PyFloat.

(** ** Exact real arithmetic *)

Module Exact.

Definition Req_b (x y : R) : bool := if Req_dec_T x y then true else false.
Definition Rlt_b (x y : R) : bool := if Rlt_dec x y then true else false.
Definition Rle_b (x y : R) : bool := if Rle_dec x y then true else false.

Definition truediv (x y : R) : result R :=
  if Req_b y 0 then Raise ZeroDivisionError else Ok (x / y)%R.

(** [x ** y] over the reals, as Python computes it on floats: a positive
    base gives [exp (y * ln x)]; a zero base gives [0], [1] or raises by the
    sign of the exponent; a negative base is outside the real numbers
    (Python answers with a [complex]), which this model reports as
    [ValueError]. *)
Definition pow (x y : R) : result R :=
  if Rlt_b 0 x then Ok (Rpower x y)
  else if Req_b x 0 then
    if Rlt_b 0 y then Ok 0%R
    else if Req_b y 0 then Ok 1%R
    else Raise ZeroDivisionError
  else Raise ValueError.

Definition lit (m : Z) (d : nat) : R := (IZR m / IZR (10 ^ Z.of_nat d))%R.

#[global] Instance real_num : PyNum R := {
  klit := lit;
  kadd x y := Ok (x + y)%R;
  ksub x y := Ok (x - y)%R;
  kmul x y := Ok (x * y)%R;
  kdiv := truediv;
  kneg := Ropp;
  kabs := Rabs;
  keq := Req_b;
  klt := Rlt_b;
  kle := Rle_b
}.

#[global] Instance real_pow : PyPow R := { kpow := pow }.

End Exact.

(** ** The fixed-point type *)

Module FixedPointMath.

(** Modelled from the spec: [elfpy.utils.math.FixedPoint] is not among the
    sources.  The spec describes "a fixed-point decimal type with
    deterministic rounding"; the sources construct it from decimal strings
    ([FixedPoint("3.09396")]) and from the special string
    [FixedPoint("nan")].  The model is a scaled integer with 18 decimal
    places, products and quotients rounded down, a division that raises on
    a zero divisor, and the special values not-a-number and the two
    infinities, which compare like their IEEE counterparts. *)
Inductive FixedPoint : Type :=
| FPVal (scaled_value : Z)
| FPInf (negative : bool)
| FPNaN.

Definition ONE_18 : Z := 10 ^ 18.

Definition lit (m : Z) (d : nat) : FixedPoint :=
  FPVal (m * 10 ^ (18 - Z.of_nat d)).

Definition is_zero (x : FixedPoint) : bool :=
  match x with FPVal v => (v =? 0)%Z | _ => false end.

Definition is_finite (x : FixedPoint) : bool :=
  match x with FPVal _ => true | _ => false end.

Definition sign_neg (x : FixedPoint) : bool :=
  match x with FPVal v => (v <? 0)%Z | FPInf n => n | FPNaN => false end.

Definition neg (x : FixedPoint) : FixedPoint :=
  match x with
  | FPVal v => FPVal (- v)
  | FPInf n => FPInf (negb n)
  | FPNaN => FPNaN
  end.

Definition abs (x : FixedPoint) : FixedPoint :=
  match x with
  | FPVal v => FPVal (Z.abs v)
  | FPInf _ => FPInf false
  | FPNaN => FPNaN
  end.

Definition add (x y : FixedPoint) : FixedPoint :=
  match x, y with
  | FPNaN, _ | _, FPNaN => FPNaN
  | FPInf a, FPInf b => if Bool.eqb a b then FPInf a else FPNaN
  | FPInf a, FPVal _ => FPInf a
  | FPVal _, FPInf b => FPInf b
  | FPVal a, FPVal b => FPVal (a + b)
  end.

Definition sub (x y : FixedPoint) : FixedPoint := add x (neg y).

Definition mul (x y : FixedPoint) : FixedPoint :=
  match x, y with
  | FPNaN, _ | _, FPNaN => FPNaN
  | FPVal a, FPVal b => FPVal (a * b / ONE_18)
  | _, _ =>
      if is_zero x || is_zero y then FPNaN
      else FPInf (xorb (sign_neg x) (sign_neg y))
  end.

(** The quotient by a divisor that is not zero. *)
Definition div_down (x y : FixedPoint) : FixedPoint :=
  match x, y with
  | FPNaN, _ | _, FPNaN => FPNaN
  | FPInf _, FPInf _ => FPNaN
  | FPInf a, FPVal _ => FPInf (xorb a (sign_neg y))
  | FPVal _, FPInf _ => FPVal 0
  | FPVal a, FPVal b => FPVal (a * ONE_18 / b)
  end.

Definition truediv (x y : FixedPoint) : result FixedPoint :=
  if is_zero y then Raise FixedPointDivisionByZero else Ok (div_down x y).

Definition eqb (x y : FixedPoint) : bool :=
  match x, y with
  | FPVal a, FPVal b => (a =? b)%Z
  | FPInf a, FPInf b => Bool.eqb a b
  | _, _ => false
  end.

Definition ltb (x y : FixedPoint) : bool :=
  match x, y with
  | FPNaN, _ | _, FPNaN => false
  | FPVal a, FPVal b => (a <? b)%Z
  | FPInf a, FPInf b => a && negb b
  | FPInf a, FPVal _ => a
  | FPVal _, FPInf b => negb b
  end.

Definition leb (x y : FixedPoint) : bool := ltb x y || eqb x y.

#[global] Instance fixed_num : PyNum FixedPoint := {
  klit := lit;
  kadd x y := Ok (add x y);
  ksub x y := Ok (sub x y);
  kmul x y := Ok (mul x y);
  kdiv := truediv;
  kneg := neg;
  kabs := abs;
  keq := eqb;
  klt := ltb;
  kle := leb
}.

End FixedPointMath.

(** ** Python [decimal.Decimal] under [getcontext().prec = 30] *)

Module PyDecimal.

(** A finite [Decimal] is modelled by its value (the coefficient/exponent
    pair and the sign of a zero are not kept); the context keeps the
    default traps, so a signalled [DivisionByZero] or [InvalidOperation]
    is raised. *)
Inductive Decimal : Type :=
| DFin (value : Qc)
| DInf (negative : bool)
| DNaN.

Definition prec : Z := 30.

(** Number of decimal digits of a positive integer. *)
Fixpoint ndigits (fuel : nat) (n : Z) : Z :=
  match fuel with
  | O => 1
  | S fuel' => if (n <? 10)%Z then 1%Z else (1 + ndigits fuel' (n / 10))%Z
  end.

Definition digits10 (n : Z) : Z := ndigits (Z.to_nat (Z.log2 n)) n.

Definition pow10 (k : Z) : Q := Qpower (inject_Z 10) k.

(** ROUND_HALF_EVEN of a non-negative rational to an integer. *)
Definition round_half_even (s : Q) : Z :=
  let f := Qfloor s in
  match Qcompare (s - inject_Z f) (1 # 2) with
  | Lt => f
  | Gt => (f + 1)%Z
  | Eq => if Z.even f then f else (f + 1)%Z
  end.

(** The shift [k] for which [|q| * 10^k] has [prec] integral digits. *)
Definition shift_of (a : Q) : Z :=
  let k := (prec - (digits10 (Qnum a) - digits10 (Zpos (Qden a))))%Z in
  if Qle_bool (inject_Z (10 ^ prec)) (a * pow10 k) then (k - 1)%Z else k.

Definition round_pos (a : Q) : Q :=
  let k := shift_of a in
  inject_Z (round_half_even (a * pow10 k)) * pow10 (- k).

(** The context's rounding to [prec] significant digits. *)
Definition context_round (q : Qc) : Qc :=
  match Qcompare q 0 with
  | Eq => 0%Qc
  | Gt => Q2Qc (round_pos q)
  | Lt => Q2Qc (- round_pos (- q))
  end.

(** The exact value of a finite binary float [(-1)^s * m * 2^e]. *)
Definition SF2Qc (x : spec_float) : Qc :=
  match x with
  | S754_finite s m e =>
      let v := (inject_Z (Zpos m) * (if (0 <=? e)%Z then inject_Z (2 ^ e)
                                      else (1 # Z.to_pos (2 ^ (- e)))))%Q in
      Q2Qc (if s then - v else v)
  | _ => 0%Qc
  end.

Definition value_of_float (x : float) : Qc := SF2Qc (Prim2SF x).

(** [Decimal(x)] of a float: the exact value, no rounding. *)
Definition of_float (x : float) : Decimal :=
  match Prim2SF x with
  | S754_infinity s => DInf s
  | S754_nan => DNaN
  | _ => DFin (value_of_float x)
  end.

Definition lit (m : Z) (d : nat) : Decimal :=
  DFin (Q2Qc (inject_Z m * pow10 (- Z.of_nat d))).

Definition is_zero (x : Decimal) : bool :=
  match x with DFin q => Qeq_bool q 0 | _ => false end.

Definition sign_neg (x : Decimal) : bool :=
  match x with
  | DFin q => negb (Qle_bool 0 q)
  | DInf n => n
  | DNaN => false
  end.

Definition neg (x : Decimal) : Decimal :=
  match x with
  | DFin q => DFin (- q)%Qc
  | DInf n => DInf (negb n)
  | DNaN => DNaN
  end.

Definition abs (x : Decimal) : Decimal :=
  match x with
  | DFin q => DFin (if Qle_bool 0 q then q else (- q)%Qc)
  | DInf _ => DInf false
  | DNaN => DNaN
  end.

Definition add (x y : Decimal) : result Decimal :=
  match x, y with
  | DNaN, _ | _, DNaN => Ok DNaN
  | DInf a, DInf b => if Bool.eqb a b then Ok (DInf a) else Raise DecimalInvalidOperation
  | DInf a, DFin _ => Ok (DInf a)
  | DFin _, DInf b => Ok (DInf b)
  | DFin a, DFin b => Ok (DFin (context_round (a + b)%Qc))
  end.

Definition sub (x y : Decimal) : result Decimal := add x (neg y).

Definition mul (x y : Decimal) : result Decimal :=
  match x, y with
  | DNaN, _ | _, DNaN => Ok DNaN
  | DFin a, DFin b => Ok (DFin (context_round (a * b)%Qc))
  | _, _ =>
      if is_zero x || is_zero y then Raise DecimalInvalidOperation
      else Ok (DInf (xorb (sign_neg x) (sign_neg y)))
  end.

(** [x / y]: not-a-number operands propagate; [inf / inf] is invalid; an
    infinite dividend gives an infinity; [0 / 0] signals
    [InvalidOperation] (division undefined) and [x / 0] signals
    [DivisionByZero], both trapped. *)
Definition truediv (x y : Decimal) : result Decimal :=
  match x, y with
  | DNaN, _ | _, DNaN => Ok DNaN
  | DInf _, DInf _ => Raise DecimalInvalidOperation
  | DInf a, DFin _ => Ok (DInf (xorb a (sign_neg y)))
  | DFin _, DInf _ => Ok (DFin 0%Qc)
  | DFin a, DFin b =>
      if Qeq_bool b 0 then
        if Qeq_bool a 0 then Raise DecimalInvalidOperation
        else Raise DecimalDivisionByZero
      else Ok (DFin (context_round (a / b)%Qc))
  end.

Definition eqb (x y : Decimal) : bool :=
  match x, y with
  | DFin a, DFin b => Qeq_bool a b
  | DInf a, DInf b => Bool.eqb a b
  | _, _ => false
  end.

Definition ltb (x y : Decimal) : bool :=
  match x, y with
  | DNaN, _ | _, DNaN => false
  | DFin a, DFin b => negb (Qle_bool b a)
  | DInf a, DInf b => a && negb b
  | DInf a, DFin _ => a
  | DFin _, DInf b => negb b
  end.

Definition leb (x y : Decimal) : bool := ltb x y || eqb x y.

#[global] Instance decimal_num : PyNum Decimal := {
  klit := lit;
  kadd := add;
  ksub := sub;
  kmul := mul;
  kdiv := truediv;
  kneg := neg;
  kabs := abs;
  keq := eqb;
  klt := ltb;
  kle := leb
}.

End PyDecimal.

(** ** Records of the pricing model *)

Inductive TokenType : Type := BASE | PT.

(** [elfpy.types.Quantity]; the field [unit] is spelled [unit_]. *)
Record Quantity (N : Type) : Type := mkQuantity {
  amount : N;
  unit_ : TokenType
}.
Arguments mkQuantity {N} _ _.
Arguments amount {N} _.
Arguments unit_ {N} _.

(** Modelled from the spec: [elfpy.time.StretchedTime] is not among the
    sources.  "StretchedTime: {days_remaining, time_stretch,
    normalizing_constant}. Derived: normalized_time = days_remaining /
    normalizing_constant; stretched_time = normalized_time / time_stretch."
    The two derived values are attributes the source reads
    ([time_remaining.stretched_time]); [StretchedTime_wf] says that they
    hold the derived quotients. *)
Record StretchedTime (N : Type) : Type := mkStretchedTime {
  days : N;
  time_stretch : N;
  normalizing_constant : N;
  normalized_time : N;
  stretched_time : N
}.
Arguments mkStretchedTime {N} _ _ _ _ _.
Arguments days {N} _.
Arguments time_stretch {N} _.
Arguments normalizing_constant {N} _.
Arguments normalized_time {N} _.
Arguments stretched_time {N} _.

Definition StretchedTime_wf {N} `{PyNum N} (t : StretchedTime N) : Prop :=
  kdiv (days t) (normalizing_constant t) = Ok (normalized_time t) /\
  kdiv (normalized_time t) (time_stretch t) = Ok (stretched_time t).

(** Modelled from the spec: the hyperdrive [Checkpoint] and [MarketState]
    classes are not among the sources.  "Checkpoint: {share_price,
    long_base_volume, short_base_volume}, keyed by a checkpoint_time";
    "MarketState: reserve ledger - share_reserves, bond_reserves,
    lp_total_supply, share_price, init_share_price, variable_apr,
    curve_fee_multiple, flat_fee_multiple, base_buffer, bond_buffer,
    longs_outstanding, shorts_outstanding, long_average_maturity_time,
    short_average_maturity_time, long_base_volume, short_base_volume,
    checkpoint_duration, checkpoints: ordered mapping checkpoint_time ->
    Checkpoint".  Checkpoint times range over a countable key type [T]. *)
Record Checkpoint (N : Type) : Type := mkCheckpoint {
  checkpoint_share_price : N;
  checkpoint_long_base_volume : N;
  checkpoint_short_base_volume : N
}.
Arguments mkCheckpoint {N} _ _ _.
Arguments checkpoint_share_price {N} _.
Arguments checkpoint_long_base_volume {N} _.
Arguments checkpoint_short_base_volume {N} _.

Record MarketState (N T : Type) `{Countable T} : Type := mkMarketState {
  share_reserves : N;
  bond_reserves : N;
  lp_total_supply : N;
  share_price : N;
  init_share_price : N;
  variable_apr : N;
  curve_fee_multiple : N;
  flat_fee_multiple : N;
  base_buffer : N;
  bond_buffer : N;
  longs_outstanding : N;
  shorts_outstanding : N;
  long_average_maturity_time : N;
  short_average_maturity_time : N;
  long_base_volume : N;
  short_base_volume : N;
  checkpoint_duration : T;
  checkpoints : gmap T (Checkpoint N)
}.
Arguments mkMarketState {N T _ _} _ _ _ _ _ _ _ _ _ _ _ _ _ _ _ _ _ _.
Arguments share_reserves {N T _ _} _.
Arguments bond_reserves {N T _ _} _.
Arguments lp_total_supply {N T _ _} _.
Arguments share_price {N T _ _} _.
Arguments init_share_price {N T _ _} _.
Arguments variable_apr {N T _ _} _.
Arguments curve_fee_multiple {N T _ _} _.
Arguments flat_fee_multiple {N T _ _} _.
Arguments base_buffer {N T _ _} _.
Arguments bond_buffer {N T _ _} _.
Arguments longs_outstanding {N T _ _} _.
Arguments shorts_outstanding {N T _ _} _.
Arguments long_average_maturity_time {N T _ _} _.
Arguments short_average_maturity_time {N T _ _} _.
Arguments long_base_volume {N T _ _} _.
Arguments short_base_volume {N T _ _} _.
Arguments checkpoint_duration {N T _ _} _.
Arguments checkpoints {N T _ _} _.

(** [elfpy/agents/agent_trade_result.py]. *)
Module agent_trade_result.
Record AgentTradeResult (V : Type) : Type := mkAgentTradeResult {
  d_base : V;
  d_bonds : V
}.
Arguments mkAgentTradeResult {V} _ _.
Arguments d_base {V} _.
Arguments d_bonds {V} _.
End agent_trade_result.

(** [elfpy/markets/hyperdrive/market_action_result.py]. *)
Module market_action_result.
Record MarketActionResult (V : Type) : Type := mkMarketActionResult {
  d_base : V;
  d_bonds : V
}.
Arguments mkMarketActionResult {V} _ _.
Arguments d_base {V} _.
Arguments d_bonds {V} _.
End market_action_result.

(** Modelled from the spec: [elfpy.pricing_models.trades] is not among the
    sources.  "TradeResult: {breakdown: {without_fee_or_slippage,
    without_fee, fee, with_fee}, market_result: {d_base, d_bonds},
    user_result: {d_base, d_bonds}}".  The type [V] of the stored values
    is a parameter: Python does not enforce the annotation [float], which
    is why [check_output_assertions] tests [isinstance]. *)
Record TradeBreakdown (V : Type) : Type := mkTradeBreakdown {
  without_fee_or_slippage : V;
  without_fee : V;
  fee : V;
  with_fee : V
}.
Arguments mkTradeBreakdown {V} _ _ _ _.
Arguments without_fee_or_slippage {V} _.
Arguments without_fee {V} _.
Arguments fee {V} _.
Arguments with_fee {V} _.

Record TradeResult (V : Type) : Type := mkTradeResult {
  user_result : agent_trade_result.AgentTradeResult V;
  market_result : market_action_result.MarketActionResult V;
  breakdown : TradeBreakdown V
}.
Arguments mkTradeResult {V} _ _ _.
Arguments user_result {V} _.
Arguments market_result {V} _.
Arguments breakdown {V} _.

(** ** Dynamically typed values *)

(** The Python objects that can sit in an attribute the source inspects at
    run time ([isinstance], truthiness, [np.isfinite]). *)
Inductive pyval : Type :=
| PyNone
| PyInt (z : Z)
| PyFloat (f : float)
| PyFixedPoint (x : FixedPointMath.FixedPoint)
| PyDict (items : list (pyval * pyval))
| PyQuantity (amount : pyval) (unit_ : TokenType).

(** [isinstance(v, C)] for the numeric class [C] that [N] models, giving
    the value at that type. *)
Class IsInstance (V N : Type) : Type := isinstance : V -> option N.

(** A record whose fields are typed holds values of the class. *)
#[global] Instance isinstance_typed (N : Type) : IsInstance N N := Some.

#[global] Instance isinstance_float : IsInstance pyval float :=
  fun v => match v with PyFloat f => Some f | _ => None end.

#[global] Instance isinstance_FixedPoint
  : IsInstance pyval FixedPointMath.FixedPoint :=
  fun v => match v with PyFixedPoint x => Some x | _ => None end.

(** ** Computations that leave a trace

    [logging.warning] and the calls of the overridable pricing-model
    methods are recorded in a trace next to the outcome. *)

Definition Traced (E A : Type) : Type := (list E * result A)%type.

Definition tret {E A} (a : A) : Traced E A := ([], Ok a).

Definition tbind {E A B} (m : Traced E A) (k : A -> Traced E B) : Traced E B :=
  match m with
  | (es, Ok a) => let '(es', r) := k a in (es ++ es', r)
  | (es, Raise e) => (es, Raise e)
  end.

Definition emit {E} (e : E) : Traced E unit := ([e], Ok tt).

Definition lift {E A} (r : result A) : Traced E A := ([], r).

Definition trace {E A} (m : Traced E A) : list E := fst m.
Definition outcome {E A} (m : Traced E A) : result A := snd m.

#[global] Instance traced_ret {E} : MRet (Traced E) := @tret E.
#[global] Instance traced_bind {E} : MBind (Traced E) :=
  fun A B k m => tbind m k.

(** ** Constants of the [elfpy] package

    [elfpy.WEI], [elfpy.MAX_RESERVES_DIFFERENCE] and
    [elfpy.PRECISION_THRESHOLD] (and their [_FP] twins) are defined in
    [elfpy/__init__.py], which is not among the sources: they are
    parameters. *)
Class ElfpyConstants (N : Type) : Type := {
  WEI : N;
  MAX_RESERVES_DIFFERENCE : N;
  PRECISION_THRESHOLD : N
}.

(** ** The pricing-model base class *)

(** The methods a concrete pricing model overrides. *)
Class PricingModelMethods (N T : Type) `{Countable T} : Type := {
  calc_in_given_out :
    Quantity N -> MarketState N T -> StretchedTime N -> result (TradeResult N);
  calc_out_given_in :
    Quantity N -> MarketState N T -> StretchedTime N -> result (TradeResult N)
}.

(** The base class itself: both methods [raise NotImplementedError]. *)
Definition base_methods (N T : Type) `{Countable T} : PricingModelMethods N T := {|
  calc_in_given_out _ _ _ := Raise NotImplementedError;
  calc_out_given_in _ _ _ := Raise NotImplementedError
|}.

(** A call of an overridable method, as recorded in the trace. *)
Inductive PMCall (N T : Type) `{Countable T} : Type :=
| CallInGivenOut (out : Quantity N) (ms : MarketState N T) (t : StretchedTime N)
| CallOutGivenIn (in_ : Quantity N) (ms : MarketState N T) (t : StretchedTime N).
Arguments CallInGivenOut {N T _ _} _ _ _.
Arguments CallOutGivenIn {N T _ _} _ _ _.

(** A record of [logging.warning]. *)
Inductive LogRecord (N : Type) : Type :=
| Warning_share_price (init_share_price share_price : N).
Arguments Warning_share_price {N} _ _.

Section PricingModel.
Context {N T : Type} `{PyNum N} `{Countable T}.

Definition calc_time_stretch (apr : N) : result N :=
  apr_percent ← kmul apr (klit 100 0);
  denominator ← kmul (klit 2789 5) apr_percent;
  kdiv (klit 309396 5) denominator.

(** Modelled from the spec: [elfpy.time.norm_days] is not among the
    sources; "normalized_time = days_remaining / normalizing_constant". *)
Definition norm_days (days normalizing_constant : N) : result N :=
  kdiv days normalizing_constant.

Section Reserves.
Context `{PyPow N}.

Definition calc_bond_reserves (target_apr : N) (time_remaining : StretchedTime N)
    (market_state : MarketState N T) : result N :=
  annualized_time ← norm_days (days time_remaining) (klit 365 0);
  rt ← kmul target_apr annualized_time;
  base ← kadd (klit 1 0) rt;
  exponent ← kdiv (klit 1 0) (stretched_time time_remaining);
  interest_factor ← kpow base exponent;
  mu_z ← kmul (init_share_price market_state) (share_reserves market_state);
  mu_z_f ← kmul mu_z interest_factor;
  ksub mu_z_f (lp_total_supply market_state).

Definition calc_initial_bond_reserves (target_apr : N)
    (time_remaining : StretchedTime N) (market_state : MarketState N T)
    : result N :=
  annualized_time ← norm_days (days time_remaining) (klit 365 0);
  half_z ← kdiv (share_reserves market_state) (klit 2 0);
  rt ← kmul target_apr annualized_time;
  base ← kadd (klit 1 0) rt;
  exponent ← kdiv (klit 1 0) (stretched_time time_remaining);
  interest_factor ← kpow base exponent;
  mu_f ← kmul (init_share_price market_state) interest_factor;
  inner ← ksub mu_f (share_price market_state);
  kmul half_z inner.

End Reserves.

(** Modelled from the spec: [elfpy.utils.price.calc_apr_from_spot_price] is
    not among the sources; "apr = (1/price - 1) / normalized_time". *)
Definition calc_apr_from_spot_price (price : N) (time_remaining : StretchedTime N)
    : result N :=
  inverse ← kdiv (klit 1 0) price;
  excess ← ksub inverse (klit 1 0);
  kdiv excess (normalized_time time_remaining).

Section GetMax.
Context {pm : PricingModelMethods N T}.

Definition call_in_given_out (out : Quantity N) (ms : MarketState N T)
    (t : StretchedTime N) : Traced (PMCall N T) (TradeResult N) :=
  ([CallInGivenOut out ms t], calc_in_given_out out ms t).

Definition call_out_given_in (in_ : Quantity N) (ms : MarketState N T)
    (t : StretchedTime N) : Traced (PMCall N T) (TradeResult N) :=
  ([CallOutGivenIn in_ ms t], calc_out_given_in in_ ms t).

Definition get_max_long (market_state : MarketState N T)
    (time_remaining : StretchedTime N) : Traced (PMCall N T) (N * N) :=
  out ← lift (ksub (bond_reserves market_state) (bond_buffer market_state));
  r_in ← call_in_given_out (mkQuantity out PT) market_state time_remaining;
  let base := with_fee (breakdown r_in) in
  r_out ← call_out_given_in (mkQuantity base BASE) market_state time_remaining;
  let bonds := with_fee (breakdown r_out) in
  mret (base, bonds).

Definition get_max_short (market_state : MarketState N T)
    (time_remaining : StretchedTime N) : Traced (PMCall N T) (N * N) :=
  buffer_shares ← lift (kdiv (base_buffer market_state) (share_price market_state));
  out ← lift (ksub (share_reserves market_state) buffer_shares);
  r_in ← call_in_given_out (mkQuantity out PT) market_state time_remaining;
  let bonds := with_fee (breakdown r_in) in
  r_out ← call_out_given_in (mkQuantity bonds PT) market_state time_remaining;
  let base := with_fee (breakdown r_out) in
  mret (base, bonds).

End GetMax.

Section Assertions.
Context {constants : ElfpyConstants N}.

Definition check_input_assertions (quantity : Quantity N)
    (market_state : MarketState N T) (time_remaining : StretchedTime N)
    : Traced (LogRecord N) unit :=
  lift (py_assert (kge (amount quantity) WEI));;
  lift (py_assert (kge (share_reserves market_state) (klit 0 0)));;
  lift (py_assert (kge (bond_reserves market_state) (klit 0 0)));;
  (if klt (share_price market_state) (init_share_price market_state)
   then emit (Warning_share_price (init_share_price market_state)
                                  (share_price market_state))
   else mret tt);;
  lift (py_assert (kge (init_share_price market_state) (klit 1 0)));;
  reserves_difference ← lift (
    zc ← kmul (share_reserves market_state) (share_price market_state);
    diff ← ksub zc (bond_reserves market_state);
    mret (kabs diff));
  lift (py_assert (klt reserves_difference MAX_RESERVES_DIFFERENCE));;
  lift (py_assert (kge (klit 1 0) (curve_fee_multiple market_state)
                   && kge (curve_fee_multiple market_state) (klit 0 0)));;
  lift (py_assert (kge (klit 1 0) (flat_fee_multiple market_state)
                   && kge (flat_fee_multiple market_state) (klit 0 0)));;
  upper ← lift (kadd (klit 1 0) PRECISION_THRESHOLD);
  lift (py_assert (kge upper (stretched_time time_remaining)
                   && kge (stretched_time time_remaining) (kneg PRECISION_THRESHOLD)));;
  upper' ← lift (kadd (klit 1 0) PRECISION_THRESHOLD);
  lift (py_assert (kge upper' (normalized_time time_remaining)
                   && kge (normalized_time time_remaining) (kneg PRECISION_THRESHOLD))).

End Assertions.

Section OutputAssertions.
Context {V : Type} `{!IsInstance V N}.

Definition check_output_assertions (trade_result : TradeResult V) : result unit :=
  py_assert (bool_decide (is_Some (isinstance (fee (breakdown trade_result)))));;
  fee_value ← from_option Ok (Raise TypeError)
                 (isinstance (fee (breakdown trade_result)));
  py_assert (kge fee_value (klit 0 0));;
  py_assert (bool_decide (is_Some (isinstance (without_fee (breakdown trade_result)))));;
  without_fee_value ← from_option Ok (Raise TypeError)
                 (isinstance (without_fee (breakdown trade_result)));
  py_assert (kge without_fee_value (klit 0 0)).

End OutputAssertions.

End PricingModel.

(** ** [PricingModel]: the spot price on the high-precision path *)

(** [Decimal(x)] and [float(d)]: the conversions between the working
    numbers [N] and the high-precision numbers [D]. *)
Class HighPrecision (N D : Type) : Type := {
  to_decimal : N -> D;
  of_decimal : D -> N
}.

Module PricingModel.
Section SpotPrice.
Context {N D T : Type} {num : PyNum N} {dnum : PyNum D} {dpow : PyPow D}
        {hp : HighPrecision N D} `{Countable T}.

Definition _calc_spot_price_from_reserves_high_precision
    (market_state : MarketState N T) (time_remaining : StretchedTime N)
    : result D :=
  let init_share_price := to_decimal (init_share_price market_state) in
  let share_reserves := to_decimal (share_reserves market_state) in
  let bond_reserves := to_decimal (bond_reserves market_state) in
  let lp_total_supply := to_decimal (lp_total_supply market_state) in
  let tau := to_decimal (stretched_time time_remaining) in
  numerator ← kmul init_share_price share_reserves;
  denominator ← kadd bond_reserves lp_total_supply;
  quotient ← kdiv numerator denominator;
  kpow quotient tau.

Definition calc_spot_price_from_reserves
    (market_state : MarketState N T) (time_remaining : StretchedTime N)
    : result N :=
  of_decimal <$>
    _calc_spot_price_from_reserves_high_precision market_state time_remaining.

Definition calc_apr_from_reserves
    (market_state : MarketState N T) (time_remaining : StretchedTime N)
    : result N :=
  spot_price ← calc_spot_price_from_reserves market_state time_remaining;
  calc_apr_from_spot_price spot_price time_remaining.

End SpotPrice.
End PricingModel.

(** ** [PricingModelFP]: the spot price with its guard *)

Module PricingModelFP.
Import FixedPointMath.
Section SpotPrice.
Context {T : Type} `{Countable T} {fpow : PyPow FixedPoint}.

Definition calc_spot_price_from_reserves
    (market_state : MarketState FixedPoint T)
    (time_remaining : StretchedTime FixedPoint) : result FixedPoint :=
  total ← kadd (bond_reserves market_state) (lp_total_supply market_state);
  if keq total (FPVal 0) then Ok FPNaN
  else
    numerator ← kmul (init_share_price market_state) (share_reserves market_state);
    denominator ← kadd (bond_reserves market_state) (lp_total_supply market_state);
    quotient ← kdiv numerator denominator;
    kpow quotient (stretched_time time_remaining).

Definition calc_apr_from_reserves
    (market_state : MarketState FixedPoint T)
    (time_remaining : StretchedTime FixedPoint) : result FixedPoint :=
  spot_price ← calc_spot_price_from_reserves market_state time_remaining;
  calc_apr_from_spot_price spot_price time_remaining.

End SpotPrice.
End PricingModelFP.

(** ** [elfpy/markets/base.py] *)

(** [bool(v)]: the truth value of an object. *)
Definition truthy (v : pyval) : bool :=
  match v with
  | PyNone => false
  | PyInt z => negb (z =? 0)%Z
  | PyFloat f => PyFloat.truthy f
  | PyFixedPoint x => negb (FixedPointMath.is_zero x)
  | PyDict items => negb (Nat.eqb (length items) 0)
  | PyQuantity _ _ => true
  end.

(** [np.isfinite(v)]: defined on numbers; numpy raises [TypeError] on any
    other object.  A Python int is a number to numpy when it fits a 64-bit
    integer, signed or unsigned; a larger one is an object like any
    other. *)
Definition np_isfinite (v : pyval) : result bool :=
  match v with
  | PyFloat f => Ok (PyFloat.isfinite f)
  | PyInt z =>
      if ((- 2 ^ 63 <=? z) && (z <? 2 ^ 64))%Z then Ok true
      else Raise TypeError
  | _ => Raise TypeError
  end.

(** A computation on a mutable object: the object after the call, and the
    outcome.  An exception leaves the mutations made before it. *)
Definition Mut (S A : Type) : Type := S -> S * result A.

Definition mut_bind {S A B} (m : Mut S A) (k : A -> Mut S B) : Mut S B :=
  fun s => match m s with
           | (s', Ok a) => k a s'
           | (s', Raise e) => (s', Raise e)
           end.

Definition mut_pure {S A} (r : result A) : Mut S A := fun s => (s, r).

Definition mut_read {S A} (f : S -> result A) : Mut S A := fun s => (s, f s).

(** What a market class needs from its state and delta classes:
    [BaseMarketState.apply_delta] (abstract in the source), the
    [__dict__] of a delta object, and [elfpy.check_non_zero] and
    [elfpy.check_non_zero_fp] (two functions defined in
    [elfpy/__init__.py], not among the sources). *)
Class MarketClasses (State Deltas : Type) : Type := {
  apply_delta : Deltas -> Mut State unit;
  delta_dict : Deltas -> list (string * pyval);
  check_non_zero : State -> result unit;
  check_non_zero_fp : State -> result unit
}.

Section Market.
Context {State Deltas PM BT : Type} {classes : MarketClasses State Deltas}.

Record Market : Type := mkMarket {
  pricing_model : PM;
  market_state : State;
  block_time : BT
}.

Definition set_market_state (m : Market) (s : State) : Market :=
  {| pricing_model := pricing_model m;
     market_state := s;
     block_time := block_time m |}.

(** Runs a computation on [self.market_state]. *)
Definition on_market_state {A} (c : Mut State A) : Mut Market A :=
  fun m => let '(s', r) := c (market_state m) in (set_market_state m s', r).

Fixpoint check_items (items : list (string * pyval)) : result unit :=
  match items with
  | [] => Ok tt
  | (key, value) :: rest =>
      (if truthy value then
         let value_to_check :=
           match value with PyQuantity a _ => a | _ => value end in
         finite ← np_isfinite value_to_check;
         py_assert finite
       else Ok tt);;
      check_items rest
  end.

Definition check_market_updates (market_deltas : Deltas) : result unit :=
  check_items (delta_dict market_deltas).

(** [Market.update_market]. *)
Definition update_market (market_deltas : Deltas) : Mut Market unit :=
  mut_bind (mut_pure (check_market_updates market_deltas)) (fun _ =>
  mut_bind (on_market_state (apply_delta market_deltas)) (fun _ =>
  on_market_state (mut_read check_non_zero))).

(** [MarketFP.update_market]. *)
Definition update_market_fp (market_deltas : Deltas) : Mut Market unit :=
  mut_bind (on_market_state (apply_delta market_deltas)) (fun _ =>
  on_market_state (mut_read check_non_zero_fp)).

End Market.
Arguments Market : clear implicits.
Arguments mkMarket {State PM BT} _ _ _.

(** ** The hyperdrive market state and its deltas *)

Module Hyperdrive.

(** The total operations of a number class that the ledger uses: [x + y]
    (which never raises on [float] and [FixedPoint]), [x < 0], and the
    object a field of that class holds. *)
Class LedgerNum (N : Type) : Type := {
  plus : N -> N -> N;
  zero : N;
  is_negative : N -> bool;
  to_py : N -> pyval
}.

#[global] Instance float_ledger : LedgerNum float := {
  plus := PrimFloat.add;
  zero := PrimFloat.zero;
  is_negative x := PrimFloat.ltb x PrimFloat.zero;
  to_py := PyFloat
}.

#[global] Instance fixed_ledger : LedgerNum FixedPointMath.FixedPoint := {
  plus := FixedPointMath.add;
  zero := FixedPointMath.FPVal 0;
  is_negative x := FixedPointMath.ltb x (FixedPointMath.FPVal 0);
  to_py := PyFixedPoint
}.

(** Modelled from the spec: the hyperdrive [MarketDeltas] class and
    [MarketState.apply_delta] are not among the sources.  "MarketDeltas:
    signed increments for every mutable MarketState field plus nested
    checkpoint-bucket increments (d_long_checkpoint_base_volume[time],
    d_short_checkpoint_base_volume[time])"; "apply_delta(delta): adds every
    field of delta to the corresponding state field, including
    per-checkpoint volume increments".  The finiteness precondition and
    the post-condition the spec mentions next are the two checks of
    [update_market]. *)
Record MarketDeltas (N T : Type) `{Countable T} : Type := mkMarketDeltas {
  d_share_reserves : N;
  d_bond_reserves : N;
  d_lp_total_supply : N;
  d_share_price : N;
  d_base_buffer : N;
  d_bond_buffer : N;
  d_longs_outstanding : N;
  d_shorts_outstanding : N;
  d_long_average_maturity_time : N;
  d_short_average_maturity_time : N;
  d_long_base_volume : N;
  d_short_base_volume : N;
  d_long_checkpoint_base_volume : gmap T N;
  d_short_checkpoint_base_volume : gmap T N
}.
Arguments mkMarketDeltas {N T _ _} _ _ _ _ _ _ _ _ _ _ _ _ _ _.
Arguments d_share_reserves {N T _ _} _.
Arguments d_bond_reserves {N T _ _} _.
Arguments d_lp_total_supply {N T _ _} _.
Arguments d_share_price {N T _ _} _.
Arguments d_base_buffer {N T _ _} _.
Arguments d_bond_buffer {N T _ _} _.
Arguments d_longs_outstanding {N T _ _} _.
Arguments d_shorts_outstanding {N T _ _} _.
Arguments d_long_average_maturity_time {N T _ _} _.
Arguments d_short_average_maturity_time {N T _ _} _.
Arguments d_long_base_volume {N T _ _} _.
Arguments d_short_base_volume {N T _ _} _.
Arguments d_long_checkpoint_base_volume {N T _ _} _.
Arguments d_short_checkpoint_base_volume {N T _ _} _.

Section Ledger.
Context {N T : Type} `{LedgerNum N} `{Countable T} (key_to_py : T -> pyval).

Definition add_long_volume (ck : option (Checkpoint N)) (dv : option N)
    : option (Checkpoint N) :=
  match dv with
  | None => ck
  | Some v =>
      let c := default (mkCheckpoint zero zero zero) ck in
      Some (mkCheckpoint (checkpoint_share_price c)
                         (plus (checkpoint_long_base_volume c) v)
                         (checkpoint_short_base_volume c))
  end.

Definition add_short_volume (ck : option (Checkpoint N)) (dv : option N)
    : option (Checkpoint N) :=
  match dv with
  | None => ck
  | Some v =>
      let c := default (mkCheckpoint zero zero zero) ck in
      Some (mkCheckpoint (checkpoint_share_price c)
                         (checkpoint_long_base_volume c)
                         (plus (checkpoint_short_base_volume c) v))
  end.

Definition apply_delta_state (delta : MarketDeltas N T) (s : MarketState N T)
    : MarketState N T :=
  {| share_reserves := plus (share_reserves s) (d_share_reserves delta);
     bond_reserves := plus (bond_reserves s) (d_bond_reserves delta);
     lp_total_supply := plus (lp_total_supply s) (d_lp_total_supply delta);
     share_price := plus (share_price s) (d_share_price delta);
     init_share_price := init_share_price s;
     variable_apr := variable_apr s;
     curve_fee_multiple := curve_fee_multiple s;
     flat_fee_multiple := flat_fee_multiple s;
     base_buffer := plus (base_buffer s) (d_base_buffer delta);
     bond_buffer := plus (bond_buffer s) (d_bond_buffer delta);
     longs_outstanding := plus (longs_outstanding s) (d_longs_outstanding delta);
     shorts_outstanding := plus (shorts_outstanding s) (d_shorts_outstanding delta);
     long_average_maturity_time :=
       plus (long_average_maturity_time s) (d_long_average_maturity_time delta);
     short_average_maturity_time :=
       plus (short_average_maturity_time s) (d_short_average_maturity_time delta);
     long_base_volume := plus (long_base_volume s) (d_long_base_volume delta);
     short_base_volume := plus (short_base_volume s) (d_short_base_volume delta);
     checkpoint_duration := checkpoint_duration s;
     checkpoints :=
       merge add_short_volume
         (merge add_long_volume (checkpoints s)
                (d_long_checkpoint_base_volume delta))
         (d_short_checkpoint_base_volume delta) |}.

Definition dict_of (m : gmap T N) : pyval :=
  PyDict ((fun kv => (key_to_py kv.1, to_py kv.2)) <$> map_to_list m).

(** [market_deltas.__dict__.items()], in the order of the declaration. *)
Definition delta_items (delta : MarketDeltas N T) : list (string * pyval) :=
  [ ("d_share_reserves"%string, to_py (d_share_reserves delta));
    ("d_bond_reserves"%string, to_py (d_bond_reserves delta));
    ("d_lp_total_supply"%string, to_py (d_lp_total_supply delta));
    ("d_share_price"%string, to_py (d_share_price delta));
    ("d_base_buffer"%string, to_py (d_base_buffer delta));
    ("d_bond_buffer"%string, to_py (d_bond_buffer delta));
    ("d_longs_outstanding"%string, to_py (d_longs_outstanding delta));
    ("d_shorts_outstanding"%string, to_py (d_shorts_outstanding delta));
    ("d_long_average_maturity_time"%string,
       to_py (d_long_average_maturity_time delta));
    ("d_short_average_maturity_time"%string,
       to_py (d_short_average_maturity_time delta));
    ("d_long_base_volume"%string, to_py (d_long_base_volume delta));
    ("d_short_base_volume"%string, to_py (d_short_base_volume delta));
    ("d_long_checkpoint_base_volume"%string,
       dict_of (d_long_checkpoint_base_volume delta));
    ("d_short_checkpoint_base_volume"%string,
       dict_of (d_short_checkpoint_base_volume delta)) ].

(** Modelled from the spec: [elfpy.check_non_zero] and
    [elfpy.check_non_zero_fp] are not among the sources; "a post-condition
    check re-verifies global reserve invariants after application", the
    invariant being "reserves non-negative", for both. *)
Definition reserves_non_negative (s : MarketState N T) : result unit :=
  py_assert (negb (is_negative (share_reserves s)));;
  py_assert (negb (is_negative (bond_reserves s)));;
  py_assert (negb (is_negative (lp_total_supply s))).

#[global] Instance hyperdrive_classes
  : MarketClasses (MarketState N T) (MarketDeltas N T) := {
  apply_delta delta := fun s => (apply_delta_state delta s, Ok tt);
  delta_dict := delta_items;
  check_non_zero := reserves_non_negative;
  check_non_zero_fp := reserves_non_negative
}.

End Ledger.

(** *** The checkpoint subsystem *)

(** The order and the alignment test on checkpoint times. *)
Class TimeOps (T : Type) : Type := {
  time_le : T -> T -> bool;
  is_multiple_of : T -> T -> bool
}.

#[global] Instance Z_time : TimeOps Z := {
  time_le := Z.leb;
  is_multiple_of t d := (t mod d =? 0)%Z
}.

Section Checkpoints.
Context {N T PM : Type} `{LedgerNum N} `{Countable T} `{TimeOps T}.

(** Modelled from the spec: the settlement of matured positions is not
    among the sources.  "settles every position whose maturity falls
    within bucket t: removes it from longs_outstanding /
    shorts_outstanding, zeroes its contribution to the aggregate
    average-maturity-time and base-volume trackers, and computes its final
    proceeds via the flat-redemption rule".  The amounts come from the
    positions, which the spec leaves with the wallet: the settlement is a
    parameter. *)
Variable settle_matured : T -> MarketState N T -> MarketState N T.

Definition record_checkpoint (checkpoint_time : T) (s : MarketState N T)
    : MarketState N T :=
  {| share_reserves := share_reserves s;
     bond_reserves := bond_reserves s;
     lp_total_supply := lp_total_supply s;
     share_price := share_price s;
     init_share_price := init_share_price s;
     variable_apr := variable_apr s;
     curve_fee_multiple := curve_fee_multiple s;
     flat_fee_multiple := flat_fee_multiple s;
     base_buffer := base_buffer s;
     bond_buffer := bond_buffer s;
     longs_outstanding := longs_outstanding s;
     shorts_outstanding := shorts_outstanding s;
     long_average_maturity_time := long_average_maturity_time s;
     short_average_maturity_time := short_average_maturity_time s;
     long_base_volume := long_base_volume s;
     short_base_volume := short_base_volume s;
     checkpoint_duration := checkpoint_duration s;
     checkpoints :=
       <[checkpoint_time := mkCheckpoint (share_price s) zero zero]>
         (checkpoints s) |}.

(** Modelled from the spec: the hyperdrive [Market.checkpoint] is not among
    the sources.  "A checkpoint for time t (must be t <= now and t mod
    checkpoint_duration == 0, else fails with an invalid-timestamp error)
    is idempotent: if bucket t already has a recorded Checkpoint, calling
    again is a no-op.  On first creation for bucket t, the subsystem: (1)
    snapshots the current share_price into the checkpoint; (2) settles
    every position whose maturity falls within bucket t". *)
Definition checkpoint (checkpoint_time : T)
    : Mut (Market (MarketState N T) PM T) unit :=
  fun m =>
    let s := market_state m in
    if negb (time_le checkpoint_time (block_time m))
       || negb (is_multiple_of checkpoint_time (checkpoint_duration s))
    then (m, Raise InvalidCheckpointTime)
    else match checkpoints s !! checkpoint_time with
         | Some _ => (m, Ok tt)
         | None =>
             (set_market_state m
                (settle_matured checkpoint_time
                   (record_checkpoint checkpoint_time s)),
              Ok tt)
         end.

End Checkpoints.

End Hyperdrive.

(** ** [examples/example_main.py]: the [CustomShorter] policy *)

Module example_main.

(** The two action types and the market type the policy names. *)
Inductive MarketActionType : Type := OPEN_SHORT | CLOSE_SHORT.

Inductive MarketType : Type := HYPERDRIVE.

(** [hyperdrive_actions.MarketAction] as the policy builds it; the wallet,
    the agent's own, is left out.  [mint_time] is [None] when the policy
    does not pass it. *)
Record MarketAction : Type := mkMarketAction {
  action_type : MarketActionType;
  trade_amount : Z;
  mint_time : option float
}.

Record Trade : Type := mkTrade {
  market : MarketType;
  trade : MarketAction
}.

(** The outcomes of [action]: a list of trades, the [IndexError] of
    [list(...)[0]], or an exception of one of the two methods it calls. *)
Inductive Outcome (A : Type) : Type :=
| Returns (a : A)
| RaisesIndexError
| Reraises (e : exn).
Arguments Returns {A} _.
Arguments RaisesIndexError {A}.
Arguments Reraises {A} _.

(** [self.pt_to_short = 1_000]. *)
Definition pt_to_short : Z := 1000.

(** [CustomShorter.action].  [shorts] is [self.wallet.shorts], a dict from
    mint time to a position with a [balance], as its items in insertion
    order; [get_max_short] is the outcome of [self.get_max_short(market)]
    and [fixed_apr] that of the property [market.fixed_apr], both defined
    outside the sources; [fixed_apr] is read only under [can_open_short]. *)
Definition action (shorts : list (float * float))
    (get_max_short : result float) (variable_apr : float)
    (fixed_apr : result float) : Outcome (list Trade) :=
  let has_opened_short :=
    existsb (fun short => PrimFloat.ltb 0%float short.2) shorts in
  match get_max_short with
  | Raise e => Reraises e
  | Ok max_short =>
      let can_open_short := PrimFloat.leb (PyFloat.lit pt_to_short 0) max_short in
      let vault_apr := variable_apr in
      if can_open_short then
        match fixed_apr with
        | Raise e => Reraises e
        | Ok fixed =>
            if PrimFloat.ltb fixed vault_apr then
              Returns [mkTrade HYPERDRIVE
                         (mkMarketAction OPEN_SHORT pt_to_short None)]
            else if PrimFloat.ltb vault_apr fixed then
              if has_opened_short then
                match shorts with
                | [] => RaisesIndexError
                | (first_key, _) :: _ =>
                    Returns [mkTrade HYPERDRIVE
                               (mkMarketAction CLOSE_SHORT pt_to_short
                                               (Some first_key))]
                end
              else Returns []
            else Returns []
        end
      else Returns []
  end.

End example_main.

(** ** [tests/utils_for_tests.py]: the custom parameters of a policy *)

Module utils_for_tests.
Import Stdlib.Strings.Ascii.

(** [s.split(sep)] for a separator of one character: the pieces between
    the occurrences of [sep], empty pieces included; never empty. *)
Fixpoint split (sep : Ascii.ascii) (s : string) : list string :=
  match s with
  | EmptyString => [EmptyString]
  | String c rest =>
      if Ascii.eqb c sep then EmptyString :: split sep rest
      else match split sep rest with
           | [] => [String c EmptyString]
           | piece :: pieces => String c piece :: pieces
           end
  end.

(** The messages of [logging.info]. *)
Inductive InfoRecord : Type :=
| Info_no_policy_arguments
| Info_key_value_pairs.

(** [{key: float(value) for key, value in policy_args}]: each item is
    unpacked into two names and the value converted; either step raises
    [ValueError] (the whole comprehension then fails, [None]); a key met
    again replaces the earlier value.  [float] on a string is a
    parameter. *)
Definition kwargs_of (float_of_str : string -> option float)
    (policy_args : list (list string)) : option (gmap string float) :=
  foldl (fun kwargs arg =>
           kwargs ← kwargs;
           match arg with
           | [key; value] =>
               number ← float_of_str value;
               Some (<[key := number]> kwargs)
           | _ => None
           end)
        (Some ∅) policy_args.

(** [validate_custom_parameters].  The two handlers for [AttributeError]
    guard [str.split] on values that are strings, as [str.split] returned
    them; the unpacking of the first split is outside every [try]. *)
Definition validate_custom_parameters (float_of_str : string -> option float)
    (policy_instruction : string)
    : Traced InfoRecord (string * gmap string float) :=
  match split ":"%char policy_instruction with
  | [policy_name; policy_args] =>
      let policy_args := split ","%char policy_args in
      let policy_args := split "="%char <$> policy_args in
      match kwargs_of float_of_str policy_args with
      | Some kwargs => tret (policy_name, kwargs)
      | None => emit Info_key_value_pairs;; lift (Raise ValueError)
      end
  | _ => lift (Raise ValueError)
  end.

End utils_for_tests.

(** ** Vocabulary of the statements and example data *)

(** The scaled integer behind [calc_time_stretch] on a positive
    fixed-point rate. *)
Definition fixed_time_stretch (a : Z) : Z :=
  (3093960000000000000 * 10 ^ 18
   / (27890000000000000 * (a * 100000000000000000000 / 10 ^ 18) / 10 ^ 18))%Z.

(** A floating-point trade result whose fee is [+inf]. *)
Definition infinite_fee_result : TradeResult pyval :=
  {| user_result := agent_trade_result.mkAgentTradeResult (PyFloat 1) (PyFloat 1);
     market_result := market_action_result.mkMarketActionResult (PyFloat 1) (PyFloat 1);
     breakdown := {| without_fee_or_slippage := PyFloat 1;
                     without_fee := PyFloat 1;
                     fee := PyFloat infinity;
                     with_fee := PyFloat infinity |} |}.

Section InputPreconditions.
Context {N T : Type} `{PyNum N} `{Countable T} {constants : ElfpyConstants N}.

(** The conditions the assertions of [check_input_assertions] test. *)
Definition asserted_preconditions (quantity : Quantity N)
    (market_state : MarketState N T) (time_remaining : StretchedTime N) : Prop :=
  kge (amount quantity) WEI = true /\
  kge (share_reserves market_state) (klit 0 0) = true /\
  kge (bond_reserves market_state) (klit 0 0) = true /\
  kge (init_share_price market_state) (klit 1 0) = true /\
  (exists zc diff : N,
      kmul (share_reserves market_state) (share_price market_state) = Ok zc /\
      ksub zc (bond_reserves market_state) = Ok diff /\
      klt (kabs diff) MAX_RESERVES_DIFFERENCE = true) /\
  (kge (klit 1 0) (curve_fee_multiple market_state) = true /\
   kge (curve_fee_multiple market_state) (klit 0 0) = true) /\
  (kge (klit 1 0) (flat_fee_multiple market_state) = true /\
   kge (flat_fee_multiple market_state) (klit 0 0) = true) /\
  (exists upper : N,
      kadd (klit 1 0) PRECISION_THRESHOLD = Ok upper /\
      kge upper (stretched_time time_remaining) = true /\
      kge (stretched_time time_remaining) (kneg PRECISION_THRESHOLD) = true /\
      kge upper (normalized_time time_remaining) = true /\
      kge (normalized_time time_remaining) (kneg PRECISION_THRESHOLD) = true).

(** The warnings [check_input_assertions] logs on a state. *)
Definition share_price_warnings (market_state : MarketState N T)
    : list (LogRecord N) :=
  if klt (share_price market_state) (init_share_price market_state)
  then [Warning_share_price (init_share_price market_state)
                            (share_price market_state)]
  else [].

End InputPreconditions.

(** Constants for the floating-point examples: one wei and a reserves
    difference of twenty billion (the comment at the head of
    [pricing_models/base.py] speaks of "a lowest possible input of 1e-18
    with an reserves difference of up to 20 billion"), and a precision
    threshold of [1e-8]. *)
Definition float_constants : ElfpyConstants float := {|
  WEI := 1e-18%float;
  MAX_RESERVES_DIFFERENCE := 2e10%float;
  PRECISION_THRESHOLD := 1e-8%float
|}.

(** A pool whose share price [1.0] is below its initial share price [1.5]. *)
Definition low_share_price_state : MarketState float Z := {|
  share_reserves := 1000000%float;
  bond_reserves := 1000000%float;
  lp_total_supply := 2000000%float;
  share_price := 1%float;
  init_share_price := 1.5%float;
  variable_apr := 0.03%float;
  curve_fee_multiple := 0.1%float;
  flat_fee_multiple := 0.1%float;
  base_buffer := 0%float;
  bond_buffer := 0%float;
  longs_outstanding := 0%float;
  shorts_outstanding := 0%float;
  long_average_maturity_time := 0%float;
  short_average_maturity_time := 0%float;
  long_base_volume := 0%float;
  short_base_volume := 0%float;
  checkpoint_duration := 1%Z;
  checkpoints := ∅
|}.

Definition quarter_year : StretchedTime float := {|
  days := 91%float;
  time_stretch := 22.186877016851916%float;
  normalizing_constant := 365%float;
  normalized_time := (91 / 365)%float;
  stretched_time := (91 / 365 / 22.186877016851916)%float
|}.

Section GetMaxCalls.
Context {N T : Type} `{Countable T}.

(** The two pricing-model calls of [get_max_long] on a boundary amount. *)
Definition max_long_calls (out : N) (base : N) (ms : MarketState N T)
    (t : StretchedTime N) : list (PMCall N T) :=
  [CallInGivenOut (mkQuantity out PT) ms t;
   CallOutGivenIn (mkQuantity base BASE) ms t].

Definition max_short_calls (out : N) (bonds : N) (ms : MarketState N T)
    (t : StretchedTime N) : list (PMCall N T) :=
  [CallInGivenOut (mkQuantity out PT) ms t;
   CallOutGivenIn (mkQuantity bonds PT) ms t].

End GetMaxCalls.

(** *** A hyperdrive market on floats and one on fixed-point numbers *)

Module Pools.
Import Hyperdrive.

(** "created once at market construction with zero reserves". *)
Definition fresh_state {N : Type} (zero one : N) : MarketState N Z := {|
  share_reserves := zero;
  bond_reserves := zero;
  lp_total_supply := zero;
  share_price := one;
  init_share_price := one;
  variable_apr := zero;
  curve_fee_multiple := zero;
  flat_fee_multiple := zero;
  base_buffer := zero;
  bond_buffer := zero;
  longs_outstanding := zero;
  shorts_outstanding := zero;
  long_average_maturity_time := zero;
  short_average_maturity_time := zero;
  long_base_volume := zero;
  short_base_volume := zero;
  checkpoint_duration := 1%Z;
  checkpoints := ∅
|}.

(** A delta that changes the share and the bond reserves only. *)
Definition reserves_delta {N : Type} (zero d_shares d_bonds : N)
    : MarketDeltas N Z := {|
  d_share_reserves := d_shares;
  d_bond_reserves := d_bonds;
  d_lp_total_supply := zero;
  d_share_price := zero;
  d_base_buffer := zero;
  d_bond_buffer := zero;
  d_longs_outstanding := zero;
  d_shorts_outstanding := zero;
  d_long_average_maturity_time := zero;
  d_short_average_maturity_time := zero;
  d_long_base_volume := zero;
  d_short_base_volume := zero;
  d_long_checkpoint_base_volume := ∅;
  d_short_checkpoint_base_volume := ∅
|}.

Definition float_classes
  : MarketClasses (MarketState float Z) (MarketDeltas float Z) :=
  hyperdrive_classes PyInt.

Definition fixed_classes
  : MarketClasses (MarketState FixedPointMath.FixedPoint Z)
                  (MarketDeltas FixedPointMath.FixedPoint Z) :=
  hyperdrive_classes PyInt.

Definition float_market : Market (MarketState float Z) unit Z :=
  mkMarket tt (fresh_state 0%float 1%float) 0%Z.

Definition fixed_market : Market (MarketState FixedPointMath.FixedPoint Z) unit Z :=
  mkMarket tt (fresh_state (FixedPointMath.FPVal 0) (FixedPointMath.lit 1 0)) 0%Z.

(** A finite delta that takes one share out of the empty pool. *)
Definition overdraw : MarketDeltas float Z :=
  reserves_delta 0%float (-1)%float 0%float.

(** Deltas whose bond increment is not-a-number. *)
Definition nan_delta : MarketDeltas float Z :=
  reserves_delta 0%float 0%float nan.

Definition nan_delta_fp : MarketDeltas FixedPointMath.FixedPoint Z :=
  reserves_delta (FixedPointMath.FPVal 0) (FixedPointMath.FPVal 0)
                 FixedPointMath.FPNaN.

End Pools.

Section CheckpointTime.
Import Hyperdrive.
Context {N T PM : Type} `{Countable T} `{TimeOps T}.

(** The timestamp test of [checkpoint]. *)
Definition valid_checkpoint_time (t : T) (m : Market (MarketState N T) PM T) : bool :=
  time_le t (block_time m)
  && is_multiple_of t (checkpoint_duration (market_state m)).

End CheckpointTime.

(** A settlement for the checkpoint example: every open position matures. *)
Definition settle_everything (t : Z)
    (s : MarketState FixedPointMath.FixedPoint Z)
    : MarketState FixedPointMath.FixedPoint Z :=
  {| share_reserves := share_reserves s;
     bond_reserves := bond_reserves s;
     lp_total_supply := lp_total_supply s;
     share_price := share_price s;
     init_share_price := init_share_price s;
     variable_apr := variable_apr s;
     curve_fee_multiple := curve_fee_multiple s;
     flat_fee_multiple := flat_fee_multiple s;
     base_buffer := base_buffer s;
     bond_buffer := bond_buffer s;
     longs_outstanding := FixedPointMath.FPVal 0;
     shorts_outstanding := FixedPointMath.FPVal 0;
     long_average_maturity_time := FixedPointMath.FPVal 0;
     short_average_maturity_time := FixedPointMath.FPVal 0;
     long_base_volume := FixedPointMath.FPVal 0;
     short_base_volume := FixedPointMath.FPVal 0;
     checkpoint_duration := checkpoint_duration s;
     checkpoints := checkpoints s |}.

(** In exact arithmetic the high-precision numbers are the working
    numbers: both conversions are the identity. *)
#[global] Instance exact_high_precision : HighPrecision R R := {
  to_decimal x := x;
  of_decimal x := x
}.

(** The state with its [bond_reserves] replaced. *)
Definition with_bond_reserves {N T : Type} `{Countable T}
    (s : MarketState N T) (y : N) : MarketState N T :=
  {| share_reserves := share_reserves s;
     bond_reserves := y;
     lp_total_supply := lp_total_supply s;
     share_price := share_price s;
     init_share_price := init_share_price s;
     variable_apr := variable_apr s;
     curve_fee_multiple := curve_fee_multiple s;
     flat_fee_multiple := flat_fee_multiple s;
     base_buffer := base_buffer s;
     bond_buffer := bond_buffer s;
     longs_outstanding := longs_outstanding s;
     shorts_outstanding := shorts_outstanding s;
     long_average_maturity_time := long_average_maturity_time s;
     short_average_maturity_time := short_average_maturity_time s;
     long_base_volume := long_base_volume s;
     short_base_volume := short_base_volume s;
     checkpoint_duration := checkpoint_duration s;
     checkpoints := checkpoints s |}.

Section ClosedForm.
Context {T : Type} `{Countable T}.
Local Open Scope R_scope.

(** The bond reserves [calc_bond_reserves] returns. *)
Definition bond_reserves_closed_form (target_apr : R) (t : StretchedTime R)
    (ms : MarketState R T) : R :=
  init_share_price ms * share_reserves ms
  * Rpower (1 + target_apr * (days t / 365)) (1 / stretched_time t)
  - lp_total_supply ms.

End ClosedForm.

(** The pool of the initialization scenario, in exact arithmetic: a
    contribution of 500 000 000 at share price one. *)
Definition exact_pool : MarketState R Z := {|
  share_reserves := 500000000%R;
  bond_reserves := 0%R;
  lp_total_supply := 500000000%R;
  share_price := 1%R;
  init_share_price := 1%R;
  variable_apr := 0%R;
  curve_fee_multiple := 0%R;
  flat_fee_multiple := 0%R;
  base_buffer := 0%R;
  bond_buffer := 0%R;
  longs_outstanding := 0%R;
  shorts_outstanding := 0%R;
  long_average_maturity_time := 0%R;
  short_average_maturity_time := 0%R;
  long_base_volume := 0%R;
  short_base_volume := 0%R;
  checkpoint_duration := 1%Z;
  checkpoints := ∅
|}.

(** A full term of 365 days with a time stretch of two. *)
Definition exact_term : StretchedTime R := {|
  days := 365%R;
  time_stretch := 2%R;
  normalizing_constant := 365%R;
  normalized_time := 1%R;
  stretched_time := (1 / 2)%R
|}.

(** [Decimal(x)] into the high-precision numbers and [float(d)] back;
    [float(d)] is a parameter, as is [Decimal.__pow__]. *)
Definition float_high_precision (float_of_decimal : PyDecimal.Decimal -> float)
    : HighPrecision float PyDecimal.Decimal := {|
  to_decimal := PyDecimal.of_float;
  of_decimal := float_of_decimal
|}.

Module HighPrecisionPath.
Import PyDecimal.
Section Values.
Context {T : Type} `{Countable T}.

(** The states whose four inputs to the spot price are finite floats. *)
Definition finite_reserves (ms : MarketState float T) : Prop :=
  PyFloat.isfinite (init_share_price ms) = true /\
  PyFloat.isfinite (share_reserves ms) = true /\
  PyFloat.isfinite (bond_reserves ms) = true /\
  PyFloat.isfinite (lp_total_supply ms) = true.

(** The rounded product [mu * z] and the rounded sum [y + s] on the
    high-precision path. *)
Definition hp_numerator (ms : MarketState float T) : Qc :=
  context_round (value_of_float (init_share_price ms)
                 * value_of_float (share_reserves ms))%Qc.

Definition hp_denominator (ms : MarketState float T) : Qc :=
  context_round (value_of_float (bond_reserves ms)
                 + value_of_float (lp_total_supply ms))%Qc.

End Values.
End HighPrecisionPath.

(** Stand-ins for [Decimal.__pow__] and [float(d)] in the spot-price
    example: a power that knows the exponents zero and one, and a narrowing
    that is exact when numerator and denominator fit the 53-bit
    significand. *)
Definition pow_zero_one (x y : PyDecimal.Decimal) : result PyDecimal.Decimal :=
  if PyDecimal.eqb y (PyDecimal.lit 0 0) then Ok (PyDecimal.lit 1 0)
  else if PyDecimal.eqb y (PyDecimal.lit 1 0) then Ok x
  else Raise NotImplementedError.

Definition float_of_small_decimal (d : PyDecimal.Decimal) : float :=
  match d with
  | PyDecimal.DFin q =>
      let num := PrimFloat.of_uint63 (Uint63.of_Z (Z.abs (Qnum q))) in
      let den := PrimFloat.of_uint63 (Uint63.of_Z (Zpos (Qden q))) in
      if (Qnum q <? 0)%Z then PrimFloat.opp (num / den)%float else (num / den)%float
  | PyDecimal.DInf n => if n then neg_infinity else infinity
  | PyDecimal.DNaN => nan
  end.

(** A floating-point pool with shares, no bonds and no LP supply. *)
Definition shares_only_pool : MarketState float Z := {|
  share_reserves := 500000000%float;
  bond_reserves := 0%float;
  lp_total_supply := 0%float;
  share_price := 1%float;
  init_share_price := 1%float;
  variable_apr := 0%float;
  curve_fee_multiple := 0%float;
  flat_fee_multiple := 0%float;
  base_buffer := 0%float;
  bond_buffer := 0%float;
  longs_outstanding := 0%float;
  shorts_outstanding := 0%float;
  long_average_maturity_time := 0%float;
  short_average_maturity_time := 0%float;
  long_base_volume := 0%float;
  short_base_volume := 0%float;
  checkpoint_duration := 1%Z;
  checkpoints := ∅
|}.

(** A pricing model for the example of [get_max_long]: it trades one to
    one and charges no fee. *)
Definition one_to_one_quote (a : float) : TradeResult float := {|
  user_result := agent_trade_result.mkAgentTradeResult (- a)%float a;
  market_result := market_action_result.mkMarketActionResult a (- a)%float;
  breakdown := {| without_fee_or_slippage := a;
                  without_fee := a;
                  fee := 0%float;
                  with_fee := a |}
|}.

Definition one_to_one_pricing : PricingModelMethods float Z := {|
  calc_in_given_out out _ _ := Ok (one_to_one_quote (amount out));
  calc_out_given_in in_ _ _ := Ok (one_to_one_quote (amount in_))
|}.

(** ** Vocabulary of the further properties *)

(** The state with its [lp_total_supply] replaced. *)
Definition with_lp_total_supply {N T : Type} `{Countable T}
    (s : MarketState N T) (l : N) : MarketState N T :=
  {| share_reserves := share_reserves s;
     bond_reserves := bond_reserves s;
     lp_total_supply := l;
     share_price := share_price s;
     init_share_price := init_share_price s;
     variable_apr := variable_apr s;
     curve_fee_multiple := curve_fee_multiple s;
     flat_fee_multiple := flat_fee_multiple s;
     base_buffer := base_buffer s;
     bond_buffer := bond_buffer s;
     longs_outstanding := longs_outstanding s;
     shorts_outstanding := shorts_outstanding s;
     long_average_maturity_time := long_average_maturity_time s;
     short_average_maturity_time := short_average_maturity_time s;
     long_base_volume := long_base_volume s;
     short_base_volume := short_base_volume s;
     checkpoint_duration := checkpoint_duration s;
     checkpoints := checkpoints s |}.

(** The value [check_market_updates] inspects in a field: the amount of a
    [Quantity], the field itself otherwise. *)
Definition value_to_check (value : pyval) : pyval :=
  match value with PyQuantity a _ => a | _ => value end.

(** A field that [check_market_updates] lets through: a falsy one, or one
    whose inspected value is a finite number. *)
Definition field_passes (value : pyval) : bool :=
  negb (truthy value)
  || match np_isfinite (value_to_check value) with
     | Ok finite => finite
     | Raise _ => false
     end.

Section InputGate.
Context {N T : Type} `{PyNum N} `{Countable T} {constants : ElfpyConstants N}.

(** The three assertions of [check_input_assertions] that come before the
    share-price warning. *)
Definition reaches_warning (quantity : Quantity N)
    (market_state : MarketState N T) : bool :=
  kge (amount quantity) WEI
  && kge (share_reserves market_state) (klit 0 0)
  && kge (bond_reserves market_state) (klit 0 0).

End InputGate.

(** The base classes themselves: [BaseMarketState.apply_delta] raises
    [NotImplementedError] (in [BaseMarketStateFP] too) and touches nothing;
    the [__dict__] of the delta and the two post-checks stay parameters. *)
Definition base_state_classes {State Deltas : Type}
    (delta_dict : Deltas -> list (string * pyval))
    (check_non_zero check_non_zero_fp : State -> result unit)
    : MarketClasses State Deltas := {|
  apply_delta _ := mut_pure (Raise NotImplementedError);
  delta_dict := delta_dict;
  check_non_zero := check_non_zero;
  check_non_zero_fp := check_non_zero_fp
|}.

(** A position at maturity: no days left. *)
Definition matured_term : StretchedTime float := {|
  days := 0%float;
  time_stretch := 22.186877016851916%float;
  normalizing_constant := 365%float;
  normalized_time := 0%float;
  stretched_time := 0%float
|}.

(** A stand-in for [float.__pow__] that knows the exponent one. *)
Definition float_pow_one : PyPow float := {|
  kpow x y := if PrimFloat.eqb y 1%float then Ok x else Raise NotImplementedError
|}.

(** A wallet whose first short is empty and whose second is open. *)
Definition two_shorts : list (float * float) :=
  [(0%float, 0%float); (1%float, 5%float)].

Section PolicyInstructions.
Import Stdlib.Strings.Ascii.

(** The number of occurrences of a character in a string. *)
Fixpoint occurrences (c : Ascii.ascii) (s : string) : nat :=
  match s with
  | EmptyString => 0
  | String c' rest =>
      (if Ascii.eqb c' c then 1 else 0) + occurrences c rest
  end.

(** A name, key or value that holds none of the three separators. *)
Definition plain (s : string) : Prop :=
  occurrences ":" s = 0 /\ occurrences "," s = 0 /\ occurrences "=" s = 0.

(** The instruction [name:key=value,key=value,...]. *)
Definition policy_instruction_of (policy_name : string)
    (policy_args : list (string * string)) : string :=
  String.append policy_name
    (String ":"
       (String.concat ","
          ((fun kv => String.append kv.1 (String "=" kv.2)) <$> policy_args))).

End PolicyInstructions.

(** A stand-in for [float] on strings that reads the numeral [0.5] and
    rejects everything else. *)
Definition float_of_one_half (s : string) : option float :=
  if String.eqb s "0.5" then Some 0.5%float else None.

(** * Properties *)

(** ** Exact arithmetic *)

Module ExactFacts.
Import Exact.
Local Open Scope R_scope.

Lemma Req_b_false x y : x <> y -> Req_b x y = false.
Proof. intros Hne. unfold Req_b. destruct (Req_dec_T x y); [contradiction | reflexivity]. Qed.


Lemma Rlt_b_true x y : x < y -> Rlt_b x y = true.
Proof. intros Hlt. unfold Rlt_b. destruct (Rlt_dec x y); [reflexivity | contradiction]. Qed.

Lemma truediv_nonzero x y : y <> 0 -> truediv x y = Ok (x / y).
Proof. intros Hy. unfold truediv. rewrite Req_b_false by exact Hy. reflexivity. Qed.

Lemma pow_positive x y : 0 < x -> pow x y = Ok (Rpower x y).
Proof. intros Hx. unfold pow. rewrite Rlt_b_true by exact Hx. reflexivity. Qed.

Lemma lit_int (m : Z) : lit m 0 = IZR m.
Proof. unfold lit. change (10 ^ Z.of_nat 0)%Z with 1%Z. field. Qed.

(** The closed form of [calc_time_stretch] on a non-zero rate. *)
Lemma calc_time_stretch_exact (apr : R) :
  apr <> 0 ->
  calc_time_stretch apr
  = Ok ((309396 / 100000) / ((2789 / 100000) * (apr * 100))).
Proof.
  intros Hapr. unfold calc_time_stretch. simpl.
  rewrite truediv_nonzero.
  - f_equal. unfold lit.
    change (10 ^ Z.of_nat 5)%Z with 100000%Z.
    change (10 ^ Z.of_nat 0)%Z with 1%Z. field. exact Hapr.
  - unfold lit.
    change (10 ^ Z.of_nat 5)%Z with 100000%Z.
    change (10 ^ Z.of_nat 0)%Z with 1%Z. intros Hz.
    apply Hapr. lra.
Qed.

End ExactFacts.

(** ** [calc_time_stretch] *)

Module TimeStretchFacts.
Import FixedPointMath.

Lemma fixed_denominator_positive (a : Z) :
  (0 < a)%Z ->
  (0 < 27890000000000000 * (a * 100000000000000000000 / 10 ^ 18) / 10 ^ 18)%Z.
Proof.
  intros Ha.
  assert (Hp : (a * 100000000000000000000 / 10 ^ 18 = a * 100)%Z).
  { replace (a * 100000000000000000000)%Z with (a * 100 * 10 ^ 18)%Z by lia.
    apply Z.div_mul. lia. }
  rewrite Hp.
  apply Z.div_str_pos. lia.
Qed.

Lemma calc_time_stretch_fixed (a : Z) :
  (0 < a)%Z ->
  calc_time_stretch (FPVal a) = Ok (FPVal (fixed_time_stretch a)).
Proof.
  intros Ha. pose proof (fixed_denominator_positive a Ha) as Hd.
  unfold calc_time_stretch, fixed_time_stretch. simpl.
  unfold truediv, div_down, mul, lit, ONE_18. simpl is_zero.
  change (10 ^ (18 - Z.of_nat 0))%Z with (10 ^ 18)%Z.
  change (10 ^ (18 - Z.of_nat 5))%Z with (10 ^ 13)%Z.
  change (100 * 10 ^ 18)%Z with 100000000000000000000%Z.
  change (2789 * 10 ^ 13)%Z with 27890000000000000%Z.
  change (309396 * 10 ^ 13)%Z with 3093960000000000000%Z.
  destruct (Z.eqb_spec
    (27890000000000000 * (a * 100000000000000000000 / 10 ^ 18) / 10 ^ 18) 0)
    as [Hz|Hz]; [lia | reflexivity].
Qed.

Lemma fixed_time_stretch_antitone (a1 a2 : Z) :
  (0 < a1)%Z -> (a1 <= a2)%Z ->
  (fixed_time_stretch a2 <= fixed_time_stretch a1)%Z.
Proof.
  intros H1 H12. unfold fixed_time_stretch.
  apply Z.div_le_compat_l; [lia |]. split.
  - apply fixed_denominator_positive. exact H1.
  - apply Z.div_le_mono; [lia |].
    apply Z.mul_le_mono_nonneg_l; [lia |].
    apply Z.div_le_mono; lia.
Qed.

End TimeStretchFacts.




(** ** Facts on binary64 comparisons *)

Module FloatFacts.

Lemma Prim2SF_zero : Prim2SF 0%float = S754_zero false.
Proof. reflexivity. Qed.

Lemma is_nan_spec (f : float) :
  PrimFloat.is_nan f = true <-> Prim2SF f = S754_nan.
Proof.
  unfold PrimFloat.is_nan. rewrite FloatAxioms.eqb_spec.
  destruct (Prim2SF f) as [s|s| |s m e] eqn:E; unfold SFeqb; simpl.
  - split; intros; discriminate.
  - destruct s; simpl; split; intros; discriminate.
  - split; reflexivity.
  - pose proof (Pos.compare_refl m) as Hm. unfold Pos.compare in Hm.
    destruct s; rewrite Z.compare_refl; simpl; rewrite Hm; simpl;
      split; intros; discriminate.
Qed.

(** [0 <= f] holds exactly when [f] is neither not-a-number nor below zero. *)
Lemma leb_zero_spec (f : float) :
  PrimFloat.leb 0%float f = true <->
  PrimFloat.is_nan f = false /\ PrimFloat.ltb f 0%float = false.
Proof.
  assert (Hn := is_nan_spec f).
  rewrite FloatAxioms.leb_spec, FloatAxioms.ltb_spec, Prim2SF_zero.
  unfold SFleb, SFltb.
  destruct (Prim2SF f) as [s|s| |s m e]; simpl.
  - split; [intros _; split; [| reflexivity] | reflexivity].
    destruct (PrimFloat.is_nan f); [| reflexivity].
    destruct Hn as [Hn _]. discriminate (Hn eq_refl).
  - destruct s; simpl.
    + split; [discriminate | intros [_ Hd]; discriminate Hd].
    + split; [intros _; split; [| reflexivity] | reflexivity].
      destruct (PrimFloat.is_nan f); [| reflexivity].
      destruct Hn as [Hn _]. discriminate (Hn eq_refl).
  - split; [discriminate |]. intros [Hd _].
    destruct Hn as [_ Hn]. rewrite Hn in Hd by reflexivity. discriminate Hd.
  - destruct s; simpl.
    + split; [discriminate | intros [_ Hd]; discriminate Hd].
    + split; [intros _; split; [| reflexivity] | reflexivity].
      destruct (PrimFloat.is_nan f); [| reflexivity].
      destruct Hn as [Hn _]. discriminate (Hn eq_refl).
Qed.

Lemma nan_not_ge_zero (f : float) :
  PrimFloat.is_nan f = true -> PrimFloat.leb 0%float f = false.
Proof.
  intros Hn. destruct (PrimFloat.leb 0%float f) eqn:E; [| reflexivity].
  apply leb_zero_spec in E. destruct E as [E _]. congruence.
Qed.

Lemma negative_not_ge_zero (f : float) :
  PrimFloat.ltb f 0%float = true -> PrimFloat.leb 0%float f = false.
Proof.
  intros Hn. destruct (PrimFloat.leb 0%float f) eqn:E; [| reflexivity].
  apply leb_zero_spec in E. destruct E as [_ E]. congruence.
Qed.

(** A float that is not finite is not zero, hence truthy. *)
Lemma nonfinite_truthy (f : float) :
  PyFloat.isfinite f = false -> PyFloat.truthy f = true.
Proof.
  unfold PyFloat.isfinite, PyFloat.truthy, PyFloat.is_zero,
    PrimFloat.is_finite, PrimFloat.is_zero, PrimFloat.is_infinity.
  intros Hf. apply negb_false_iff, orb_true_iff in Hf.
  rewrite FloatAxioms.eqb_spec.
  change (Prim2SF zero) with (S754_zero false).
  destruct Hf as [Hf|Hf].
  - apply is_nan_spec in Hf. rewrite Hf. reflexivity.
  - rewrite FloatAxioms.eqb_spec, abs_spec in Hf.
    change (Prim2SF infinity) with (S754_infinity false) in Hf.
    destruct (Prim2SF f) as [s|s| |s m e]; simpl in *;
      try reflexivity; try discriminate Hf.
    destruct s; reflexivity.
Qed.

End FloatFacts.

(** ** [check_output_assertions] *)

Section OutputAssertionFacts.
Context {N V : Type} `{PyNum N} `{!IsInstance V N}.

(** The four assertions pass exactly when both components are instances
    of the number class and compare [>= 0]. *)
Lemma check_output_assertions_Ok (tr : TradeResult V) :
  check_output_assertions (N:=N) tr = Ok tt <->
  exists f w : N,
    isinstance (fee (breakdown tr)) = Some f /\
    isinstance (without_fee (breakdown tr)) = Some w /\
    kge f (klit 0 0) = true /\ kge w (klit 0 0) = true.
Proof.
  unfold check_output_assertions.
  destruct (isinstance (fee (breakdown tr))) as [f|] eqn:Ef; simpl.
  - destruct (kge f (klit 0 0)) eqn:Hf; simpl.
    + destruct (isinstance (without_fee (breakdown tr))) as [w|] eqn:Ew; simpl.
      * destruct (kge w (klit 0 0)) eqn:Hw; simpl.
        -- split; [intros _; exists f, w; auto | reflexivity].
        -- split; [discriminate |].
           intros (f' & w' & _ & Hw' & _ & Hge). congruence.
      * split; [discriminate |].
        intros (f' & w' & _ & Hw' & _). discriminate Hw'.
    + split; [discriminate |].
      intros (f' & w' & Hf' & _ & Hge & _). congruence.
  - split; [discriminate |].
    intros (f' & w' & Hf' & _). discriminate Hf'.
Qed.

(** Every failure of the check is an [AssertionError]. *)
Lemma check_output_assertions_outcome (tr : TradeResult V) :
  check_output_assertions (N:=N) tr = Ok tt \/
  check_output_assertions (N:=N) tr = Raise AssertionError.
Proof.
  unfold check_output_assertions.
  destruct (isinstance (fee (breakdown tr))) as [f|]; simpl; [| right; reflexivity].
  destruct (kge f (klit 0 0)); simpl; [| right; reflexivity].
  destruct (isinstance (without_fee (breakdown tr))) as [w|]; simpl;
    [| right; reflexivity].
  destruct (kge w (klit 0 0)); simpl; [left | right]; reflexivity.
Qed.

End OutputAssertionFacts.

(** C9, as stated, at a trade result whose fee is the float [+inf]: the
    fee is not finite, and [check_output_assertions] succeeds. *)
Lemma check_output_assertions_accepts_infinity :
  isinstance (N:=float) (fee (breakdown infinite_fee_result)) = Some infinity /\
  PyFloat.isfinite infinity = false /\
  check_output_assertions (N:=float) infinite_fee_result = Ok tt.
Proof. repeat split. Qed.

(** C9 (amended): in the floating-point and in the fixed-point variant,
    [check_output_assertions] succeeds exactly on the trade results whose
    [fee] and [without_fee] are instances of the number class that compare
    [>= 0] (which [+inf] does), and fails with an [AssertionError] on every
    other one; in particular it fails when one of the two is a negative
    float, a not-a-number float, a negative fixed-point value or the
    fixed-point not-a-number. *)
Theorem check_output_assertions_characterised :
  (forall tr : TradeResult pyval,
      (check_output_assertions (N:=float) tr = Ok tt <->
       exists f w : float,
         fee (breakdown tr) = PyFloat f /\ without_fee (breakdown tr) = PyFloat w /\
         PrimFloat.leb 0%float f = true /\ PrimFloat.leb 0%float w = true) /\
      (check_output_assertions (N:=float) tr = Ok tt \/
       check_output_assertions (N:=float) tr = Raise AssertionError) /\
      (forall x : float,
          fee (breakdown tr) = PyFloat x \/ without_fee (breakdown tr) = PyFloat x ->
          PrimFloat.ltb x 0%float = true \/ PrimFloat.is_nan x = true ->
          check_output_assertions (N:=float) tr = Raise AssertionError)) /\
  (forall tr : TradeResult pyval,
      (check_output_assertions (N:=FixedPointMath.FixedPoint) tr = Ok tt <->
       exists f w : FixedPointMath.FixedPoint,
         fee (breakdown tr) = PyFixedPoint f /\
         without_fee (breakdown tr) = PyFixedPoint w /\
         FixedPointMath.leb (FixedPointMath.FPVal 0) f = true /\
         FixedPointMath.leb (FixedPointMath.FPVal 0) w = true) /\
      (check_output_assertions (N:=FixedPointMath.FixedPoint) tr = Ok tt \/
       check_output_assertions (N:=FixedPointMath.FixedPoint) tr
       = Raise AssertionError) /\
      (forall x : FixedPointMath.FixedPoint,
          fee (breakdown tr) = PyFixedPoint x \/
          without_fee (breakdown tr) = PyFixedPoint x ->
          FixedPointMath.ltb x (FixedPointMath.FPVal 0) = true \/
          x = FixedPointMath.FPNaN ->
          check_output_assertions (N:=FixedPointMath.FixedPoint) tr
          = Raise AssertionError)).
Proof.
  split; intros tr.
  - assert (Hiff : check_output_assertions (N:=float) tr = Ok tt <->
       exists f w : float,
         fee (breakdown tr) = PyFloat f /\ without_fee (breakdown tr) = PyFloat w /\
         PrimFloat.leb 0%float f = true /\ PrimFloat.leb 0%float w = true).
    { rewrite check_output_assertions_Ok. split.
      - intros (f & w & Hf & Hw & Hfg & Hwg). exists f, w.
        unfold isinstance, isinstance_float in Hf, Hw.
        destruct (fee (breakdown tr)); try discriminate Hf.
        destruct (without_fee (breakdown tr)); try discriminate Hw.
        inversion Hf; inversion Hw; subst. auto.
      - intros (f & w & Hf & Hw & Hfg & Hwg). exists f, w.
        rewrite Hf, Hw. auto. }
    split; [exact Hiff |].
    split; [apply check_output_assertions_outcome |].
    intros x Hx Hbad.
    destruct (check_output_assertions_outcome (N:=float) tr) as [Hok|Herr];
      [| exact Herr].
    exfalso. apply Hiff in Hok. destruct Hok as (f & w & Hf & Hw & Hfg & Hwg).
    assert (Hx0 : PrimFloat.leb 0%float x = false).
    { destruct Hbad as [Hneg|Hnan];
        [apply FloatFacts.negative_not_ge_zero | apply FloatFacts.nan_not_ge_zero];
        assumption. }
    destruct Hx as [Hx|Hx]; congruence.
  - assert (Hiff : check_output_assertions (N:=FixedPointMath.FixedPoint) tr = Ok tt <->
       exists f w : FixedPointMath.FixedPoint,
         fee (breakdown tr) = PyFixedPoint f /\
         without_fee (breakdown tr) = PyFixedPoint w /\
         FixedPointMath.leb (FixedPointMath.FPVal 0) f = true /\
         FixedPointMath.leb (FixedPointMath.FPVal 0) w = true).
    { rewrite check_output_assertions_Ok. split.
      - intros (f & w & Hf & Hw & Hfg & Hwg). exists f, w.
        unfold isinstance, isinstance_FixedPoint in Hf, Hw.
        destruct (fee (breakdown tr)); try discriminate Hf.
        destruct (without_fee (breakdown tr)); try discriminate Hw.
        inversion Hf; inversion Hw; subst. auto.
      - intros (f & w & Hf & Hw & Hfg & Hwg). exists f, w.
        rewrite Hf, Hw. auto. }
    split; [exact Hiff |].
    split; [apply check_output_assertions_outcome |].
    intros x Hx Hbad.
    destruct (check_output_assertions_outcome (N:=FixedPointMath.FixedPoint) tr)
      as [Hok|Herr]; [| exact Herr].
    exfalso. apply Hiff in Hok. destruct Hok as (f & w & Hf & Hw & Hfg & Hwg).
    assert (Hx0 : FixedPointMath.leb (FixedPointMath.FPVal 0) x = false).
    { destruct Hbad as [Hneg| ->]; [| reflexivity].
      destruct x as [v|[|]|]; try discriminate Hneg; try reflexivity.
      unfold FixedPointMath.leb, FixedPointMath.ltb, FixedPointMath.eqb in *.
      apply Z.ltb_lt in Hneg.
      rewrite (proj2 (Z.ltb_ge 0 v)), (proj2 (Z.eqb_neq 0 v)) by lia.
      reflexivity. }
    destruct Hx as [Hx|Hx]; congruence.
Qed.

Lemma check_output_assertions_characterised_witness :
  check_output_assertions (N:=float)
    {| user_result := agent_trade_result.mkAgentTradeResult (PyFloat 1) (PyFloat 1);
       market_result := market_action_result.mkMarketActionResult (PyFloat 1) (PyFloat 1);
       breakdown := {| without_fee_or_slippage := PyFloat 1;
                       without_fee := PyFloat 1;
                       fee := PyFloat (-1);
                       with_fee := PyFloat 0 |} |}
  = Raise AssertionError.
Proof.
  apply (proj2 (proj2 (proj1 check_output_assertions_characterised _)) (-1)%float).
  - left. reflexivity.
  - left. vm_compute. reflexivity.
Defined.

(** ** [check_input_assertions] *)

Section InputAssertionFacts.
Context {N T : Type} `{PyNum N} `{Countable T} {constants : ElfpyConstants N}.

Lemma check_input_assertions_passes (quantity : Quantity N)
    (market_state : MarketState N T) (time_remaining : StretchedTime N) :
  asserted_preconditions quantity market_state time_remaining ->
  check_input_assertions quantity market_state time_remaining
  = (share_price_warnings market_state, Ok tt).
Proof.
  intros (Hq & Hz & Hy & Hmu & (zc & diff & Hzc & Hdiff & Hmax)
          & (Hc1 & Hc0) & (Hf1 & Hf0)
          & (upper & Hup & Hs1 & Hs0 & Hn1 & Hn0)).
  unfold check_input_assertions, share_price_warnings.
  rewrite Hq, Hz, Hy, Hmu, Hzc, Hup. simpl.
  rewrite Hdiff. simpl.
  rewrite Hmax, Hc1, Hc0, Hf1, Hf0, Hs1, Hs0, Hn1, Hn0. simpl.
  destruct (klt (share_price market_state) (init_share_price market_state));
    reflexivity.
Qed.

End InputAssertionFacts.

(** C10: on every input that satisfies the asserted preconditions, a
    share price below the initial share price makes
    [check_input_assertions] log one warning and return normally; this
    holds for every number class, hence for [PricingModel] and for
    [PricingModelFP]. *)
Theorem check_input_assertions_low_share_price
    {N T : Type} `{PyNum N} `{Countable T} {constants : ElfpyConstants N}
    (quantity : Quantity N) (market_state : MarketState N T)
    (time_remaining : StretchedTime N) :
  asserted_preconditions quantity market_state time_remaining ->
  klt (share_price market_state) (init_share_price market_state) = true ->
  check_input_assertions quantity market_state time_remaining
  = ([Warning_share_price (init_share_price market_state)
                          (share_price market_state)], Ok tt).
Proof.
  intros Hpre Hlow.
  rewrite (check_input_assertions_passes _ _ _ Hpre).
  unfold share_price_warnings. rewrite Hlow. reflexivity.
Qed.

Lemma check_input_assertions_low_share_price_witness :
  check_input_assertions (constants := float_constants)
    (mkQuantity 100%float BASE) low_share_price_state quarter_year
  = ([Warning_share_price 1.5%float 1%float], Ok tt).
Proof.
  apply (check_input_assertions_low_share_price (constants := float_constants)
           (mkQuantity 100%float BASE) low_share_price_state quarter_year).
  - unfold asserted_preconditions.
    repeat match goal with
           | |- _ /\ _ => split
           | |- exists _, _ => eexists
           end; vm_compute; reflexivity.
  - vm_compute. reflexivity.
Defined.

(** ** [get_max_long] and [get_max_short] *)

Section GetMaxFacts.
Context {N T : Type} `{PyNum N} `{Countable T} {pm : PricingModelMethods N T}.

Lemma get_max_long_Ok (ms : MarketState N T) (t : StretchedTime N)
    (calls : list (PMCall N T)) (base bonds : N) :
  get_max_long ms t = (calls, Ok (base, bonds)) <->
  exists (out : N) (r_in r_out : TradeResult N),
    ksub (bond_reserves ms) (bond_buffer ms) = Ok out /\
    calc_in_given_out (mkQuantity out PT) ms t = Ok r_in /\
    base = with_fee (breakdown r_in) /\
    calc_out_given_in (mkQuantity base BASE) ms t = Ok r_out /\
    bonds = with_fee (breakdown r_out) /\
    calls = max_long_calls out base ms t.
Proof.
  unfold get_max_long, max_long_calls, call_in_given_out, call_out_given_in.
  destruct (ksub (bond_reserves ms) (bond_buffer ms)) as [out|e] eqn:Eout; simpl.
  - destruct (calc_in_given_out (mkQuantity out PT) ms t) as [r_in|e] eqn:Ein; simpl.
    + destruct (calc_out_given_in (mkQuantity (with_fee (breakdown r_in)) BASE) ms t)
        as [r_out|e] eqn:Eo; simpl.
      * split.
        -- intros Heq. inversion Heq; subst. exists out, r_in, r_out. repeat split; assumption || reflexivity.
        -- intros (out' & r_in' & r_out' & Ho & Hi & -> & Hoo & -> & ->).
           inversion Ho; subst out'. rewrite Ein in Hi. inversion Hi; subst r_in'.
           rewrite Eo in Hoo. inversion Hoo; subst r_out'. reflexivity.
      * split; [intros Heq; inversion Heq |].
        intros (out' & r_in' & r_out' & Ho & Hi & -> & Hoo & _).
        inversion Ho; subst out'. rewrite Ein in Hi. inversion Hi; subst r_in'.
        rewrite Eo in Hoo. discriminate Hoo.
    + split; [intros Heq; inversion Heq |].
      intros (out' & r_in' & r_out' & Ho & Hi & _).
      inversion Ho; subst out'. rewrite Ein in Hi. discriminate Hi.
  - split; [intros Heq; inversion Heq |].
    intros (out' & r_in' & r_out' & Ho & _). discriminate Ho.
Qed.

Lemma get_max_short_Ok (ms : MarketState N T) (t : StretchedTime N)
    (calls : list (PMCall N T)) (base bonds : N) :
  get_max_short ms t = (calls, Ok (base, bonds)) <->
  exists (buffer_shares out : N) (r_in r_out : TradeResult N),
    kdiv (base_buffer ms) (share_price ms) = Ok buffer_shares /\
    ksub (share_reserves ms) buffer_shares = Ok out /\
    calc_in_given_out (mkQuantity out PT) ms t = Ok r_in /\
    bonds = with_fee (breakdown r_in) /\
    calc_out_given_in (mkQuantity bonds PT) ms t = Ok r_out /\
    base = with_fee (breakdown r_out) /\
    calls = max_short_calls out bonds ms t.
Proof.
  unfold get_max_short, max_short_calls, call_in_given_out, call_out_given_in.
  destruct (kdiv (base_buffer ms) (share_price ms)) as [bs|e] eqn:Ebs; simpl.
  - destruct (ksub (share_reserves ms) bs) as [out|e] eqn:Eout; simpl.
    + destruct (calc_in_given_out (mkQuantity out PT) ms t) as [r_in|e] eqn:Ein; simpl.
      * destruct (calc_out_given_in (mkQuantity (with_fee (breakdown r_in)) PT) ms t)
          as [r_out|e] eqn:Eo; simpl.
        -- split.
           ++ intros Heq. inversion Heq; subst. exists bs, out, r_in, r_out. repeat split; assumption || reflexivity.
           ++ intros (bs' & out' & r_in' & r_out' & Hb & Ho & Hi & -> & Hoo & -> & ->).
              inversion Hb; subst bs'. rewrite Eout in Ho. inversion Ho; subst out'.
              rewrite Ein in Hi. inversion Hi; subst r_in'.
              rewrite Eo in Hoo. inversion Hoo; subst r_out'. reflexivity.
        -- split; [intros Heq; inversion Heq |].
           intros (bs' & out' & r_in' & r_out' & Hb & Ho & Hi & -> & Hoo & _).
           inversion Hb; subst bs'. rewrite Eout in Ho. inversion Ho; subst out'.
           rewrite Ein in Hi. inversion Hi; subst r_in'.
           rewrite Eo in Hoo. discriminate Hoo.
      * split; [intros Heq; inversion Heq |].
        intros (bs' & out' & r_in' & r_out' & Hb & Ho & Hi & _).
        inversion Hb; subst bs'. rewrite Eout in Ho. inversion Ho; subst out'.
        rewrite Ein in Hi. discriminate Hi.
    + split; [intros Heq; inversion Heq |].
      intros (bs' & out' & r_in' & r_out' & Hb & Ho & _).
      inversion Hb; subst bs'. rewrite Eout in Ho. discriminate Ho.
  - split; [intros Heq; inversion Heq |].
    intros (bs' & out' & r_in' & r_out' & Hb & _). discriminate Hb.
Qed.

(** Whatever the outcome, at most two pricing-model calls are made. *)
Lemma get_max_long_calls (ms : MarketState N T) (t : StretchedTime N) :
  length (trace (get_max_long ms t)) <= 2.
Proof.
  unfold get_max_long, call_in_given_out, call_out_given_in, trace.
  destruct (ksub (bond_reserves ms) (bond_buffer ms)) as [out|e]; simpl; [| lia].
  destruct (calc_in_given_out (mkQuantity out PT) ms t) as [r_in|e]; simpl; [| lia].
  destruct (calc_out_given_in (mkQuantity (with_fee (breakdown r_in)) BASE) ms t);
    simpl; lia.
Qed.

Lemma get_max_short_calls (ms : MarketState N T) (t : StretchedTime N) :
  length (trace (get_max_short ms t)) <= 2.
Proof.
  unfold get_max_short, call_in_given_out, call_out_given_in, trace.
  destruct (kdiv (base_buffer ms) (share_price ms)) as [bs|e]; simpl; [| lia].
  destruct (ksub (share_reserves ms) bs) as [out|e]; simpl; [| lia].
  destruct (calc_in_given_out (mkQuantity out PT) ms t) as [r_in|e]; simpl; [| lia].
  destruct (calc_out_given_in (mkQuantity (with_fee (breakdown r_in)) PT) ms t);
    simpl; lia.
Qed.

End GetMaxFacts.

(** C7: [get_max_long] returns [(base, bonds)] exactly when [base] is the
    [with_fee] component of [calc_in_given_out] on an output of
    [bond_reserves - bond_buffer] bonds and [bonds] is the [with_fee]
    component of [calc_out_given_in] on that base; [get_max_short] does
    the same from [share_reserves - base_buffer / share_price] and
    round-trips the bonds through [calc_out_given_in]; each makes these two
    pricing-model calls and no other, so neither iterates. *)
Theorem get_max_direct_round_trip
    {N T : Type} `{PyNum N} `{Countable T} {pm : PricingModelMethods N T}
    (ms : MarketState N T) (t : StretchedTime N) :
  (forall calls base bonds,
      get_max_long ms t = (calls, Ok (base, bonds)) <->
      exists (out : N) (r_in r_out : TradeResult N),
        ksub (bond_reserves ms) (bond_buffer ms) = Ok out /\
        calc_in_given_out (mkQuantity out PT) ms t = Ok r_in /\
        base = with_fee (breakdown r_in) /\
        calc_out_given_in (mkQuantity base BASE) ms t = Ok r_out /\
        bonds = with_fee (breakdown r_out) /\
        calls = [CallInGivenOut (mkQuantity out PT) ms t;
                 CallOutGivenIn (mkQuantity base BASE) ms t]) /\
  (forall calls base bonds,
      get_max_short ms t = (calls, Ok (base, bonds)) <->
      exists (buffer_shares out : N) (r_in r_out : TradeResult N),
        kdiv (base_buffer ms) (share_price ms) = Ok buffer_shares /\
        ksub (share_reserves ms) buffer_shares = Ok out /\
        calc_in_given_out (mkQuantity out PT) ms t = Ok r_in /\
        bonds = with_fee (breakdown r_in) /\
        calc_out_given_in (mkQuantity bonds PT) ms t = Ok r_out /\
        base = with_fee (breakdown r_out) /\
        calls = [CallInGivenOut (mkQuantity out PT) ms t;
                 CallOutGivenIn (mkQuantity bonds PT) ms t]) /\
  length (trace (get_max_long ms t)) <= 2 /\
  length (trace (get_max_short ms t)) <= 2.
Proof.
  split; [| split; [| split]].
  - intros calls base bonds. apply get_max_long_Ok.
  - intros calls base bonds. apply get_max_short_Ok.
  - apply get_max_long_calls.
  - apply get_max_short_calls.
Qed.

Lemma get_max_direct_round_trip_witness :
  exists (out : float) (r_in r_out : TradeResult float),
    ksub (bond_reserves low_share_price_state)
         (bond_buffer low_share_price_state) = Ok out /\
    calc_in_given_out (PricingModelMethods := one_to_one_pricing)
      (mkQuantity out PT) low_share_price_state quarter_year = Ok r_in /\
    1000000%float = with_fee (breakdown r_in) /\
    calc_out_given_in (PricingModelMethods := one_to_one_pricing)
      (mkQuantity 1000000%float BASE) low_share_price_state quarter_year
    = Ok r_out /\
    1000000%float = with_fee (breakdown r_out) /\
    [CallInGivenOut (mkQuantity 1000000%float PT) low_share_price_state quarter_year;
     CallOutGivenIn (mkQuantity 1000000%float BASE) low_share_price_state quarter_year]
    = [CallInGivenOut (mkQuantity out PT) low_share_price_state quarter_year;
       CallOutGivenIn (mkQuantity 1000000%float BASE) low_share_price_state
                      quarter_year].
Proof.
  apply (proj1 (proj1 (get_max_direct_round_trip
                         (pm := one_to_one_pricing)
                         low_share_price_state quarter_year) _ _ _)).
  vm_compute. reflexivity.
Defined.

(** ** [Market.update_market] and [MarketFP.update_market] *)

Section MarketFacts.
Context {State Deltas PM BT : Type} {classes : MarketClasses State Deltas}.

Local Abbreviation market := (Market State PM BT).

(** A failing precheck leaves the market as it was. *)
Lemma update_market_precheck_fails (d : Deltas) (m : market) (e : exn) :
  check_market_updates d = Raise e -> update_market d m = (m, Raise e).
Proof.
  intros Hc. unfold update_market, mut_bind, mut_pure. rewrite Hc. reflexivity.
Qed.

(** After a passing precheck the state is the one [apply_delta] leaves,
    whatever the outcome. *)
Lemma update_market_after_precheck (d : Deltas) (m : market) :
  check_market_updates d = Ok tt ->
  update_market d m
  = (set_market_state m (apply_delta d (market_state m)).1,
     (apply_delta d (market_state m)).2 ≫=
       (fun _ => check_non_zero (apply_delta d (market_state m)).1)).
Proof.
  intros Hc. unfold update_market, mut_bind, mut_pure, on_market_state, mut_read.
  rewrite Hc.
  destruct (apply_delta d (market_state m)) as [s' [[]|e]]; reflexivity.
Qed.

(** The fixed-point variant goes straight to [apply_delta]. *)
Lemma update_market_fp_unfold (d : Deltas) (m : market) :
  update_market_fp d m
  = (set_market_state m (apply_delta d (market_state m)).1,
     (apply_delta d (market_state m)).2 ≫=
       (fun _ => check_non_zero_fp (apply_delta d (market_state m)).1)).
Proof.
  unfold update_market_fp, mut_bind, on_market_state, mut_read.
  destruct (apply_delta d (market_state m)) as [s' [[]|e]]; reflexivity.
Qed.

(** [check_market_updates] raises on a delta whose [__dict__] holds a
    float that is not finite. *)
Lemma check_items_nonfinite (items : list (string * pyval)) (key : string) (f : float) :
  (key, PyFloat f) ∈ items -> PyFloat.isfinite f = false ->
  exists e, check_items items = Raise e.
Proof.
  intros Hin Hf. induction items as [|[k v] rest IH].
  - inversion Hin.
  - simpl.
    destruct (if truthy v
              then np_isfinite match v with PyQuantity a _ => a | _ => v end
                   ≫= (fun finite => py_assert finite)
              else Ok tt) as [[]|e] eqn:Ehead.
    + simpl. apply elem_of_cons in Hin. destruct Hin as [Heq|Hin].
      * inversion Heq; subst k v. simpl in Ehead.
        rewrite (FloatFacts.nonfinite_truthy f Hf) in Ehead.
        simpl in Ehead. rewrite Hf in Ehead. discriminate Ehead.
      * apply IH. exact Hin.
    + exists e. reflexivity.
Qed.

Lemma check_market_updates_nonfinite (d : Deltas) (key : string) (f : float) :
  (key, PyFloat f) ∈ delta_dict d -> PyFloat.isfinite f = false ->
  exists e, check_market_updates d = Raise e.
Proof. apply check_items_nonfinite. Qed.

End MarketFacts.

(** C1, as stated, at the fresh floating-point hyperdrive market and the
    finite delta that removes one share: the delta passes the finiteness
    check and is applied, the post-application check then fails with an
    [AssertionError], and the market the caller sees holds [-1] shares
    where it held [0]: the committed mutation is observable. *)
Lemma update_market_postcheck_failure_mutates :
  let m := Pools.float_market in
  let r := update_market (classes := Pools.float_classes) Pools.overdraw m in
  r.2 = Raise AssertionError /\
  share_reserves (market_state m) = 0%float /\
  share_reserves (market_state r.1) = (-1)%float /\
  r.1 <> m.
Proof.
  cbv zeta. split; [vm_compute; reflexivity |].
  split; [reflexivity |]. split; [vm_compute; reflexivity |].
  intros Heq.
  assert (Hs : PrimFloat.eqb
            (share_reserves (market_state
               (update_market (classes := Pools.float_classes)
                              Pools.overdraw Pools.float_market).1))
            0%float = false) by (vm_compute; reflexivity).
  rewrite Heq in Hs. vm_compute in Hs. discriminate Hs.
Qed.

(** C1 (amended): when [Market.update_market] fails in the per-field
    finiteness check, the market equals the market before the call; when
    it fails later (in [apply_delta] or in [check_non_zero]) the precheck
    had passed and the market state the caller sees is the one
    [apply_delta] left: nothing is rolled back. *)
Theorem update_market_failure_state
    {State Deltas PM BT : Type} {classes : MarketClasses State Deltas}
    (d : Deltas) (m : Market State PM BT) (e : exn) :
  (update_market d m).2 = Raise e ->
  (check_market_updates d = Raise e /\ (update_market d m).1 = m) \/
  (check_market_updates d = Ok tt /\
   market_state (update_market d m).1 = (apply_delta d (market_state m)).1).
Proof.
  intros Hfail.
  destruct (check_market_updates d) as [[]|e'] eqn:Hc.
  - right. split; [reflexivity |].
    rewrite (update_market_after_precheck d m Hc). reflexivity.
  - left. rewrite (update_market_precheck_fails d m e' Hc) in *.
    simpl in Hfail. inversion Hfail; subst. split; reflexivity.
Qed.

Lemma update_market_failure_state_witness :
  (check_market_updates (classes := Pools.float_classes) Pools.nan_delta
   = Raise AssertionError /\
   (update_market (classes := Pools.float_classes) Pools.nan_delta
                  Pools.float_market).1 = Pools.float_market) \/
  (check_market_updates (classes := Pools.float_classes) Pools.nan_delta = Ok tt /\
   market_state (update_market (classes := Pools.float_classes) Pools.nan_delta
                               Pools.float_market).1
   = (apply_delta (MarketClasses := Pools.float_classes) Pools.nan_delta
                  (market_state Pools.float_market)).1).
Proof.
  apply (update_market_failure_state (classes := Pools.float_classes)
           Pools.nan_delta Pools.float_market AssertionError).
  vm_compute. reflexivity.
Defined.

(** C3: [Market.update_market] asserts the finiteness of the delta's fields
    before it applies the delta, so on a delta that holds a non-finite
    float it fails and leaves the market untouched; [MarketFP.update_market]
    has no such precheck and always hands the delta to [apply_delta]; and on
    the fresh hyperdrive markets with a not-a-number bond increment the
    floating-point variant fails without mutating while the fixed-point
    variant returns normally with the not-a-number written into the bond
    reserves. *)
Theorem update_market_variants_differ :
  (forall (State Deltas PM BT : Type) (classes : MarketClasses State Deltas)
          (d : Deltas) (m : Market State PM BT) (key : string) (f : float),
      (key, PyFloat f) ∈ delta_dict d -> PyFloat.isfinite f = false ->
      exists e, update_market d m = (m, Raise e)) /\
  (forall (State Deltas PM BT : Type) (classes : MarketClasses State Deltas)
          (d : Deltas) (m : Market State PM BT),
      market_state (update_market_fp d m).1 = (apply_delta d (market_state m)).1) /\
  (("d_bond_reserves"%string, PyFloat nan)
     ∈ delta_dict (MarketClasses := Pools.float_classes) Pools.nan_delta /\
   PyFloat.isfinite nan = false /\
   update_market (classes := Pools.float_classes) Pools.nan_delta Pools.float_market
   = (Pools.float_market, Raise AssertionError)) /\
  (("d_bond_reserves"%string, PyFixedPoint FixedPointMath.FPNaN)
     ∈ delta_dict (MarketClasses := Pools.fixed_classes) Pools.nan_delta_fp /\
   (update_market_fp (classes := Pools.fixed_classes) Pools.nan_delta_fp
                     Pools.fixed_market).2 = Ok tt /\
   bond_reserves (market_state Pools.fixed_market) = FixedPointMath.FPVal 0 /\
   bond_reserves
     (market_state (update_market_fp (classes := Pools.fixed_classes)
                                     Pools.nan_delta_fp Pools.fixed_market).1)
   = FixedPointMath.FPNaN).
Proof.
  split; [| split; [| split]].
  - intros State Deltas PM BT classes d m key f Hin Hf.
    destruct (check_market_updates_nonfinite d key f Hin Hf) as [e He].
    exists e. apply update_market_precheck_fails. exact He.
  - intros State Deltas PM BT classes d m.
    rewrite update_market_fp_unfold. reflexivity.
  - split; [| split; [reflexivity | vm_compute; reflexivity]].
    simpl. unfold Hyperdrive.delta_items. simpl.
    apply list_elem_of_further, list_elem_of_here.
  - split; [| split; [vm_compute; reflexivity | split; vm_compute; reflexivity]].
    simpl. unfold Hyperdrive.delta_items. simpl.
    apply list_elem_of_further, list_elem_of_here.
Qed.

Lemma update_market_variants_differ_witness :
  exists e,
    update_market (classes := Pools.float_classes) Pools.nan_delta Pools.float_market
    = (Pools.float_market, Raise e).
Proof.
  apply (proj1 update_market_variants_differ _ _ _ _ Pools.float_classes
           Pools.nan_delta Pools.float_market "d_bond_reserves"%string nan).
  - apply list_elem_of_further, list_elem_of_here.
  - reflexivity.
Defined.

(** ** The checkpoint subsystem *)

Section CheckpointFacts.
Import Hyperdrive.
Context {N T PM : Type} `{LedgerNum N} `{Countable T} `{TimeOps T}.
Variable settle_matured : T -> MarketState N T -> MarketState N T.

Local Abbreviation market := (Market (MarketState N T) PM T).

Lemma checkpoint_invalid (t : T) (m : market) :
  valid_checkpoint_time t m = false ->
  checkpoint settle_matured t m = (m, Raise InvalidCheckpointTime).
Proof.
  unfold valid_checkpoint_time, checkpoint. intros Hv.
  apply andb_false_iff in Hv.
  destruct (time_le t (block_time m)); simpl; [| reflexivity].
  destruct Hv as [Hv|Hv]; [discriminate Hv |]. rewrite Hv. reflexivity.
Qed.

Lemma checkpoint_recorded (t : T) (m : market) :
  valid_checkpoint_time t m = true ->
  is_Some (checkpoints (market_state m) !! t) ->
  checkpoint settle_matured t m = (m, Ok tt).
Proof.
  unfold valid_checkpoint_time, checkpoint. intros Hv [c Hc].
  apply andb_true_iff in Hv. destruct Hv as [Hle Hmul].
  rewrite Hle, Hmul, Hc. reflexivity.
Qed.

Lemma checkpoint_first (t : T) (m : market) :
  valid_checkpoint_time t m = true ->
  checkpoints (market_state m) !! t = None ->
  checkpoint settle_matured t m
  = (set_market_state m
       (settle_matured t (record_checkpoint t (market_state m))), Ok tt).
Proof.
  unfold valid_checkpoint_time, checkpoint. intros Hv Hc.
  apply andb_true_iff in Hv. destruct Hv as [Hle Hmul].
  rewrite Hle, Hmul, Hc. reflexivity.
Qed.

Lemma checkpoint_outcome (t : T) (m : market) :
  (checkpoint settle_matured t m).2
  = if valid_checkpoint_time t m then Ok tt else Raise InvalidCheckpointTime.
Proof.
  destruct (valid_checkpoint_time t m) eqn:Hv.
  - destruct (checkpoints (market_state m) !! t) as [c|] eqn:Hc.
    + rewrite checkpoint_recorded; [reflexivity | exact Hv | eauto].
    + rewrite checkpoint_first; [reflexivity | exact Hv | exact Hc].
  - rewrite checkpoint_invalid; [reflexivity | exact Hv].
Qed.

(** Settlement works on the reserves and the outstanding-position
    aggregates; it leaves the recorded checkpoints alone. *)
Hypothesis settle_matured_checkpoints :
  forall (t : T) (s : MarketState N T),
    checkpoints (settle_matured t s) = checkpoints s.

Lemma checkpoint_records (t : T) (m : market) :
  valid_checkpoint_time t m = true ->
  is_Some (checkpoints (market_state (checkpoint settle_matured t m).1) !! t).
Proof using settle_matured_checkpoints.
  intros Hv.
  destruct (checkpoints (market_state m) !! t) as [c|] eqn:Hc.
  - rewrite checkpoint_recorded; [| exact Hv | eauto]. simpl. eauto.
  - rewrite checkpoint_first; [| exact Hv | exact Hc]. simpl.
    rewrite settle_matured_checkpoints. simpl.
    rewrite lookup_insert_eq. eauto.
Qed.

Lemma checkpoint_idempotent (t : T) (m : market) :
  (checkpoint settle_matured t (checkpoint settle_matured t m).1).1
  = (checkpoint settle_matured t m).1.
Proof using settle_matured_checkpoints.
  destruct (valid_checkpoint_time t m) eqn:Hv.
  - pose proof (checkpoint_records t m Hv) as Hrec.
    destruct (valid_checkpoint_time t (checkpoint settle_matured t m).1) eqn:Hv'.
    + rewrite (checkpoint_recorded t _ Hv' Hrec). reflexivity.
    + rewrite (checkpoint_invalid t _ Hv'). reflexivity.
  - rewrite (checkpoint_invalid t m Hv). simpl.
    rewrite (checkpoint_invalid t m Hv). reflexivity.
Qed.

End CheckpointFacts.

(** C4: [checkpoint] succeeds exactly when the time is at most the current
    time and a multiple of [checkpoint_duration], and fails with
    [InvalidCheckpointTime] otherwise, leaving the market as it was; on a
    bucket that already holds a checkpoint it changes nothing; and calling
    it twice leaves the state the first call left. *)
Theorem checkpoint_valid_and_idempotent
    {N T PM : Type} `{Hyperdrive.LedgerNum N} `{Countable T} `{Hyperdrive.TimeOps T}
    (settle_matured : T -> MarketState N T -> MarketState N T)
    (settle_matured_checkpoints :
       forall t s, checkpoints (settle_matured t s) = checkpoints s)
    (t : T) (m : Market (MarketState N T) PM T) :
  ((Hyperdrive.checkpoint settle_matured t m).2 = Ok tt <->
   Hyperdrive.time_le t (block_time m) = true /\
   Hyperdrive.is_multiple_of t (checkpoint_duration (market_state m)) = true) /\
  ((Hyperdrive.checkpoint settle_matured t m).2 <> Ok tt ->
   Hyperdrive.checkpoint settle_matured t m = (m, Raise InvalidCheckpointTime)) /\
  (is_Some (checkpoints (market_state m) !! t) ->
   (Hyperdrive.checkpoint settle_matured t m).1 = m) /\
  (Hyperdrive.checkpoint settle_matured t
     (Hyperdrive.checkpoint settle_matured t m).1).1
  = (Hyperdrive.checkpoint settle_matured t m).1.
Proof.
  pose proof (checkpoint_outcome settle_matured t m) as Hout.
  unfold valid_checkpoint_time in Hout.
  split; [| split; [| split]].
  - rewrite Hout, <- andb_true_iff.
    destruct (_ && _); split; intros; congruence.
  - intros Hne. apply checkpoint_invalid. unfold valid_checkpoint_time.
    destruct (_ && _); [| reflexivity]. contradiction.
  - intros Hrec.
    destruct (valid_checkpoint_time t m) eqn:Hv.
    + rewrite (checkpoint_recorded settle_matured t m Hv Hrec). reflexivity.
    + rewrite (checkpoint_invalid settle_matured t m Hv). reflexivity.
  - apply checkpoint_idempotent. exact settle_matured_checkpoints.
Qed.

Lemma checkpoint_valid_and_idempotent_witness :
  (Hyperdrive.checkpoint settle_everything 0%Z
     (Hyperdrive.checkpoint settle_everything 0%Z Pools.fixed_market).1).1
  = (Hyperdrive.checkpoint settle_everything 0%Z Pools.fixed_market).1.
Proof.
  apply (checkpoint_valid_and_idempotent settle_everything
           (fun t s => eq_refl) 0%Z Pools.fixed_market).
Defined.

(** ** The closed form for the bond reserves, in exact arithmetic *)

Section ExactReserves.
Context {T : Type} `{Countable T}.
Import Exact ExactFacts.
Local Open Scope R_scope.

Lemma calc_bond_reserves_exact (target_apr : R) (t : StretchedTime R)
    (ms : MarketState R T) :
  stretched_time t <> 0 ->
  0 < 1 + target_apr * (days t / 365) ->
  calc_bond_reserves target_apr t ms
  = Ok (bond_reserves_closed_form target_apr t ms).
Proof.
  intros Hst Hbase.
  unfold calc_bond_reserves, norm_days, bond_reserves_closed_form. simpl.
  rewrite !lit_int.
  rewrite (truediv_nonzero (days t) 365) by lra. simpl.
  rewrite (truediv_nonzero 1 (stretched_time t)) by exact Hst. simpl.
  rewrite pow_positive by exact Hbase. reflexivity.
Qed.

(** The spot price of a pool whose quotient [mu z / (y + s)] is positive. *)
Lemma calc_spot_price_exact (ms : MarketState R T) (t : StretchedTime R) :
  bond_reserves ms + lp_total_supply ms <> 0 ->
  0 < init_share_price ms * share_reserves ms
      / (bond_reserves ms + lp_total_supply ms) ->
  PricingModel.calc_spot_price_from_reserves (N:=R) (D:=R) ms t
  = Ok (Rpower (init_share_price ms * share_reserves ms
                / (bond_reserves ms + lp_total_supply ms))
               (stretched_time t)).
Proof.
  intros Hden Hq.
  unfold PricingModel.calc_spot_price_from_reserves,
    PricingModel._calc_spot_price_from_reserves_high_precision. simpl.
  rewrite truediv_nonzero by exact Hden. simpl.
  rewrite pow_positive by exact Hq. reflexivity.
Qed.

End ExactReserves.

Section TargetApr.
Context {T : Type} `{Countable T}.
Import Exact ExactFacts.
Local Open Scope R_scope.

Lemma truediv_Ok (x y v : R) : truediv x y = Ok v -> y <> 0 /\ v = x / y.
Proof.
  unfold truediv, Req_b. destruct (Req_dec_T y 0); intros Hv.
  - discriminate Hv.
  - inversion Hv. split; [assumption | reflexivity].
Qed.

(** The spot price of the pool that holds the closed-form bond reserves is
    the discount factor [1 / (1 + r t)]. *)
Lemma spot_price_of_closed_form (r : R) (t : StretchedTime R)
    (ms : MarketState R T) :
  0 < init_share_price ms * share_reserves ms ->
  stretched_time t <> 0 ->
  0 < 1 + r * (days t / 365) ->
  PricingModel.calc_spot_price_from_reserves (N:=R) (D:=R)
    (with_bond_reserves ms (bond_reserves_closed_form r t ms)) t
  = Ok (/ (1 + r * (days t / 365))).
Proof.
  intros Hmz Hst Hbase.
  set (b := 1 + r * (days t / 365)) in *.
  set (F := Rpower b (1 / stretched_time t)).
  assert (HF : 0 < F) by apply exp_pos.
  assert (Hsum : bond_reserves_closed_form r t ms + lp_total_supply ms
                 = init_share_price ms * share_reserves ms * F).
  { unfold bond_reserves_closed_form. fold b. fold F. ring. }
  rewrite calc_spot_price_exact; simpl; rewrite Hsum.
  - f_equal.
    replace (init_share_price ms * share_reserves ms
             / (init_share_price ms * share_reserves ms * F)) with (/ F)
      by (field; repeat split; nra).
    unfold F. rewrite <- Rpower_Ropp, Rpower_mult.
    replace (- (1 / stretched_time t) * stretched_time t) with (- (1))
      by (field; exact Hst).
    rewrite Rpower_Ropp, Rpower_1 by exact Hbase. reflexivity.
  - apply Rgt_not_eq. apply Rmult_lt_0_compat; assumption.
  - apply Rdiv_lt_0_compat; [assumption |].
    apply Rmult_lt_0_compat; assumption.
Qed.

End TargetApr.

(** C5: in exact arithmetic, on a pool with positive share reserves and an
    initial share price of at least one, a time remaining whose
    normalizing constant is 365, whose stretched time is positive and
    whose normalized time respects the lower tolerance bound, and a target
    rate between 0 and 1, [calc_bond_reserves] returns a bond-reserve
    level, and on the pool that holds it [calc_apr_from_reserves] returns
    exactly the target rate. *)
Theorem calc_bond_reserves_realizes_target_apr
    {T : Type} `{Countable T}
    (target_apr : R) (time_remaining : StretchedTime R)
    (market_state : MarketState R T) :
  (0 < share_reserves market_state)%R ->
  (1 <= init_share_price market_state)%R ->
  StretchedTime_wf time_remaining ->
  normalizing_constant time_remaining = 365%R ->
  (0 < stretched_time time_remaining)%R ->
  (-1 < normalized_time time_remaining)%R ->
  (0 <= target_apr <= 1)%R ->
  exists y : R,
    calc_bond_reserves target_apr time_remaining market_state = Ok y /\
    PricingModel.calc_apr_from_reserves (N:=R) (D:=R)
      (with_bond_reserves market_state y) time_remaining
    = Ok target_apr.
Proof.
  intros Hz Hmu [Hnt Hstr] Hnc Hst Hband Hr.
  simpl in Hnt, Hstr. rewrite Hnc in Hnt.
  apply truediv_Ok in Hnt. destruct Hnt as [_ Hnt].
  apply truediv_Ok in Hstr. destruct Hstr as [Hts Hstr].
  assert (Hnt0 : normalized_time time_remaining <> 0%R).
  { intros Hzero. rewrite Hzero in Hstr. unfold Rdiv in Hstr.
    rewrite Rmult_0_l in Hstr. lra. }
  assert (Hbase : (0 < 1 + target_apr * (days time_remaining / 365))%R).
  { rewrite <- Hnt. nra. }
  assert (Hmz : (0 < init_share_price market_state * share_reserves market_state)%R).
  { apply Rmult_lt_0_compat; lra. }
  exists (bond_reserves_closed_form target_apr time_remaining market_state).
  split.
  - apply calc_bond_reserves_exact; [lra | exact Hbase].
  - unfold PricingModel.calc_apr_from_reserves.
    rewrite spot_price_of_closed_form by (assumption || lra). simpl.
    unfold calc_apr_from_spot_price. simpl.
    rewrite ExactFacts.lit_int.
    rewrite ExactFacts.truediv_nonzero
      by (apply Rinv_neq_0_compat; lra). simpl.
    rewrite ExactFacts.truediv_nonzero by exact Hnt0.
    f_equal. rewrite Hnt. rewrite Hnt in Hnt0. field. lra.
Qed.

Lemma calc_bond_reserves_realizes_target_apr_witness :
  exists y : R,
    calc_bond_reserves (1 / 20)%R exact_term exact_pool = Ok y /\
    PricingModel.calc_apr_from_reserves (N:=R) (D:=R)
      (with_bond_reserves exact_pool y) exact_term
    = Ok (1 / 20)%R.
Proof.
  apply (calc_bond_reserves_realizes_target_apr (1 / 20)%R exact_term exact_pool);
    simpl; try lra.
  split; simpl; rewrite ExactFacts.truediv_nonzero by lra; f_equal; field.
Defined.

(** ** The decimal context's rounding keeps the sign *)

Module DecimalFacts.
Import PyDecimal.
Local Open Scope Q_scope.

(** [ndigits] counts the decimal digits once the fuel covers the binary
    logarithm. *)
Lemma ndigits_bounds (fuel : nat) (n : Z) :
  (1 <= n)%Z -> (Z.log2 n <= Z.of_nat fuel)%Z ->
  (1 <= ndigits fuel n /\ 10 ^ (ndigits fuel n - 1) <= n < 10 ^ ndigits fuel n)%Z.
Proof.
  revert n. induction fuel as [|fuel IH]; intros n Hn Hlog.
  - simpl. assert (n < 2)%Z.
    { destruct (Z.lt_ge_cases n 2) as [Hlt|Hge]; [exact Hlt |].
      pose proof (Z.log2_le_mono 2 n Hge) as Hm.
      change (Z.log2 2) with 1%Z in Hm. lia. }
    lia.
  - simpl. destruct (Z.ltb_spec n 10) as [Hlt|Hge].
    + simpl. lia.
    + assert (Hq : (1 <= n / 10)%Z) by (apply Z.div_le_lower_bound; lia).
      assert (Hlq : (Z.log2 (n / 10) <= Z.of_nat fuel)%Z).
      { assert (Hdouble : (2 * (n / 10) <= n)%Z).
        { pose proof (Z.mul_div_le n 10 ltac:(lia)). lia. }
        pose proof (Z.log2_le_mono _ _ Hdouble) as Hm.
        rewrite Z.log2_double in Hm by lia. lia. }
      destruct (IH (n / 10)%Z Hq Hlq) as (Hd & Hlo & Hhi).
      pose proof (Z.div_mod n 10 ltac:(lia)) as Hdm.
      pose proof (Z.mod_pos_bound n 10 ltac:(lia)) as Hmod.
      split; [lia |].
      replace (1 + ndigits fuel (n / 10) - 1)%Z
        with (Z.succ (ndigits fuel (n / 10) - 1))%Z by lia.
      replace (1 + ndigits fuel (n / 10))%Z
        with (Z.succ (ndigits fuel (n / 10)))%Z by lia.
      rewrite !Z.pow_succ_r by lia. lia.
Qed.

Lemma digits10_bounds (n : Z) :
  (1 <= n)%Z ->
  (1 <= digits10 n /\ 10 ^ (digits10 n - 1) <= n < 10 ^ digits10 n)%Z.
Proof.
  intros Hn. unfold digits10. apply ndigits_bounds; [exact Hn |].
  rewrite Z2Nat.id by apply Z.log2_nonneg. lia.
Qed.

Lemma pow10_pos (k : Z) : 0 < pow10 k.
Proof. unfold pow10. apply Qpower_0_lt. reflexivity. Qed.

Lemma pow10_plus (i j : Z) : pow10 (i + j) == pow10 i * pow10 j.
Proof. unfold pow10. apply Qpower_plus. discriminate. Qed.

Lemma pow10_inject (k : Z) : (0 <= k)%Z -> pow10 k == inject_Z (10 ^ k).
Proof. intros Hk. unfold pow10. symmetry. apply Zpower_Qpower. exact Hk. Qed.

Lemma pow10_ge_1 (k : Z) : (0 <= k)%Z -> 1 <= pow10 k.
Proof.
  intros Hk. rewrite pow10_inject by exact Hk.
  change 1 with (inject_Z 1). rewrite <- Zle_Qle.
  pose proof (Z.pow_pos_nonneg 10 k ltac:(lia) Hk). lia.
Qed.

Lemma round_half_even_ge_1 (s : Q) : 1 <= s -> (1 <= round_half_even s)%Z.
Proof.
  intros Hs. unfold round_half_even.
  assert (Hf : (1 <= Qfloor s)%Z).
  { change 1%Z with (Qfloor 1). apply Qfloor_resp_le. exact Hs. }
  destruct (Qcompare _ _); [destruct (Z.even _) | |]; lia.
Qed.

Lemma scaled_numerator (a : Q) (P : Z) :
  (0 < Qnum a)%Z -> (Zpos (Qden a) <= P)%Z ->
  inject_Z (Qnum a) <= a * inject_Z P.
Proof.
  destruct a as [n d]. simpl. intros Hn Hd.
  unfold Qle, Qmult, inject_Z. simpl.
  rewrite Pos2Z.inj_mul. nia.
Qed.

(** The scaled value that is rounded has at least one integral digit. *)
Lemma shift_scaled_ge_1 (a : Q) : 0 < a -> 1 <= a * pow10 (shift_of a).
Proof.
  intros Ha.
  assert (Hn : (1 <= Qnum a)%Z).
  { unfold Qlt in Ha. simpl in Ha. lia. }
  destruct (digits10_bounds (Qnum a) Hn) as (Hdn & Hnlo & _).
  destruct (digits10_bounds (Zpos (Qden a)) ltac:(lia)) as (Hdd & _ & Hdhi).
  unfold shift_of.
  set (dn := digits10 (Qnum a)) in *. set (dd := digits10 (Zpos (Qden a))) in *.
  assert (Hk0 : 1 <= a * pow10 (prec - (dn - dd))).
  { replace (prec - (dn - dd))%Z with (dd + (prec - dn))%Z by lia.
    rewrite pow10_plus, Qmult_assoc.
    apply Qle_trans with (pow10 (dn - 1) * pow10 (prec - dn)).
    - rewrite <- pow10_plus. apply pow10_ge_1. unfold prec. lia.
    - apply Qmult_le_compat_r; [| apply Qlt_le_weak, pow10_pos].
      apply Qle_trans with (inject_Z (Qnum a)).
      + rewrite pow10_inject by lia. rewrite <- Zle_Qle. exact Hnlo.
      + rewrite pow10_inject by lia. apply scaled_numerator; lia. }
  destruct (Qle_bool (inject_Z (10 ^ prec)) (a * pow10 (prec - (dn - dd))))
    eqn:Ebig; [| exact Hk0].
  apply Qle_bool_iff in Ebig.
  replace (prec - (dn - dd) - 1)%Z with ((prec - (dn - dd)) + -1)%Z by lia.
  rewrite pow10_plus, Qmult_assoc.
  apply Qle_trans with (inject_Z (10 ^ prec) * pow10 (-1)).
  - vm_compute. discriminate.
  - apply Qmult_le_compat_r; [exact Ebig | apply Qlt_le_weak, pow10_pos].
Qed.

Lemma round_pos_positive (a : Q) : 0 < a -> 0 < round_pos a.
Proof.
  intros Ha. unfold round_pos.
  pose proof (round_half_even_ge_1 _ (shift_scaled_ge_1 a Ha)) as Hn.
  apply Qmult_lt_0_compat; [| apply pow10_pos].
  change 0 with (inject_Z 0). rewrite <- Zlt_Qlt. lia.
Qed.

(** The context's rounding gives zero on zero only, and keeps the sign. *)
Lemma context_round_zero : context_round 0%Qc = 0%Qc.
Proof. reflexivity. Qed.

Lemma context_round_positive (q : Qc) : (0 < q)%Qc -> (0 < context_round q)%Qc.
Proof.
  intros Hq. unfold context_round.
  assert (Hc : Qcompare q 0 = Gt) by (apply Qgt_alt; exact Hq).
  rewrite Hc. pose proof (round_pos_positive q Hq) as Hpos.
  unfold Qclt. cbn [Q2Qc this]. rewrite !Qred_correct. exact Hpos.
Qed.

End DecimalFacts.

(** ** The spot price *)

Module SpotPriceFacts.
Import PyDecimal HighPrecisionPath.

Lemma of_float_finite (x : float) :
  PyFloat.isfinite x = true -> of_float x = DFin (value_of_float x).
Proof.
  unfold PyFloat.isfinite, PrimFloat.is_finite, PrimFloat.is_infinity.
  intros Hf. apply negb_true_iff, orb_false_iff in Hf. destruct Hf as [Hn Hi].
  rewrite FloatAxioms.eqb_spec, abs_spec in Hi.
  change (Prim2SF infinity) with (S754_infinity false) in Hi.
  unfold of_float.
  destruct (Prim2SF x) as [s|s| |s m e] eqn:E; try reflexivity.
  - simpl in Hi. discriminate Hi.
  - apply FloatFacts.is_nan_spec in E. congruence.
Qed.

Section FloatPath.
Context {T : Type} `{Countable T}.
Variable dec_pow : Decimal -> Decimal -> result Decimal.
Variable float_of_decimal : Decimal -> float.

#[local] Instance decimal_pow : PyPow Decimal := {| kpow := dec_pow |}.
#[local] Instance float_decimal : HighPrecision float Decimal :=
  float_high_precision float_of_decimal.

Lemma hp_unfold (ms : MarketState float T) (t : StretchedTime float) :
  finite_reserves ms ->
  PricingModel._calc_spot_price_from_reserves_high_precision ms t
  = truediv (DFin (hp_numerator ms)) (DFin (hp_denominator ms))
      ≫= (fun q => dec_pow q (of_float (stretched_time t))).
Proof.
  intros (Hmu & Hz & Hy & Hs).
  unfold PricingModel._calc_spot_price_from_reserves_high_precision. simpl.
  rewrite (of_float_finite _ Hmu), (of_float_finite _ Hz),
    (of_float_finite _ Hy), (of_float_finite _ Hs).
  reflexivity.
Qed.

Lemma hp_positive_denominator (ms : MarketState float T) (t : StretchedTime float) :
  finite_reserves ms ->
  (0 < value_of_float (bond_reserves ms) + value_of_float (lp_total_supply ms))%Qc ->
  PricingModel._calc_spot_price_from_reserves_high_precision ms t
  = dec_pow (DFin (context_round (hp_numerator ms / hp_denominator ms)%Qc))
            (of_float (stretched_time t)).
Proof.
  intros Hfin Hpos. rewrite (hp_unfold ms t Hfin).
  pose proof (DecimalFacts.context_round_positive _ Hpos) as Hden.
  fold (hp_denominator ms) in Hden.
  unfold truediv.
  assert (Hnz : Qeq_bool (hp_denominator ms) 0 = false).
  { destruct (Qeq_bool (hp_denominator ms) 0) eqn:E; [| reflexivity].
    apply Qeq_bool_iff in E. unfold Qclt in Hden. rewrite E in Hden.
    exfalso. revert Hden. apply Qlt_irrefl. }
  rewrite Hnz. reflexivity.
Qed.

Lemma hp_zero_denominator (ms : MarketState float T) (t : StretchedTime float) :
  finite_reserves ms ->
  (value_of_float (bond_reserves ms) + value_of_float (lp_total_supply ms))%Qc
  = 0%Qc ->
  PricingModel._calc_spot_price_from_reserves_high_precision ms t
  = Raise (if Qeq_bool (hp_numerator ms) 0
           then DecimalInvalidOperation else DecimalDivisionByZero).
Proof.
  intros Hfin Hzero. rewrite (hp_unfold ms t Hfin).
  unfold hp_denominator. rewrite Hzero, DecimalFacts.context_round_zero.
  unfold truediv. simpl.
  destruct (Qeq_bool (hp_numerator ms) 0); reflexivity.
Qed.

End FloatPath.

Section FixedPath.
Import FixedPointMath.
Context {T : Type} `{Countable T} `{PyPow FixedPoint}.

Lemma fp_guard (ms : MarketState FixedPoint T) (t : StretchedTime FixedPoint) :
  add (bond_reserves ms) (lp_total_supply ms) = FPVal 0 ->
  PricingModelFP.calc_spot_price_from_reserves ms t = Ok FPNaN.
Proof.
  intros Hz. unfold PricingModelFP.calc_spot_price_from_reserves. simpl.
  rewrite Hz. reflexivity.
Qed.

Lemma fp_positive (ms : MarketState FixedPoint T) (t : StretchedTime FixedPoint) :
  ltb (FPVal 0) (add (bond_reserves ms) (lp_total_supply ms)) = true ->
  PricingModelFP.calc_spot_price_from_reserves ms t
  = kpow (div_down (mul (init_share_price ms) (share_reserves ms))
                   (add (bond_reserves ms) (lp_total_supply ms)))
         (stretched_time t).
Proof.
  intros Hpos. unfold PricingModelFP.calc_spot_price_from_reserves. simpl.
  unfold truediv.
  destruct (add (bond_reserves ms) (lp_total_supply ms)) as [v|[|]|];
    simpl in Hpos; try discriminate Hpos; try reflexivity.
  apply Z.ltb_lt in Hpos. unfold eqb, is_zero.
  rewrite (proj2 (Z.eqb_neq v 0)) by lia. reflexivity.
Qed.

End FixedPath.

End SpotPriceFacts.

(** C8: when [bond_reserves + lp_total_supply] is positive the spot price
    is [((mu z) / (y + s)) ** tau]: in [PricingModelFP] it is the power of
    the fixed-point quotient (the guard and the division error are not
    met); in [PricingModel] the high-precision path returns the power of
    the decimal quotient of the rounded product by the rounded sum (no
    decimal signal is raised before the power), and
    [calc_spot_price_from_reserves] is that high-precision value narrowed
    by [float]. *)
Theorem spot_price_formula :
  (forall (T : Type) (EqT : EqDecision T) (CountT : Countable T)
          (fpow : PyPow FixedPointMath.FixedPoint)
          (ms : MarketState FixedPointMath.FixedPoint T)
          (t : StretchedTime FixedPointMath.FixedPoint),
      FixedPointMath.ltb (FixedPointMath.FPVal 0)
        (FixedPointMath.add (bond_reserves ms) (lp_total_supply ms)) = true ->
      PricingModelFP.calc_spot_price_from_reserves ms t
      = kpow (FixedPointMath.div_down
                (FixedPointMath.mul (init_share_price ms) (share_reserves ms))
                (FixedPointMath.add (bond_reserves ms) (lp_total_supply ms)))
             (stretched_time t)) /\
  (forall (T : Type) (EqT : EqDecision T) (CountT : Countable T)
          (dec_pow : PyDecimal.Decimal -> PyDecimal.Decimal -> result PyDecimal.Decimal)
          (float_of_decimal : PyDecimal.Decimal -> float)
          (ms : MarketState float T) (t : StretchedTime float),
      HighPrecisionPath.finite_reserves ms ->
      (0 < PyDecimal.value_of_float (bond_reserves ms)
           + PyDecimal.value_of_float (lp_total_supply ms))%Qc ->
      PricingModel._calc_spot_price_from_reserves_high_precision
        (dpow := {| kpow := dec_pow |})
        (hp := float_high_precision float_of_decimal) ms t
      = dec_pow
          (PyDecimal.DFin
             (PyDecimal.context_round
                (HighPrecisionPath.hp_numerator ms / HighPrecisionPath.hp_denominator ms)%Qc))
          (PyDecimal.of_float (stretched_time t))) /\
  (forall (T : Type) (EqT : EqDecision T) (CountT : Countable T)
          (dec_pow : PyDecimal.Decimal -> PyDecimal.Decimal -> result PyDecimal.Decimal)
          (float_of_decimal : PyDecimal.Decimal -> float)
          (ms : MarketState float T) (t : StretchedTime float),
      PricingModel.calc_spot_price_from_reserves
        (dpow := {| kpow := dec_pow |})
        (hp := float_high_precision float_of_decimal) ms t
      = float_of_decimal <$>
          PricingModel._calc_spot_price_from_reserves_high_precision
            (dpow := {| kpow := dec_pow |})
            (hp := float_high_precision float_of_decimal) ms t).
Proof.
  split; [| split].
  - intros T EqT CountT fpow ms t Hpos.
    apply SpotPriceFacts.fp_positive. exact Hpos.
  - intros T EqT CountT dec_pow float_of_decimal ms t Hfin Hpos.
    apply SpotPriceFacts.hp_positive_denominator; assumption.
  - intros. reflexivity.
Qed.

Lemma spot_price_formula_witness :
  PricingModel._calc_spot_price_from_reserves_high_precision
    (dpow := {| kpow := pow_zero_one |})
    (hp := float_high_precision float_of_small_decimal)
    low_share_price_state quarter_year
  = pow_zero_one
      (PyDecimal.DFin
         (PyDecimal.context_round
            (HighPrecisionPath.hp_numerator low_share_price_state
             / HighPrecisionPath.hp_denominator low_share_price_state)%Qc))
      (PyDecimal.of_float (stretched_time quarter_year)).
Proof.
  apply (proj1 (proj2 spot_price_formula) Z _ _ pow_zero_one float_of_small_decimal
           low_share_price_state quarter_year).
  - repeat split.
  - vm_compute. reflexivity.
Defined.

(** C2 on the code: with [bond_reserves + lp_total_supply] equal to zero,
    [PricingModelFP.calc_spot_price_from_reserves] returns the fixed-point
    not-a-number, while [PricingModel.calc_spot_price_from_reserves] has
    no guard and divides on the decimal path, where the zero divisor
    signals [InvalidOperation] (for a zero [mu z]) or [DivisionByZero] and
    the trap raises it; on the fresh pool of zero reserves it raises
    [InvalidOperation], on a pool with shares but no bonds and no LP supply
    [DivisionByZero]. *)
Theorem spot_price_zero_reserves :
  (forall (T : Type) (EqT : EqDecision T) (CountT : Countable T)
          (fpow : PyPow FixedPointMath.FixedPoint)
          (ms : MarketState FixedPointMath.FixedPoint T)
          (t : StretchedTime FixedPointMath.FixedPoint),
      FixedPointMath.add (bond_reserves ms) (lp_total_supply ms)
      = FixedPointMath.FPVal 0 ->
      PricingModelFP.calc_spot_price_from_reserves ms t = Ok FixedPointMath.FPNaN) /\
  (forall (T : Type) (EqT : EqDecision T) (CountT : Countable T)
          (dec_pow : PyDecimal.Decimal -> PyDecimal.Decimal -> result PyDecimal.Decimal)
          (float_of_decimal : PyDecimal.Decimal -> float)
          (ms : MarketState float T) (t : StretchedTime float),
      HighPrecisionPath.finite_reserves ms ->
      (PyDecimal.value_of_float (bond_reserves ms)
       + PyDecimal.value_of_float (lp_total_supply ms))%Qc = 0%Qc ->
      PricingModel.calc_spot_price_from_reserves
        (dpow := {| kpow := dec_pow |})
        (hp := float_high_precision float_of_decimal) ms t
      = Raise (if Qeq_bool (HighPrecisionPath.hp_numerator ms) 0
               then DecimalInvalidOperation else DecimalDivisionByZero)) /\
  (forall (dec_pow : PyDecimal.Decimal -> PyDecimal.Decimal -> result PyDecimal.Decimal)
          (float_of_decimal : PyDecimal.Decimal -> float)
          (t : StretchedTime float),
      PricingModel.calc_spot_price_from_reserves
        (dpow := {| kpow := dec_pow |})
        (hp := float_high_precision float_of_decimal)
        (Pools.fresh_state 0%float 1%float) t
      = Raise DecimalInvalidOperation /\
      PricingModel.calc_spot_price_from_reserves
        (dpow := {| kpow := dec_pow |})
        (hp := float_high_precision float_of_decimal)
        shares_only_pool t
      = Raise DecimalDivisionByZero).
Proof.
  split; [| split].
  - intros T EqT CountT fpow ms t Hz. apply SpotPriceFacts.fp_guard. exact Hz.
  - intros T EqT CountT dec_pow float_of_decimal ms t Hfin Hz.
    pose proof (SpotPriceFacts.hp_zero_denominator dec_pow float_of_decimal
                  ms t Hfin Hz) as Hraise.
    unfold SpotPriceFacts.decimal_pow, SpotPriceFacts.float_decimal in Hraise.
    unfold PricingModel.calc_spot_price_from_reserves.
    rewrite Hraise. reflexivity.
  - intros dec_pow float_of_decimal t. split; vm_compute; reflexivity.
Qed.

(** * Further properties of the code *)

(** ** [calc_time_stretch]: proportionality and bounds *)

(** X1: in exact arithmetic the time stretch is inversely proportional to
    the rate ([apr * calc_time_stretch apr] is the constant
    [3.09396 / 2.789]), so over rates in (0, 1] it is bounded below by its
    value at [apr = 1], about 1.109, and unbounded above; the fixed-point
    variant has the same lower bound, [1.109343850842595912], over its
    rates in (0, 1]. *)
Theorem calc_time_stretch_bounds :
  (forall apr : R,
      apr <> 0%R ->
      exists v : R,
        calc_time_stretch apr = Ok v /\ (apr * v = 309396 / 278900)%R) /\
  (forall apr : R,
      (0 < apr <= 1)%R ->
      exists v : R, calc_time_stretch apr = Ok v /\ (309396 / 278900 <= v)%R) /\
  (forall bound : R,
      exists apr v : R,
        (0 < apr <= 1)%R /\ calc_time_stretch apr = Ok v /\ (bound < v)%R) /\
  (forall a : Z,
      (0 < a <= 10 ^ 18)%Z ->
      exists v : Z,
        calc_time_stretch (FixedPointMath.FPVal a) = Ok (FixedPointMath.FPVal v) /\
        (1109343850842595912 <= v)%Z).
Proof.
  assert (Hprop : forall apr : R, apr <> 0%R ->
            exists v : R,
              calc_time_stretch apr = Ok v /\ (apr * v = 309396 / 278900)%R).
  { intros apr Hapr. eexists. split.
    - apply ExactFacts.calc_time_stretch_exact. exact Hapr.
    - field. exact Hapr. }
  split; [exact Hprop |]. split; [| split].
  - intros apr [H0 H1].
    destruct (Hprop apr ltac:(lra)) as (v & Hv & Hp).
    exists v. split; [exact Hv |].
    assert (Hvpos : (0 < v)%R) by nra. nra.
  - intros bound.
    set (m := Rmax 1 bound).
    assert (Hm1 : (1 <= m)%R) by apply Rmax_l.
    assert (Hmb : (bound <= m)%R) by apply Rmax_r.
    destruct (Hprop (/ (2 * m))%R) as (v & Hv & Hp).
    { apply Rinv_neq_0_compat. lra. }
    exists (/ (2 * m))%R, v.
    assert (Hinv : (0 < / (2 * m) <= 1)%R).
    { split; [apply Rinv_0_lt_compat; lra |].
      rewrite <- Rinv_1. apply Rinv_le_contravar; lra. }
    split; [exact Hinv |]. split; [exact Hv |].
    assert (Hv2 : (v = 2 * m * (309396 / 278900))%R).
    { rewrite <- Hp. field. lra. }
    rewrite Hv2. nra.
  - intros a [H0 H1].
    exists (fixed_time_stretch a).
    split; [apply TimeStretchFacts.calc_time_stretch_fixed; exact H0 |].
    change 1109343850842595912%Z with (fixed_time_stretch (10 ^ 18)).
    apply TimeStretchFacts.fixed_time_stretch_antitone; lia.
Qed.

Lemma calc_time_stretch_bounds_witness :
  exists v : R,
    calc_time_stretch (1 / 20)%R = Ok v /\ (309396 / 278900 <= v)%R.
Proof.
  apply (proj1 (proj2 calc_time_stretch_bounds) (1 / 20)%R). lra.
Defined.

(** ** [check_input_assertions]: every assertion is necessary *)

Section InputAssertionConverse.
Context {N T : Type} `{PyNum N} `{Countable T} {constants : ElfpyConstants N}.

Lemma check_input_assertions_Ok_inv (quantity : Quantity N)
    (market_state : MarketState N T) (time_remaining : StretchedTime N) :
  outcome (check_input_assertions quantity market_state time_remaining) = Ok tt ->
  asserted_preconditions quantity market_state time_remaining.
Proof.
  unfold check_input_assertions, outcome, asserted_preconditions.
  destruct (kge (amount quantity) WEI) eqn:E1; simpl;
    [| intros Hok; discriminate Hok].
  destruct (kge (share_reserves market_state) (klit 0 0)) eqn:E2; simpl;
    [| intros Hok; discriminate Hok].
  destruct (kge (bond_reserves market_state) (klit 0 0)) eqn:E3; simpl;
    [| intros Hok; discriminate Hok].
  destruct (klt (share_price market_state) (init_share_price market_state)) eqn:Ew;
    simpl;
    (destruct (kge (init_share_price market_state) (klit 1 0)) eqn:E4; simpl;
       [| intros Hok; discriminate Hok];
     destruct (kmul (share_reserves market_state) (share_price market_state))
       as [zc|e] eqn:Ezc; simpl; [| intros Hok; discriminate Hok];
     destruct (ksub zc (bond_reserves market_state)) as [diff|e] eqn:Ediff; simpl;
       [| intros Hok; discriminate Hok];
     destruct (klt (kabs diff) MAX_RESERVES_DIFFERENCE) eqn:E5; simpl;
       [| intros Hok; discriminate Hok];
     destruct (kge (klit 1 0) (curve_fee_multiple market_state)) eqn:E6; simpl;
       [| intros Hok; discriminate Hok];
     destruct (kge (curve_fee_multiple market_state) (klit 0 0)) eqn:E7; simpl;
       [| intros Hok; discriminate Hok];
     destruct (kge (klit 1 0) (flat_fee_multiple market_state)) eqn:E8; simpl;
       [| intros Hok; discriminate Hok];
     destruct (kge (flat_fee_multiple market_state) (klit 0 0)) eqn:E9; simpl;
       [| intros Hok; discriminate Hok];
     destruct (kadd (klit 1 0) PRECISION_THRESHOLD) as [upper|e] eqn:Eup; simpl;
       [| intros Hok; discriminate Hok];
     destruct (kge upper (stretched_time time_remaining)) eqn:E10; simpl;
       [| intros Hok; discriminate Hok];
     destruct (kge (stretched_time time_remaining) (kneg PRECISION_THRESHOLD))
       eqn:E11; simpl; [| intros Hok; discriminate Hok];
     destruct (kge upper (normalized_time time_remaining)) eqn:E12; simpl;
       [| intros Hok; discriminate Hok];
     destruct (kge (normalized_time time_remaining) (kneg PRECISION_THRESHOLD))
       eqn:E13; simpl; [| intros Hok; discriminate Hok];
     intros _;
     repeat split; try reflexivity;
     [exists zc, diff; repeat split; assumption
     | exists upper; repeat split; assumption]).
Qed.

(** The warning is logged as soon as the three assertions before it pass,
    whatever the later assertions do. *)
Lemma check_input_assertions_trace (quantity : Quantity N)
    (market_state : MarketState N T) (time_remaining : StretchedTime N) :
  trace (check_input_assertions quantity market_state time_remaining)
  = if reaches_warning quantity market_state
    then share_price_warnings market_state else [].
Proof.
  unfold check_input_assertions, trace, reaches_warning, share_price_warnings.
  destruct (kge (amount quantity) WEI); simpl; [| reflexivity].
  destruct (kge (share_reserves market_state) (klit 0 0)); simpl; [| reflexivity].
  destruct (kge (bond_reserves market_state) (klit 0 0)); simpl; [| reflexivity].
  destruct (klt (share_price market_state) (init_share_price market_state)); simpl;
    repeat match goal with
           | |- context [match ?x with Ok _ => _ | Raise _ => _ end] =>
               destruct x; simpl
           | |- context [if ?c then _ else _] => destruct c; simpl
           end; reflexivity.
Qed.

End InputAssertionConverse.

(** X2: [check_input_assertions] returns normally exactly when all the
    asserted conditions hold (each assertion is necessary as well as
    sufficient), for every number class; on floats and on fixed-point
    numbers, whose arithmetic in the function cannot raise, every failure
    is an [AssertionError]. *)
Theorem check_input_assertions_exact :
  (forall (N T : Type) (num : PyNum N) (EqT : EqDecision T) (CountT : Countable T)
          (constants : ElfpyConstants N)
          (quantity : Quantity N) (market_state : MarketState N T)
          (time_remaining : StretchedTime N),
      outcome (check_input_assertions quantity market_state time_remaining) = Ok tt
      <-> asserted_preconditions quantity market_state time_remaining) /\
  (forall (T : Type) (EqT : EqDecision T) (CountT : Countable T)
          (constants : ElfpyConstants float)
          (quantity : Quantity float) (market_state : MarketState float T)
          (time_remaining : StretchedTime float),
      outcome (check_input_assertions quantity market_state time_remaining) = Ok tt \/
      outcome (check_input_assertions quantity market_state time_remaining)
      = Raise AssertionError) /\
  (forall (T : Type) (EqT : EqDecision T) (CountT : Countable T)
          (constants : ElfpyConstants FixedPointMath.FixedPoint)
          (quantity : Quantity FixedPointMath.FixedPoint)
          (market_state : MarketState FixedPointMath.FixedPoint T)
          (time_remaining : StretchedTime FixedPointMath.FixedPoint),
      outcome (check_input_assertions quantity market_state time_remaining) = Ok tt \/
      outcome (check_input_assertions quantity market_state time_remaining)
      = Raise AssertionError).
Proof.
  split; [| split].
  - intros N T num EqT CountT constants quantity market_state time_remaining.
    split.
    + apply check_input_assertions_Ok_inv.
    + intros Hpre.
      rewrite (check_input_assertions_passes _ _ _ Hpre). reflexivity.
  - intros T EqT CountT constants quantity market_state time_remaining.
    unfold check_input_assertions, outcome, py_assert. simpl.
    repeat match goal with
           | |- context [if ?c then _ else _] => destruct c; simpl
           end; auto.
  - intros T EqT CountT constants quantity market_state time_remaining.
    unfold check_input_assertions, outcome, py_assert. simpl.
    repeat match goal with
           | |- context [if ?c then _ else _] => destruct c; simpl
           end; auto.
Qed.

(** A trade of half a wei on the pool of the earlier example. *)
Lemma check_input_assertions_exact_witness :
  outcome (check_input_assertions (constants := float_constants)
             (mkQuantity 5e-19%float BASE) low_share_price_state quarter_year)
  = Raise AssertionError.
Proof.
  destruct (proj1 (proj2 check_input_assertions_exact) Z _ _ float_constants
              (mkQuantity 5e-19%float BASE) low_share_price_state quarter_year)
    as [Hok|Herr]; [| exact Herr].
  vm_compute in Hok. discriminate Hok.
Defined.

(** X3: the share-price warning of [check_input_assertions] is logged
    exactly when the three assertions before it pass (amount, share
    reserves, bond reserves) and the share price is below the initial share
    price; later assertions that fail do not take it back, and nothing else
    is ever logged. *)
Theorem check_input_assertions_warning
    {N T : Type} `{PyNum N} `{Countable T} {constants : ElfpyConstants N}
    (quantity : Quantity N) (market_state : MarketState N T)
    (time_remaining : StretchedTime N) :
  trace (check_input_assertions quantity market_state time_remaining)
  = if reaches_warning quantity market_state
       && klt (share_price market_state) (init_share_price market_state)
    then [Warning_share_price (init_share_price market_state)
                              (share_price market_state)]
    else [].
Proof.
  rewrite check_input_assertions_trace. unfold share_price_warnings.
  destruct (reaches_warning quantity market_state);
    destruct (klt (share_price market_state) (init_share_price market_state));
    reflexivity.
Qed.

(** ** Failures inside [get_max_long] and [get_max_short] *)

Section GetMaxFailures.
Context {N T : Type} `{PyNum N} `{Countable T} {pm : PricingModelMethods N T}.

Lemma get_max_long_first_call_fails (ms : MarketState N T) (t : StretchedTime N)
    (out : N) (e : exn) :
  ksub (bond_reserves ms) (bond_buffer ms) = Ok out ->
  calc_in_given_out (mkQuantity out PT) ms t = Raise e ->
  get_max_long ms t = ([CallInGivenOut (mkQuantity out PT) ms t], Raise e).
Proof.
  intros Hout Hin. unfold get_max_long, call_in_given_out.
  rewrite Hout. simpl. rewrite Hin. reflexivity.
Qed.

Lemma get_max_long_second_call_fails (ms : MarketState N T) (t : StretchedTime N)
    (out : N) (r_in : TradeResult N) (e : exn) :
  ksub (bond_reserves ms) (bond_buffer ms) = Ok out ->
  calc_in_given_out (mkQuantity out PT) ms t = Ok r_in ->
  calc_out_given_in (mkQuantity (with_fee (breakdown r_in)) BASE) ms t = Raise e ->
  get_max_long ms t
  = (max_long_calls out (with_fee (breakdown r_in)) ms t, Raise e).
Proof.
  intros Hout Hin Hsecond. unfold get_max_long, call_in_given_out, call_out_given_in.
  rewrite Hout. simpl. rewrite Hin. simpl. rewrite Hsecond. reflexivity.
Qed.

Lemma get_max_short_first_call_fails (ms : MarketState N T) (t : StretchedTime N)
    (buffer_shares out : N) (e : exn) :
  kdiv (base_buffer ms) (share_price ms) = Ok buffer_shares ->
  ksub (share_reserves ms) buffer_shares = Ok out ->
  calc_in_given_out (mkQuantity out PT) ms t = Raise e ->
  get_max_short ms t = ([CallInGivenOut (mkQuantity out PT) ms t], Raise e).
Proof.
  intros Hbuf Hout Hin. unfold get_max_short, call_in_given_out.
  rewrite Hbuf. simpl. rewrite Hout. simpl. rewrite Hin. reflexivity.
Qed.

Lemma get_max_short_second_call_fails (ms : MarketState N T) (t : StretchedTime N)
    (buffer_shares out : N) (r_in : TradeResult N) (e : exn) :
  kdiv (base_buffer ms) (share_price ms) = Ok buffer_shares ->
  ksub (share_reserves ms) buffer_shares = Ok out ->
  calc_in_given_out (mkQuantity out PT) ms t = Ok r_in ->
  calc_out_given_in (mkQuantity (with_fee (breakdown r_in)) PT) ms t = Raise e ->
  get_max_short ms t
  = (max_short_calls out (with_fee (breakdown r_in)) ms t, Raise e).
Proof.
  intros Hbuf Hout Hin Hsecond.
  unfold get_max_short, call_in_given_out, call_out_given_in.
  rewrite Hbuf. simpl. rewrite Hout. simpl. rewrite Hin. simpl.
  rewrite Hsecond. reflexivity.
Qed.

(** A failing division leaves [get_max_short] without any pricing-model
    call. *)
Lemma get_max_short_division_fails (ms : MarketState N T) (t : StretchedTime N)
    (e : exn) :
  kdiv (base_buffer ms) (share_price ms) = Raise e ->
  get_max_short ms t = ([], Raise e).
Proof.
  intros Hbuf. unfold get_max_short. rewrite Hbuf. reflexivity.
Qed.

End GetMaxFailures.

(** X4: an exception of a pricing-model method goes through [get_max_long]
    and [get_max_short] unchanged: when [calc_in_given_out] raises, the
    exception is the outcome and [calc_out_given_in] is never called; when
    [calc_out_given_in] raises, the exception is the outcome after exactly
    the two calls. *)
Theorem get_max_failure_propagates
    {N T : Type} `{PyNum N} `{Countable T} {pm : PricingModelMethods N T}
    (ms : MarketState N T) (t : StretchedTime N) :
  (forall out e,
      ksub (bond_reserves ms) (bond_buffer ms) = Ok out ->
      calc_in_given_out (mkQuantity out PT) ms t = Raise e ->
      get_max_long ms t = ([CallInGivenOut (mkQuantity out PT) ms t], Raise e)) /\
  (forall out r_in e,
      ksub (bond_reserves ms) (bond_buffer ms) = Ok out ->
      calc_in_given_out (mkQuantity out PT) ms t = Ok r_in ->
      calc_out_given_in (mkQuantity (with_fee (breakdown r_in)) BASE) ms t = Raise e ->
      get_max_long ms t
      = ([CallInGivenOut (mkQuantity out PT) ms t;
          CallOutGivenIn (mkQuantity (with_fee (breakdown r_in)) BASE) ms t],
         Raise e)) /\
  (forall buffer_shares out e,
      kdiv (base_buffer ms) (share_price ms) = Ok buffer_shares ->
      ksub (share_reserves ms) buffer_shares = Ok out ->
      calc_in_given_out (mkQuantity out PT) ms t = Raise e ->
      get_max_short ms t = ([CallInGivenOut (mkQuantity out PT) ms t], Raise e)) /\
  (forall buffer_shares out r_in e,
      kdiv (base_buffer ms) (share_price ms) = Ok buffer_shares ->
      ksub (share_reserves ms) buffer_shares = Ok out ->
      calc_in_given_out (mkQuantity out PT) ms t = Ok r_in ->
      calc_out_given_in (mkQuantity (with_fee (breakdown r_in)) PT) ms t = Raise e ->
      get_max_short ms t
      = ([CallInGivenOut (mkQuantity out PT) ms t;
          CallOutGivenIn (mkQuantity (with_fee (breakdown r_in)) PT) ms t],
         Raise e)).
Proof.
  split; [| split; [| split]].
  - intros out e. apply get_max_long_first_call_fails.
  - intros out r_in e. apply get_max_long_second_call_fails.
  - intros buffer_shares out e. apply get_max_short_first_call_fails.
  - intros buffer_shares out r_in e. apply get_max_short_second_call_fails.
Qed.

(** The base class on the pool of the earlier example. *)
Lemma get_max_failure_propagates_witness :
  get_max_long (pm := base_methods float Z) low_share_price_state quarter_year
  = ([CallInGivenOut (mkQuantity 1000000%float PT) low_share_price_state quarter_year],
     Raise NotImplementedError).
Proof.
  apply (proj1 (get_max_failure_propagates (pm := base_methods float Z)
                  low_share_price_state quarter_year)
           1000000%float NotImplementedError);
    vm_compute; reflexivity.
Defined.

(** X5: [get_max_short] divides the base buffer by the share price before
    anything else: on floats it makes no pricing-model call exactly when
    the share price is zero, and then fails with [ZeroDivisionError]; on
    fixed-point numbers a zero share price gives the fixed-point
    division-by-zero error, again before any call.  [get_max_long] has no
    division and always reaches its first call on floats. *)
Theorem get_max_short_zero_share_price :
  (forall (T : Type) (EqT : EqDecision T) (CountT : Countable T)
          (pm : PricingModelMethods float T)
          (ms : MarketState float T) (t : StretchedTime float),
      (trace (get_max_short ms t) = [] <-> PyFloat.is_zero (share_price ms) = true) /\
      (PyFloat.is_zero (share_price ms) = true ->
       get_max_short ms t = ([], Raise ZeroDivisionError)) /\
      trace (get_max_long ms t) <> []) /\
  (forall (T : Type) (EqT : EqDecision T) (CountT : Countable T)
          (pm : PricingModelMethods FixedPointMath.FixedPoint T)
          (ms : MarketState FixedPointMath.FixedPoint T)
          (t : StretchedTime FixedPointMath.FixedPoint),
      (trace (get_max_short ms t) = []
       <-> FixedPointMath.is_zero (share_price ms) = true) /\
      (FixedPointMath.is_zero (share_price ms) = true ->
       get_max_short ms t = ([], Raise FixedPointDivisionByZero))).
Proof.
  split.
  - intros T EqT CountT pm ms t. split; [| split].
    + unfold get_max_short, call_in_given_out, call_out_given_in, trace. simpl.
      unfold PyFloat.truediv.
      destruct (PyFloat.is_zero (share_price ms)); simpl.
      * split; reflexivity.
      * destruct (calc_in_given_out _ ms t) as [r_in|e]; simpl.
        -- destruct (calc_out_given_in _ ms t); simpl;
             split; intros Hx; discriminate Hx.
        -- split; intros Hx; discriminate Hx.
    + intros Hz. apply get_max_short_division_fails. simpl.
      unfold PyFloat.truediv. rewrite Hz. reflexivity.
    + unfold get_max_long, call_in_given_out, call_out_given_in, trace. simpl.
      destruct (calc_in_given_out _ ms t) as [r_in|e]; simpl.
      * destruct (calc_out_given_in _ ms t); simpl; discriminate.
      * discriminate.
  - intros T EqT CountT pm ms t. split.
    + unfold get_max_short, call_in_given_out, call_out_given_in, trace. simpl.
      unfold FixedPointMath.truediv.
      destruct (FixedPointMath.is_zero (share_price ms)); simpl.
      * split; reflexivity.
      * destruct (calc_in_given_out _ ms t) as [r_in|e]; simpl.
        -- destruct (calc_out_given_in _ ms t); simpl;
             split; intros Hx; discriminate Hx.
        -- split; intros Hx; discriminate Hx.
    + intros Hz. apply get_max_short_division_fails. simpl.
      unfold FixedPointMath.truediv. rewrite Hz. reflexivity.
Qed.

(** X6: on the base class itself, whose [calc_in_given_out] and
    [calc_out_given_in] raise [NotImplementedError], [get_max_long] and
    [get_max_short] never return: on floats and on fixed-point numbers
    [get_max_long] fails with [NotImplementedError] after its one call to
    [calc_in_given_out], and so does [get_max_short] unless the share price
    is zero. *)
Theorem get_max_on_base_class :
  (forall (N T : Type) (num : PyNum N) (EqT : EqDecision T) (CountT : Countable T)
          (ms : MarketState N T) (t : StretchedTime N) (v : N * N),
      outcome (get_max_long (pm := base_methods N T) ms t) <> Ok v /\
      outcome (get_max_short (pm := base_methods N T) ms t) <> Ok v) /\
  (forall (T : Type) (EqT : EqDecision T) (CountT : Countable T)
          (ms : MarketState float T) (t : StretchedTime float),
      outcome (get_max_long (pm := base_methods float T) ms t)
      = Raise NotImplementedError /\
      length (trace (get_max_long (pm := base_methods float T) ms t)) = 1 /\
      (PyFloat.is_zero (share_price ms) = false ->
       outcome (get_max_short (pm := base_methods float T) ms t)
       = Raise NotImplementedError /\
       length (trace (get_max_short (pm := base_methods float T) ms t)) = 1)) /\
  (forall (T : Type) (EqT : EqDecision T) (CountT : Countable T)
          (ms : MarketState FixedPointMath.FixedPoint T)
          (t : StretchedTime FixedPointMath.FixedPoint),
      outcome (get_max_long (pm := base_methods FixedPointMath.FixedPoint T) ms t)
      = Raise NotImplementedError /\
      length (trace (get_max_long (pm := base_methods FixedPointMath.FixedPoint T)
                       ms t)) = 1 /\
      (FixedPointMath.is_zero (share_price ms) = false ->
       outcome (get_max_short (pm := base_methods FixedPointMath.FixedPoint T) ms t)
       = Raise NotImplementedError /\
       length (trace (get_max_short (pm := base_methods FixedPointMath.FixedPoint T)
                        ms t)) = 1)).
Proof.
  split; [| split].
  - intros N T num EqT CountT ms t v.
    unfold get_max_long, get_max_short, call_in_given_out, outcome. simpl.
    split.
    + destruct (ksub (bond_reserves ms) (bond_buffer ms)); simpl; discriminate.
    + destruct (kdiv (base_buffer ms) (share_price ms)) as [b|e]; simpl;
        [| discriminate].
      destruct (ksub (share_reserves ms) b); simpl; discriminate.
  - intros T EqT CountT ms t.
    unfold get_max_long, get_max_short, call_in_given_out, outcome, trace. simpl.
    split; [reflexivity |]. split; [reflexivity |].
    intros Hz. unfold PyFloat.truediv. rewrite Hz. simpl. split; reflexivity.
  - intros T EqT CountT ms t.
    unfold get_max_long, get_max_short, call_in_given_out, outcome, trace. simpl.
    split; [reflexivity |]. split; [reflexivity |].
    intros Hz. unfold FixedPointMath.truediv. rewrite Hz. simpl. split; reflexivity.
Qed.

(** ** The finiteness check of [Market.update_market], field by field *)

Section MarketUpdateChecks.

(** The body of the loop of [check_market_updates] on one field. *)
Local Abbreviation check_field value :=
  (if truthy value
   then np_isfinite match value with PyQuantity a _ => a | _ => value end
        ≫= (fun finite => py_assert finite)
   else Ok tt).

Lemma check_field_passes (value : pyval) :
  field_passes value = true -> check_field value = Ok tt.
Proof.
  unfold field_passes, value_to_check.
  destruct (truthy value); simpl; [| reflexivity].
  destruct (np_isfinite _) as [[|]|e]; simpl; intros Hp;
    reflexivity || discriminate Hp.
Qed.

Lemma check_field_fails (value : pyval) :
  field_passes value = false ->
  check_field value
  = match np_isfinite (value_to_check value) with
    | Ok _ => Raise AssertionError
    | Raise e => Raise e
    end.
Proof.
  unfold field_passes, value_to_check.
  destruct (truthy value); simpl; [| intros Hp; discriminate Hp].
  destruct (np_isfinite _) as [[|]|e]; simpl; intros Hp;
    reflexivity || discriminate Hp.
Qed.

Lemma np_isfinite_errors (value : pyval) (e : exn) :
  np_isfinite value = Raise e -> e = TypeError.
Proof.
  destruct value as [|z| | | |]; simpl; intros He;
    try (inversion He; reflexivity).
  destruct ((- 2 ^ 63 <=? z) && (z <? 2 ^ 64))%Z; inversion He; reflexivity.
Qed.

Lemma check_items_passes (items : list (string * pyval)) :
  check_items items = Ok tt <-> forallb field_passes (snd <$> items) = true.
Proof.
  induction items as [|[key value] rest IH]; simpl.
  - split; reflexivity.
  - destruct (field_passes value) eqn:Hp; simpl.
    + rewrite (check_field_passes value Hp). simpl. exact IH.
    + rewrite (check_field_fails value Hp).
      destruct (np_isfinite (value_to_check value)); simpl;
        split; intros Hx; discriminate Hx.
Qed.

Lemma check_items_first_failure (pre post : list (string * pyval))
    (key : string) (value : pyval) :
  forallb field_passes (snd <$> pre) = true ->
  field_passes value = false ->
  check_items (pre ++ (key, value) :: post)
  = match np_isfinite (value_to_check value) with
    | Ok _ => Raise AssertionError
    | Raise e => Raise e
    end.
Proof.
  intros Hpre Hv. induction pre as [|[k v] pre IH]; simpl.
  - rewrite (check_field_fails value Hv).
    destruct (np_isfinite (value_to_check value)); reflexivity.
  - simpl in Hpre. apply andb_true_iff in Hpre. destruct Hpre as [Hk Hpre].
    rewrite (check_field_passes v Hk). simpl. apply IH. exact Hpre.
Qed.

Lemma check_items_errors (items : list (string * pyval)) (e : exn) :
  check_items items = Raise e -> e = AssertionError \/ e = TypeError.
Proof.
  induction items as [|[key value] rest IH]; simpl.
  - intros Hx. discriminate Hx.
  - destruct (field_passes value) eqn:Hp.
    + rewrite (check_field_passes value Hp). simpl. exact IH.
    + rewrite (check_field_fails value Hp).
      destruct (np_isfinite (value_to_check value)) as [b|e'] eqn:Hfin; simpl;
        intros Hx; inversion Hx; subst.
      * left. reflexivity.
      * right. apply (np_isfinite_errors _ _ Hfin).
Qed.

End MarketUpdateChecks.

(** X7: [check_market_updates] accepts a delta exactly when every field of
    its [__dict__] is falsy (zero, [None], an empty dict) or holds a finite
    number, directly or as the amount of a [Quantity]: a finite float, or
    an int that fits 64 bits; otherwise the first field that is neither
    decides the failure: [AssertionError] when its value is a float that is
    not finite, [TypeError] when [np.isfinite] is not defined on it (a
    non-empty dict, an int beyond 64 bits); it fails in no other way. *)
Theorem check_market_updates_characterised
    {State Deltas : Type} {classes : MarketClasses State Deltas} (d : Deltas) :
  (check_market_updates d = Ok tt
   <-> forallb field_passes (snd <$> delta_dict d) = true) /\
  (forall e, check_market_updates d = Raise e ->
             e = AssertionError \/ e = TypeError) /\
  (forall pre key value post,
      delta_dict d = pre ++ (key, value) :: post ->
      forallb field_passes (snd <$> pre) = true ->
      field_passes value = false ->
      check_market_updates d
      = match np_isfinite (value_to_check value) with
        | Ok _ => Raise AssertionError
        | Raise e => Raise e
        end) /\
  (forall pre key items post,
      delta_dict d = pre ++ (key, PyDict items) :: post ->
      forallb field_passes (snd <$> pre) = true ->
      items <> [] ->
      check_market_updates d = Raise TypeError) /\
  (forall pre key z post,
      delta_dict d = pre ++ (key, PyInt z) :: post ->
      forallb field_passes (snd <$> pre) = true ->
      (z < - 2 ^ 63 \/ 2 ^ 64 <= z)%Z ->
      check_market_updates d = Raise TypeError).
Proof.
  unfold check_market_updates. split; [| split; [| split; [| split]]].
  - apply check_items_passes.
  - intros e. apply check_items_errors.
  - intros pre key value post Hd Hpre Hv. rewrite Hd.
    apply check_items_first_failure; assumption.
  - intros pre key items post Hd Hpre Hne. rewrite Hd.
    rewrite (check_items_first_failure pre post key (PyDict items) Hpre).
    + reflexivity.
    + destruct items; [contradiction | reflexivity].
  - intros pre key z post Hd Hpre Hz. rewrite Hd.
    assert (Hrange : ((- 2 ^ 63 <=? z) && (z <? 2 ^ 64))%Z = false).
    { apply andb_false_iff. destruct Hz as [Hz|Hz].
      - left. apply Z.leb_gt. exact Hz.
      - right. apply Z.ltb_ge. exact Hz. }
    assert (Hnz : (z =? 0)%Z = false) by (apply Z.eqb_neq; lia).
    rewrite (check_items_first_failure pre post key (PyInt z) Hpre).
    + simpl. rewrite Hrange. reflexivity.
    + unfold field_passes. simpl. rewrite Hnz, Hrange. reflexivity.
Qed.

(** The hyperdrive delta of the earlier example whose bond-reserve change is
    not a number. *)
Lemma check_market_updates_characterised_witness :
  check_market_updates (classes := Pools.float_classes) Pools.nan_delta
  = Raise AssertionError.
Proof.
  apply (proj1 (proj2 (proj2 (check_market_updates_characterised
                                (classes := Pools.float_classes) Pools.nan_delta)))
           [("d_share_reserves"%string, PyFloat 0%float)]
           "d_bond_reserves"%string (PyFloat nan)
           (tail (tail (delta_dict (MarketClasses := Pools.float_classes)
                          Pools.nan_delta))));
    vm_compute; reflexivity.
Defined.

(** ** What [update_market] changes, and when it succeeds *)

Section MarketUpdateOutcome.
Context {State Deltas PM BT : Type} {classes : MarketClasses State Deltas}.

Local Abbreviation market := (Market State PM BT).

Lemma update_market_frame (d : Deltas) (m : market) :
  pricing_model (update_market d m).1 = pricing_model m /\
  block_time (update_market d m).1 = block_time m.
Proof.
  destruct (check_market_updates d) as [[]|e] eqn:Hc.
  - rewrite (update_market_after_precheck d m Hc). split; reflexivity.
  - rewrite (update_market_precheck_fails d m e Hc). split; reflexivity.
Qed.

Lemma update_market_fp_frame (d : Deltas) (m : market) :
  pricing_model (update_market_fp d m).1 = pricing_model m /\
  block_time (update_market_fp d m).1 = block_time m.
Proof. rewrite update_market_fp_unfold. split; reflexivity. Qed.

Lemma update_market_Ok (d : Deltas) (m : market) :
  (update_market d m).2 = Ok tt <->
  check_market_updates d = Ok tt /\
  (apply_delta d (market_state m)).2 = Ok tt /\
  check_non_zero (apply_delta d (market_state m)).1 = Ok tt.
Proof.
  destruct (check_market_updates d) as [[]|e] eqn:Hc.
  - rewrite (update_market_after_precheck d m Hc). simpl.
    destruct (apply_delta d (market_state m)) as [s' [[]|e]]; simpl.
    + split; [intros Hnz; auto | intros (_ & _ & Hnz); exact Hnz].
    + split; [intros Hx; discriminate Hx | intros (_ & Hx & _); discriminate Hx].
  - rewrite (update_market_precheck_fails d m e Hc). simpl.
    split; [intros Hx; discriminate Hx | intros (Hx & _); discriminate Hx].
Qed.




End MarketUpdateOutcome.

(** X8: [Market.update_market] and [MarketFP.update_market] assign to
    [self.market_state] only: the pricing model and the block time of the
    market are the same after the call, whatever the outcome.
    [Market.update_market] returns normally exactly when the finiteness
    check passes, [apply_delta] returns normally and [check_non_zero]
    accepts the state [apply_delta] left, and the market then holds that
    state. *)
Theorem update_market_success_and_frame
    {State Deltas PM BT : Type} {classes : MarketClasses State Deltas}
    (d : Deltas) (m : Market State PM BT) :
  (pricing_model (update_market d m).1 = pricing_model m /\
   block_time (update_market d m).1 = block_time m) /\
  (pricing_model (update_market_fp d m).1 = pricing_model m /\
   block_time (update_market_fp d m).1 = block_time m) /\
  ((update_market d m).2 = Ok tt <->
   check_market_updates d = Ok tt /\
   (apply_delta d (market_state m)).2 = Ok tt /\
   check_non_zero (apply_delta d (market_state m)).1 = Ok tt) /\
  ((update_market d m).2 = Ok tt ->
   market_state (update_market d m).1 = (apply_delta d (market_state m)).1).
Proof.
  split; [apply update_market_frame |].
  split; [apply update_market_fp_frame |].
  split; [apply update_market_Ok |].
  intros Hok. apply update_market_Ok in Hok. destruct Hok as (Hc & _ & _).
  rewrite (update_market_after_precheck d m Hc). reflexivity.
Qed.



(** ** The initial bond reserves, in exact arithmetic *)

Section InitialReserves.
Context {T : Type} `{Countable T}.
Import Exact ExactFacts.
Local Open Scope R_scope.

Lemma calc_initial_bond_reserves_exact (target_apr : R) (t : StretchedTime R)
    (ms : MarketState R T) :
  stretched_time t <> 0 ->
  0 < 1 + target_apr * (days t / 365) ->
  calc_initial_bond_reserves target_apr t ms
  = Ok (share_reserves ms / 2
        * (init_share_price ms
           * Rpower (1 + target_apr * (days t / 365)) (1 / stretched_time t)
           - share_price ms)).
Proof.
  intros Hst Hbase.
  unfold calc_initial_bond_reserves, norm_days. simpl.
  rewrite !lit_int.
  rewrite (truediv_nonzero (days t) 365) by lra. simpl.
  rewrite (truediv_nonzero (share_reserves ms) 2) by lra. simpl.
  rewrite (truediv_nonzero 1 (stretched_time t)) by exact Hst. simpl.
  rewrite pow_positive by exact Hbase. reflexivity.
Qed.

(** A power with a positive exponent grows with its base. *)
Lemma Rpower_base_increasing (a b c : R) :
  0 < c -> 0 < a -> a < b -> Rpower a c < Rpower b c.
Proof.
  intros Hc Ha Hab. unfold Rpower. apply exp_increasing.
  apply Rmult_lt_compat_l; [exact Hc |].
  apply ln_increasing; assumption.
Qed.

Lemma Rpower_one_base (c : R) : Rpower 1 c = 1.
Proof. unfold Rpower. rewrite ln_1, Rmult_0_r, exp_0. reflexivity. Qed.

Lemma Rpower_lt_1 (q c : R) : 0 < c -> 0 < q -> (Rpower q c < 1 <-> q < 1).
Proof.
  intros Hc Hq. split.
  - intros Hp. destruct (Rlt_dec q 1) as [Hlt|Hge]; [exact Hlt |].
    exfalso. apply Rnot_lt_le in Hge.
    assert (Hone : 1 <= Rpower q c).
    { destruct Hge as [Hgt|Heq].
      - left. rewrite <- (Rpower_one_base c).
        apply Rpower_base_increasing; [assumption | lra | exact Hgt].
      - right. rewrite <- Heq. rewrite Rpower_one_base. reflexivity. }
    lra.
  - intros Hlt. rewrite <- (Rpower_one_base c).
    apply Rpower_base_increasing; assumption.
Qed.

End InitialReserves.

(** X11: in exact arithmetic, the amount [calc_initial_bond_reserves]
    returns is a fixed point of [calc_bond_reserves]: on the pool that holds
    this amount of bonds and an LP supply of [share_price * share_reserves]
    plus this amount, [calc_bond_reserves] for the same rate returns the
    same amount, and the spot price of that pool is the discount factor
    [1 / (1 + target_apr * days / 365)]. *)
Theorem calc_initial_bond_reserves_fixed_point
    {T : Type} `{Countable T}
    (target_apr : R) (time_remaining : StretchedTime R)
    (market_state : MarketState R T) :
  stretched_time time_remaining <> 0%R ->
  (0 < 1 + target_apr * (days time_remaining / 365))%R ->
  (0 < init_share_price market_state * share_reserves market_state)%R ->
  exists y0 : R,
    calc_initial_bond_reserves target_apr time_remaining market_state = Ok y0 /\
    calc_bond_reserves target_apr time_remaining
      (with_lp_total_supply (with_bond_reserves market_state y0)
         (share_price market_state * share_reserves market_state + y0)%R)
    = Ok y0 /\
    PricingModel.calc_spot_price_from_reserves (N:=R) (D:=R)
      (with_lp_total_supply (with_bond_reserves market_state y0)
         (share_price market_state * share_reserves market_state + y0)%R)
      time_remaining
    = Ok (/ (1 + target_apr * (days time_remaining / 365)))%R.
Proof.
  intros Hst Hbase Hmz.
  rewrite (calc_initial_bond_reserves_exact _ _ _ Hst Hbase).
  eexists. split; [reflexivity |].
  set (F := Rpower (1 + target_apr * (days time_remaining / 365))
                   (1 / stretched_time time_remaining)).
  set (y0 := (share_reserves market_state / 2
              * (init_share_price market_state * F - share_price market_state))%R).
  set (supply := (share_price market_state * share_reserves market_state + y0)%R).
  assert (Hclosed : bond_reserves_closed_form target_apr time_remaining
                      (with_lp_total_supply market_state supply) = y0).
  { unfold bond_reserves_closed_form. simpl. fold F. unfold supply, y0. field. }
  split.
  - rewrite (calc_bond_reserves_exact _ _ _ Hst Hbase). f_equal.
    exact Hclosed.
  - pose proof (spot_price_of_closed_form target_apr time_remaining
                  (with_lp_total_supply market_state supply) Hmz Hst Hbase)
      as Hspot.
    rewrite Hclosed in Hspot. exact Hspot.
Qed.

Lemma calc_initial_bond_reserves_fixed_point_witness :
  exists y0 : R,
    calc_initial_bond_reserves (1 / 20)%R exact_term exact_pool = Ok y0 /\
    calc_bond_reserves (1 / 20)%R exact_term
      (with_lp_total_supply (with_bond_reserves exact_pool y0)
         (share_price exact_pool * share_reserves exact_pool + y0)%R)
    = Ok y0 /\
    PricingModel.calc_spot_price_from_reserves (N:=R) (D:=R)
      (with_lp_total_supply (with_bond_reserves exact_pool y0)
         (share_price exact_pool * share_reserves exact_pool + y0)%R)
      exact_term
    = Ok (/ (1 + 1 / 20 * (days exact_term / 365)))%R.
Proof.
  apply (calc_initial_bond_reserves_fixed_point (1 / 20)%R exact_term exact_pool);
    simpl; lra.
Defined.

(** X12: in exact arithmetic, for a positive time remaining and a pool with
    positive share reserves and initial share price, [calc_bond_reserves]
    and [calc_initial_bond_reserves] are strictly increasing in the target
    rate over the non-negative rates: a higher rate asks for more bonds. *)
Theorem bond_reserves_increase_with_target_apr
    {T : Type} `{Countable T}
    (apr1 apr2 : R) (time_remaining : StretchedTime R)
    (market_state : MarketState R T) :
  (0 < stretched_time time_remaining)%R ->
  (0 < days time_remaining)%R ->
  (0 < share_reserves market_state)%R ->
  (0 < init_share_price market_state)%R ->
  (0 <= apr1 < apr2)%R ->
  (exists y1 y2 : R,
      calc_bond_reserves apr1 time_remaining market_state = Ok y1 /\
      calc_bond_reserves apr2 time_remaining market_state = Ok y2 /\
      (y1 < y2)%R) /\
  (exists y1 y2 : R,
      calc_initial_bond_reserves apr1 time_remaining market_state = Ok y1 /\
      calc_initial_bond_reserves apr2 time_remaining market_state = Ok y2 /\
      (y1 < y2)%R).
Proof.
  intros Hst Hdays Hz Hmu [Hr1 Hr12].
  assert (Hd : (0 < days time_remaining / 365)%R)
    by (apply Rdiv_lt_0_compat; lra).
  assert (Hb1 : (0 < 1 + apr1 * (days time_remaining / 365))%R) by nra.
  assert (Hb2 : (0 < 1 + apr2 * (days time_remaining / 365))%R) by nra.
  assert (Hb12 : (1 + apr1 * (days time_remaining / 365)
                  < 1 + apr2 * (days time_remaining / 365))%R) by nra.
  assert (Hexp : (0 < 1 / stretched_time time_remaining)%R)
    by (apply Rdiv_lt_0_compat; lra).
  pose proof (Rpower_base_increasing _ _ _ Hexp Hb1 Hb12) as Hpow.
  assert (Hne : stretched_time time_remaining <> 0%R) by lra.
  split.
  - rewrite !calc_bond_reserves_exact by assumption.
    do 2 eexists. split; [reflexivity |]. split; [reflexivity |].
    unfold bond_reserves_closed_form.
    assert (Hmz : (0 < init_share_price market_state * share_reserves market_state)%R)
      by (apply Rmult_lt_0_compat; assumption).
    nra.
  - rewrite !calc_initial_bond_reserves_exact by assumption.
    do 2 eexists. split; [reflexivity |]. split; [reflexivity |].
    apply Rmult_lt_compat_l; [lra |].
    apply Rplus_lt_compat_r. apply Rmult_lt_compat_l; assumption.
Qed.

Lemma bond_reserves_increase_with_target_apr_witness :
  (exists y1 y2 : R,
      calc_bond_reserves (1 / 20)%R exact_term exact_pool = Ok y1 /\
      calc_bond_reserves (1 / 10)%R exact_term exact_pool = Ok y2 /\
      (y1 < y2)%R) /\
  (exists y1 y2 : R,
      calc_initial_bond_reserves (1 / 20)%R exact_term exact_pool = Ok y1 /\
      calc_initial_bond_reserves (1 / 10)%R exact_term exact_pool = Ok y2 /\
      (y1 < y2)%R).
Proof.
  apply (bond_reserves_increase_with_target_apr (1 / 20)%R (1 / 10)%R
           exact_term exact_pool); simpl; lra.
Defined.

(** X13: in exact arithmetic, for a positive stretched time and a pool
    whose [init_share_price * share_reserves] and
    [bond_reserves + lp_total_supply] are positive, the spot price is
    positive, and it is below one exactly when
    [init_share_price * share_reserves < bond_reserves + lp_total_supply]:
    bonds trade at a discount exactly when they outweigh the shares. *)
Theorem spot_price_discount
    {T : Type} `{Countable T}
    (market_state : MarketState R T) (time_remaining : StretchedTime R) :
  (0 < stretched_time time_remaining)%R ->
  (0 < init_share_price market_state * share_reserves market_state)%R ->
  (0 < bond_reserves market_state + lp_total_supply market_state)%R ->
  exists p : R,
    PricingModel.calc_spot_price_from_reserves (N:=R) (D:=R)
      market_state time_remaining = Ok p /\
    (0 < p)%R /\
    ((p < 1)%R <->
     (init_share_price market_state * share_reserves market_state
      < bond_reserves market_state + lp_total_supply market_state)%R).
Proof.
  intros Hst Hmz Hys.
  assert (Hq : (0 < init_share_price market_state * share_reserves market_state
                    / (bond_reserves market_state + lp_total_supply market_state))%R)
    by (apply Rdiv_lt_0_compat; assumption).
  rewrite calc_spot_price_exact by (lra || exact Hq).
  eexists. split; [reflexivity |]. split.
  - apply exp_pos.
  - rewrite (Rpower_lt_1 _ _ Hst Hq). split.
    + intros Hlt.
      apply (Rmult_lt_compat_r _ _ _ Hys) in Hlt.
      unfold Rdiv in Hlt. rewrite Rmult_assoc, Rinv_l, Rmult_1_r, Rmult_1_l in Hlt
        by lra.
      exact Hlt.
    + intros Hlt. apply (Rmult_lt_reg_r _ _ _ Hys).
      unfold Rdiv. rewrite Rmult_assoc, Rinv_l, Rmult_1_r, Rmult_1_l by lra.
      exact Hlt.
Qed.

Lemma spot_price_discount_witness :
  exists p : R,
    PricingModel.calc_spot_price_from_reserves (N:=R) (D:=R)
      (with_bond_reserves exact_pool 500000000%R) exact_term = Ok p /\
    (0 < p)%R /\
    ((p < 1)%R <->
     (init_share_price exact_pool * share_reserves exact_pool
      < 500000000 + lp_total_supply exact_pool)%R).
Proof.
  apply (spot_price_discount (with_bond_reserves exact_pool 500000000%R) exact_term);
    simpl; lra.
Defined.

(** X14: [check_output_assertions] looks at the [fee] and the [without_fee]
    of the breakdown and at nothing else: the user result, the market
    result, [without_fee_or_slippage] and [with_fee] (the component
    [get_max_long] and [get_max_short] read) can be replaced by anything
    without changing the outcome.  The two variants exclude each other: no
    trade result passes both [PricingModel.check_output_assertions] and
    [PricingModelFP.check_output_assertions]. *)
Theorem check_output_assertions_scope :
  (forall (N V : Type) (num : PyNum N) (inst : IsInstance V N)
          (tr : TradeResult V)
          (user : agent_trade_result.AgentTradeResult V)
          (market : market_action_result.MarketActionResult V)
          (any_without_fee_or_slippage any_with_fee : V),
      check_output_assertions (N:=N)
        (mkTradeResult user market
           (mkTradeBreakdown any_without_fee_or_slippage
              (without_fee (breakdown tr)) (fee (breakdown tr)) any_with_fee))
      = check_output_assertions (N:=N) tr) /\
  (forall tr : TradeResult pyval,
      check_output_assertions (N:=float) tr = Ok tt ->
      check_output_assertions (N:=FixedPointMath.FixedPoint) tr
      = Raise AssertionError) /\
  (forall tr : TradeResult pyval,
      check_output_assertions (N:=FixedPointMath.FixedPoint) tr = Ok tt ->
      check_output_assertions (N:=float) tr = Raise AssertionError).
Proof.
  split; [| split].
  - intros N V num inst tr user market a b. reflexivity.
  - intros tr Hok. apply check_output_assertions_Ok in Hok.
    destruct Hok as (f & w & Hf & _).
    unfold check_output_assertions.
    destruct (fee (breakdown tr)); try discriminate Hf. reflexivity.
  - intros tr Hok. apply check_output_assertions_Ok in Hok.
    destruct Hok as (f & w & Hf & _).
    unfold check_output_assertions.
    destruct (fee (breakdown tr)); try discriminate Hf. reflexivity.
Qed.

(** ** The bond-reserve formulas at a zero stretched time *)

Section ReservesAtMaturity.
Context {T : Type} `{Countable T}.

Lemma float_reserves_zero_stretch {fpow : PyPow float}
    (target_apr : float) (t : StretchedTime float) (ms : MarketState float T) :
  PyFloat.is_zero (stretched_time t) = true ->
  calc_bond_reserves target_apr t ms = Raise ZeroDivisionError /\
  calc_initial_bond_reserves target_apr t ms = Raise ZeroDivisionError.
Proof.
  intros Hz. unfold calc_bond_reserves, calc_initial_bond_reserves, norm_days.
  simpl. unfold PyFloat.truediv.
  rewrite Hz. split; reflexivity.
Qed.

Lemma float_reserves_failures {fpow : PyPow float}
    (target_apr : float) (t : StretchedTime float) (ms : MarketState float T)
    (e : exn) :
  PyFloat.is_zero (stretched_time t) = false ->
  calc_bond_reserves target_apr t ms = Raise e \/
  calc_initial_bond_reserves target_apr t ms = Raise e ->
  exists base exponent : float, kpow base exponent = Raise e.
Proof.
  intros Hz. unfold calc_bond_reserves, calc_initial_bond_reserves, norm_days.
  simpl. unfold PyFloat.truediv.
  rewrite Hz. simpl.
  intros [He|He].
  - destruct (kpow _ _) as [v|e'] eqn:Hpow in He; simpl in He;
      [discriminate He |].
    inversion He; subst. eauto.
  - destruct (kpow _ _) as [v|e'] eqn:Hpow in He; simpl in He;
      [discriminate He |].
    inversion He; subst. eauto.
Qed.

Lemma fixed_reserves_zero_stretch {fpow : PyPow FixedPointMath.FixedPoint}
    (target_apr : FixedPointMath.FixedPoint)
    (t : StretchedTime FixedPointMath.FixedPoint)
    (ms : MarketState FixedPointMath.FixedPoint T) :
  FixedPointMath.is_zero (stretched_time t) = true ->
  calc_bond_reserves target_apr t ms = Raise FixedPointDivisionByZero /\
  calc_initial_bond_reserves target_apr t ms = Raise FixedPointDivisionByZero.
Proof.
  intros Hz. unfold calc_bond_reserves, calc_initial_bond_reserves, norm_days.
  simpl. unfold FixedPointMath.truediv.
  rewrite Hz. split; reflexivity.
Qed.

End ReservesAtMaturity.

(** X15: [calc_bond_reserves] and [calc_initial_bond_reserves] divide one
    by the stretched time: at a zero stretched time (a position at
    maturity) both fail, with [ZeroDivisionError] on floats and the
    fixed-point division-by-zero error on fixed-point numbers, whatever the
    rate and the pool, and before the power is taken; on floats with a
    stretched time that is not zero, the only exceptions either can raise
    are those of the power. *)
Theorem bond_reserves_at_zero_stretched_time :
  (forall (T : Type) (EqT : EqDecision T) (CountT : Countable T)
          (fpow : PyPow float) (target_apr : float)
          (t : StretchedTime float) (ms : MarketState float T),
      (PyFloat.is_zero (stretched_time t) = true ->
       calc_bond_reserves target_apr t ms = Raise ZeroDivisionError /\
       calc_initial_bond_reserves target_apr t ms = Raise ZeroDivisionError) /\
      (forall e,
          PyFloat.is_zero (stretched_time t) = false ->
          calc_bond_reserves target_apr t ms = Raise e \/
          calc_initial_bond_reserves target_apr t ms = Raise e ->
          exists base exponent : float, kpow base exponent = Raise e)) /\
  (forall (T : Type) (EqT : EqDecision T) (CountT : Countable T)
          (fpow : PyPow FixedPointMath.FixedPoint)
          (target_apr : FixedPointMath.FixedPoint)
          (t : StretchedTime FixedPointMath.FixedPoint)
          (ms : MarketState FixedPointMath.FixedPoint T),
      FixedPointMath.is_zero (stretched_time t) = true ->
      calc_bond_reserves target_apr t ms = Raise FixedPointDivisionByZero /\
      calc_initial_bond_reserves target_apr t ms = Raise FixedPointDivisionByZero).
Proof.
  split.
  - intros T EqT CountT fpow target_apr t ms. split.
    + apply float_reserves_zero_stretch.
    + intros e. apply float_reserves_failures.
  - intros T EqT CountT fpow target_apr t ms.
    apply fixed_reserves_zero_stretch.
Qed.

(** ** The [CustomShorter] policy *)

Section CustomShorterFacts.
Import example_main.

Lemma ltb_nan (x y : float) :
  PrimFloat.is_nan x = true \/ PrimFloat.is_nan y = true ->
  PrimFloat.ltb x y = false.
Proof.
  rewrite !FloatFacts.is_nan_spec, FloatAxioms.ltb_spec. unfold SFltb.
  intros [Hn|Hn]; rewrite Hn.
  - reflexivity.
  - destruct (Prim2SF x) as [s|s| |s m e]; reflexivity.
Qed.

(** [<] on floats is asymmetric. *)
Lemma ltb_asym (x y : float) :
  PrimFloat.ltb x y = true -> PrimFloat.ltb y x = false.
Proof.
  rewrite !FloatAxioms.ltb_spec. unfold SFltb.
  destruct (Prim2SF x) as [s|s| |s m e], (Prim2SF y) as [s'|s'| |s' m' e'];
    simpl; try discriminate; try reflexivity;
    try (destruct s; simpl; discriminate || reflexivity);
    try (destruct s'; simpl; discriminate || reflexivity);
    try (destruct s, s'; simpl; discriminate || reflexivity).
  pose proof (Z.compare_antisym e e') as He.
  pose proof (Pos.compare_antisym m m') as Hm. unfold Pos.compare in Hm.
  destruct s, s'; simpl; try discriminate; try reflexivity;
    rewrite He, Hm;
    destruct (e ?= e')%Z; simpl; try discriminate; try reflexivity;
    destruct (Pos.compare_cont Eq m m'); simpl; discriminate || reflexivity.
Qed.

Lemma has_opened_short_nonempty (shorts : list (float * float)) :
  existsb (fun short => PrimFloat.ltb 0%float short.2) shorts = true ->
  shorts <> [].
Proof. destruct shorts; [discriminate | discriminate]. Qed.

Lemma action_no_index_error (shorts : list (float * float))
    (get_max_short : result float) (variable_apr : float)
    (fixed_apr : result float) :
  action shorts get_max_short variable_apr fixed_apr <> RaisesIndexError.
Proof.
  unfold action.
  destruct get_max_short as [max_short|e]; [| discriminate].
  destruct (PrimFloat.leb _ max_short); [| discriminate].
  destruct fixed_apr as [fixed|e]; [| discriminate].
  destruct (PrimFloat.ltb fixed variable_apr); [discriminate |].
  destruct (PrimFloat.ltb variable_apr fixed); [| discriminate].
  destruct (existsb _ shorts) eqn:Hany; [| discriminate].
  apply has_opened_short_nonempty in Hany.
  destruct shorts as [|[first_key balance] rest]; [contradiction | discriminate].
Qed.

Lemma action_trades (shorts : list (float * float))
    (get_max_short : result float) (variable_apr : float)
    (fixed_apr : result float) (trades : list Trade) :
  action shorts get_max_short variable_apr fixed_apr = Returns trades ->
  length trades <= 1 /\
  forall t, t ∈ trades ->
            market t = HYPERDRIVE /\ trade_amount (trade t) = pt_to_short.
Proof.
  unfold action.
  destruct get_max_short as [max_short|e]; [| discriminate].
  assert (Hnil : Returns (A := list Trade) [] = Returns trades ->
                 length trades <= 1 /\
                 forall t, t ∈ trades ->
                   market t = HYPERDRIVE /\ trade_amount (trade t) = pt_to_short).
  { intros Heq. inversion Heq; subst. split; [simpl; lia |].
    intros t Ht. inversion Ht. }
  assert (Hone : forall t0, market t0 = HYPERDRIVE ->
                   trade_amount (trade t0) = pt_to_short ->
                   Returns [t0] = Returns trades ->
                   length trades <= 1 /\
                   forall t, t ∈ trades ->
                     market t = HYPERDRIVE /\ trade_amount (trade t) = pt_to_short).
  { intros t0 Hm Ha Heq. inversion Heq; subst. split; [simpl; lia |].
    intros t Ht. apply list_elem_of_singleton in Ht. subst t. auto. }
  destruct (PrimFloat.leb _ max_short); [| exact Hnil].
  destruct fixed_apr as [fixed|e]; [| discriminate].
  destruct (PrimFloat.ltb fixed variable_apr); [apply Hone; reflexivity |].
  destruct (PrimFloat.ltb variable_apr fixed); [| exact Hnil].
  destruct (existsb _ shorts); [| exact Hnil].
  destruct shorts as [|[first_key balance] rest]; [discriminate |].
  apply Hone; reflexivity.
Qed.

End CustomShorterFacts.

(** X16: [CustomShorter.action] never fails with the [IndexError] of
    [list(self.wallet.shorts.keys())[0]] (a short with a positive balance
    makes the wallet's dict non-empty); it returns at most one trade, on
    the hyperdrive market and for [pt_to_short] bonds.  When the maximum
    short is below [pt_to_short] (or not a number) it returns no trade
    without reading the fixed rate, so it does not close a short either.
    When it closes, the mint time it passes is the first key of the
    wallet's shorts, whatever that position's balance.  When either rate is
    not a number it returns no trade. *)
Theorem custom_shorter_action
    (shorts : list (float * float)) (get_max_short : result float)
    (variable_apr : float) (fixed_apr : result float) :
  example_main.action shorts get_max_short variable_apr fixed_apr
  <> example_main.RaisesIndexError /\
  (forall trades,
      example_main.action shorts get_max_short variable_apr fixed_apr
      = example_main.Returns trades ->
      length trades <= 1 /\
      forall t, t ∈ trades ->
                example_main.market t = example_main.HYPERDRIVE /\
                example_main.trade_amount (example_main.trade t)
                = example_main.pt_to_short) /\
  (forall max_short,
      get_max_short = Ok max_short ->
      PrimFloat.leb 1000%float max_short = false ->
      example_main.action shorts get_max_short variable_apr fixed_apr
      = example_main.Returns []) /\
  (forall max_short fixed first_key first_balance rest,
      get_max_short = Ok max_short ->
      PrimFloat.leb 1000%float max_short = true ->
      fixed_apr = Ok fixed ->
      PrimFloat.ltb variable_apr fixed = true ->
      shorts = (first_key, first_balance) :: rest ->
      existsb (fun short => PrimFloat.ltb 0%float short.2) shorts = true ->
      example_main.action shorts get_max_short variable_apr fixed_apr
      = example_main.Returns
          [example_main.mkTrade example_main.HYPERDRIVE
             (example_main.mkMarketAction example_main.CLOSE_SHORT 1000
                                          (Some first_key))]) /\
  (forall max_short fixed,
      get_max_short = Ok max_short ->
      fixed_apr = Ok fixed ->
      PrimFloat.is_nan variable_apr = true \/ PrimFloat.is_nan fixed = true ->
      example_main.action shorts get_max_short variable_apr fixed_apr
      = example_main.Returns []).
Proof.
  split; [apply action_no_index_error |].
  split; [apply action_trades |].
  split; [| split].
  - intros max_short -> Hmax. unfold example_main.action.
    change (PyFloat.lit example_main.pt_to_short 0) with 1000%float.
    rewrite Hmax. reflexivity.
  - intros max_short fixed first_key first_balance rest -> Hmax -> Hlt -> Hany.
    unfold example_main.action.
    change (PyFloat.lit example_main.pt_to_short 0) with 1000%float.
    rewrite Hmax, Hany, Hlt.
    rewrite (ltb_asym _ _ Hlt). reflexivity.
  - intros max_short fixed -> -> Hnan. unfold example_main.action.
    rewrite (ltb_nan fixed variable_apr) by tauto.
    rewrite (ltb_nan variable_apr fixed) by tauto.
    destruct (PrimFloat.leb _ max_short); reflexivity.
Qed.

(** ** The custom parameters of a policy instruction *)

Section PolicyInstructionFacts.
Import Stdlib.Strings.Ascii.
Import utils_for_tests.

Lemma split_not_nil (sep : Ascii.ascii) (s : string) : split sep s <> [].
Proof.
  destruct s as [|c rest]; simpl; [discriminate |].
  destruct (Ascii.eqb c sep); [discriminate |].
  destruct (split sep rest); discriminate.
Qed.

Lemma split_length (sep : Ascii.ascii) (s : string) :
  length (split sep s) = S (occurrences sep s).
Proof.
  induction s as [|c rest IH]; simpl; [reflexivity |].
  destruct (Ascii.eqb c sep); simpl.
  - rewrite IH. reflexivity.
  - destruct (split sep rest) as [|piece pieces] eqn:E.
    + destruct (split_not_nil sep rest E).
    + simpl in *. exact IH.
Qed.

Lemma split_free (sep : Ascii.ascii) (s : string) :
  occurrences sep s = 0 -> split sep s = [s].
Proof.
  induction s as [|c rest IH]; simpl; [reflexivity |].
  destruct (Ascii.eqb c sep); simpl; [discriminate |].
  intros Hfree. rewrite (IH Hfree). reflexivity.
Qed.

Lemma split_append (sep : Ascii.ascii) (a b : string) :
  occurrences sep a = 0 ->
  split sep (String.append a (String sep b)) = a :: split sep b.
Proof.
  induction a as [|c rest IH]; simpl.
  - intros _. rewrite Ascii.eqb_refl. reflexivity.
  - destruct (Ascii.eqb c sep); simpl; [discriminate |].
    intros Hfree. rewrite (IH Hfree). reflexivity.
Qed.

Lemma occurrences_append (c : Ascii.ascii) (a b : string) :
  occurrences c (String.append a b) = occurrences c a + occurrences c b.
Proof.
  induction a as [|c' rest IH]; simpl; [reflexivity |].
  rewrite IH. lia.
Qed.

Lemma split_concat (sep : Ascii.ascii) (pieces : list string) :
  pieces <> [] ->
  Forall (fun piece => occurrences sep piece = 0) pieces ->
  split sep (String.concat (String sep EmptyString) pieces) = pieces.
Proof.
  induction pieces as [|piece rest IH]; [contradiction |].
  intros _ Hfree. inversion Hfree as [|? ? Hpiece Hrest]; subst.
  destruct rest as [|next rest'].
  - simpl. apply split_free. exact Hpiece.
  - change (String.concat (String sep EmptyString) (piece :: next :: rest'))
      with (String.append piece
              (String sep (String.concat (String sep EmptyString) (next :: rest')))).
    rewrite split_append by exact Hpiece.
    rewrite IH; [reflexivity | discriminate | exact Hrest].
Qed.

Lemma occurrences_concat (c sep : Ascii.ascii) (pieces : list string) :
  Ascii.eqb sep c = false ->
  Forall (fun piece => occurrences c piece = 0) pieces ->
  occurrences c (String.concat (String sep EmptyString) pieces) = 0.
Proof.
  intros Hsep. induction pieces as [|piece rest IH]; [reflexivity |].
  intros Hfree. inversion Hfree as [|? ? Hpiece Hrest]; subst.
  destruct rest as [|next rest'].
  - simpl. exact Hpiece.
  - change (String.concat (String sep EmptyString) (piece :: next :: rest'))
      with (String.append piece
              (String sep (String.concat (String sep EmptyString) (next :: rest')))).
    rewrite occurrences_append. cbn [occurrences].
    rewrite Hsep, Hpiece, (IH Hrest). reflexivity.
Qed.

Section Kwargs.
Variable float_of_str : string -> option float.

(** The comprehension on well-formed pairs, from any dict built so far. *)
Lemma kwargs_of_pairs (pairs : list (string * string))
    (start : gmap string float) :
  Forall (fun kv => is_Some (float_of_str kv.2)) pairs ->
  exists kwargs : gmap string float,
    foldl (fun kwargs arg =>
             kwargs ← kwargs;
             match arg with
             | [key; value] =>
                 number ← float_of_str value;
                 Some (<[key := number]> kwargs)
             | _ => None
             end)
          (Some start) ((fun kv => [kv.1; kv.2]) <$> pairs)
    = Some kwargs /\
    forall key,
      kwargs !! key
      = match (list_to_map (reverse pairs) : gmap string string) !! key with
        | Some value => float_of_str value
        | None => start !! key
        end.
Proof.
  revert start. induction pairs as [|[k v] rest IH]; intros start Hall.
  - exists start. split; [reflexivity |]. intros key. reflexivity.
  - inversion Hall as [|? ? [x Hx] Hrest]; subst. simpl in Hx.
    destruct (IH (<[k := x]> start) Hrest) as (kwargs & Hfold & Hlook).
    exists kwargs. split.
    + simpl. rewrite Hx. simpl. exact Hfold.
    + intros key. rewrite (Hlook key). rewrite reverse_cons.
      rewrite list_to_map_app.
      rewrite lookup_union.
      destruct (list_to_map (reverse rest) !! key) as [value|] eqn:E.
      * rewrite (union_Some_l value). reflexivity.
      * rewrite left_id by apply _. simpl.
        rewrite !lookup_insert.
        destruct (decide (k = key)); [rewrite Hx | rewrite lookup_empty];
          reflexivity.
Qed.

Lemma validate_colons (policy_instruction : string) :
  occurrences ":" policy_instruction <> 1 ->
  validate_custom_parameters float_of_str policy_instruction
  = ([], Raise ValueError).
Proof.
  intros Hcount. unfold validate_custom_parameters.
  pose proof (split_length ":" policy_instruction) as Hlen.
  destruct (split ":" policy_instruction) as [|a [|b [|c rest]]];
    try reflexivity.
  simpl in Hlen. exfalso. apply Hcount. lia.
Qed.

Lemma validate_no_arguments (policy_name : string) :
  occurrences ":" policy_name = 0 ->
  validate_custom_parameters float_of_str
    (String.append policy_name (String ":" EmptyString))
  = ([Info_key_value_pairs], Raise ValueError).
Proof.
  intros Hname. unfold validate_custom_parameters.
  rewrite split_append by exact Hname. reflexivity.
Qed.

Lemma validate_outcomes (policy_instruction : string) :
  (exists result,
      validate_custom_parameters float_of_str policy_instruction
      = ([], Ok result)) \/
  validate_custom_parameters float_of_str policy_instruction
  = ([], Raise ValueError) \/
  validate_custom_parameters float_of_str policy_instruction
  = ([Info_key_value_pairs], Raise ValueError).
Proof.
  unfold validate_custom_parameters.
  destruct (split ":" policy_instruction) as [|a [|b [|c rest]]]; auto.
  destruct (kwargs_of _ _); [left; eexists; reflexivity | right; right; reflexivity].
Qed.

End Kwargs.

End PolicyInstructionFacts.

Section PolicyInstructionOutcomes.
Import Stdlib.Strings.Ascii.
Import utils_for_tests.

(** X17: [validate_custom_parameters] reads back a well-formed instruction:
    for a policy name, keys and values that hold none of [:], [,] and [=],
    at least one [key=value] pair and values [float] accepts, the
    instruction [name:key=value,...] gives the name and a dict that binds
    each key to the number of the last value written for it; nothing is
    logged. *)
Theorem validate_custom_parameters_round_trip
    (float_of_str : string -> option float)
    (policy_name : string) (policy_args : list (string * string)) :
  plain policy_name ->
  policy_args <> [] ->
  Forall (fun kv => plain kv.1 /\ plain kv.2 /\ is_Some (float_of_str kv.2))
         policy_args ->
  exists kwargs : gmap string float,
    utils_for_tests.validate_custom_parameters float_of_str
      (policy_instruction_of policy_name policy_args)
    = ([], Ok (policy_name, kwargs)) /\
    forall key,
      kwargs !! key
      = (list_to_map (reverse policy_args) : gmap string string) !! key
          ≫= float_of_str.
Proof.
  intros (Hname & _ & _) Hne Hall.
  set (pieces := (fun kv : string * string =>
                    String.append kv.1 (String "=" kv.2)) <$> policy_args).
  assert (Hcolon : Forall (fun piece => occurrences ":" piece = 0) pieces).
  { unfold pieces. apply Forall_fmap. eapply Forall_impl; [exact Hall |].
    intros [k v] ((Hk & _ & _) & (Hv & _ & _) & _). simpl in *.
    rewrite occurrences_append. simpl. rewrite Hk, Hv. reflexivity. }
  assert (Hcomma : Forall (fun piece => occurrences "," piece = 0) pieces).
  { unfold pieces. apply Forall_fmap. eapply Forall_impl; [exact Hall |].
    intros [k v] ((_ & Hk & _) & (_ & Hv & _) & _). simpl in *.
    rewrite occurrences_append. simpl. rewrite Hk, Hv. reflexivity. }
  assert (Hpieces : pieces <> []).
  { unfold pieces. destruct policy_args; [contradiction | discriminate]. }
  assert (Hsplit : split "=" <$> pieces = (fun kv => [kv.1; kv.2]) <$> policy_args).
  { unfold pieces. rewrite <- list_fmap_compose.
    apply Forall_fmap_ext. eapply Forall_impl; [exact Hall |].
    intros [k v] ((_ & _ & Hk) & (_ & _ & Hv) & _). simpl in *.
    rewrite split_append by exact Hk. rewrite split_free by exact Hv.
    reflexivity. }
  destruct (kwargs_of_pairs float_of_str policy_args ∅)
    as (kwargs & Hfold & Hlook).
  { eapply Forall_impl; [exact Hall |]. intros kv (_ & _ & Hf). exact Hf. }
  exists kwargs. split.
  - unfold validate_custom_parameters, policy_instruction_of. fold pieces.
    rewrite split_append by exact Hname.
    rewrite split_free
      by (apply (occurrences_concat ":" ","); [reflexivity | exact Hcolon]).
    change (String.concat ","%string pieces)
      with (String.concat (String "," EmptyString) pieces).
    rewrite split_concat by assumption.
    rewrite Hsplit. unfold kwargs_of. rewrite Hfold. reflexivity.
  - intros key. rewrite (Hlook key).
    destruct (list_to_map (reverse policy_args) !! key); reflexivity.
Qed.

Lemma validate_custom_parameters_round_trip_witness :
  exists kwargs : gmap string float,
    utils_for_tests.validate_custom_parameters float_of_one_half
      (policy_instruction_of "single_long" [("trade_chance", "0.5")]%string)
    = ([], Ok ("single_long"%string, kwargs)) /\
    forall key,
      kwargs !! key
      = (list_to_map (reverse [("trade_chance", "0.5")]%string)
           : gmap string string) !! key
          ≫= float_of_one_half.
Proof.
  apply (validate_custom_parameters_round_trip float_of_one_half
           "single_long" [("trade_chance", "0.5")]%string).
  - repeat split.
  - discriminate.
  - constructor; [| constructor]. simpl.
    split; [repeat split |]. split; [repeat split |]. eexists. reflexivity.
Defined.

(** X18: [validate_custom_parameters] fails with [ValueError] and in no
    other way.  An instruction that does not hold exactly one [:] fails in
    the first unpacking, outside every handler, so nothing is logged; an
    instruction that ends with its [:], without parameters, fails in the
    dict comprehension and logs the key=value message, as does every other
    failure after the first unpacking; the message about missing policy
    arguments is never logged. *)
Theorem validate_custom_parameters_failures
    (float_of_str : string -> option float) :
  (forall policy_instruction,
      occurrences ":" policy_instruction <> 1 ->
      utils_for_tests.validate_custom_parameters float_of_str policy_instruction
      = ([], Raise ValueError)) /\
  (forall policy_name,
      occurrences ":" policy_name = 0 ->
      utils_for_tests.validate_custom_parameters float_of_str
        (String.append policy_name ":")
      = ([utils_for_tests.Info_key_value_pairs], Raise ValueError)) /\
  (forall policy_instruction,
      (exists result,
          utils_for_tests.validate_custom_parameters float_of_str
            policy_instruction
          = ([], Ok result)) \/
      utils_for_tests.validate_custom_parameters float_of_str policy_instruction
      = ([], Raise ValueError) \/
      utils_for_tests.validate_custom_parameters float_of_str policy_instruction
      = ([utils_for_tests.Info_key_value_pairs], Raise ValueError)).
Proof.
  split; [| split].
  - apply validate_colons.
  - apply validate_no_arguments.
  - apply validate_outcomes.
Qed.

End PolicyInstructionOutcomes.

(** X19: with a market state that does not override
    [BaseMarketState.apply_delta], no update goes through:
    [MarketFP.update_market] always fails with [NotImplementedError], and
    [Market.update_market] fails with the error of its finiteness check or,
    when the check passes, with [NotImplementedError]; either way the
    market is left as it was and neither post-check is consulted (the
    outcome is the same whatever they answer). *)
Theorem update_market_on_base_state
    {State Deltas PM BT : Type}
    (fields : Deltas -> list (string * pyval))
    (d : Deltas) (m : Market State PM BT) :
  (forall check check_fp,
      update_market_fp (classes := base_state_classes fields check check_fp) d m
      = (m, Raise NotImplementedError)) /\
  (forall check check_fp,
      update_market (classes := base_state_classes fields check check_fp) d m
      = (m, match check_items (fields d) with
            | Ok _ => Raise NotImplementedError
            | Raise e => Raise e
            end)) /\
  (forall check check_fp,
      update_market (classes := base_state_classes fields check check_fp) d m
      <> (m, Ok tt)).
Proof.
  assert (Hfp : forall check check_fp,
             update_market_fp
               (classes := base_state_classes fields check check_fp) d m
             = (m, Raise NotImplementedError)).
  { intros check check_fp. rewrite update_market_fp_unfold.
    destruct m; reflexivity. }
  assert (Hfloat : forall check check_fp,
             update_market
               (classes := base_state_classes fields check check_fp) d m
             = (m, match check_items (fields d) with
                   | Ok _ => Raise NotImplementedError
                   | Raise e => Raise e
                   end)).
  { intros check check_fp.
    destruct (check_market_updates
                (classes := base_state_classes fields check check_fp) d)
      as [[]|e] eqn:Hc.
    - rewrite (update_market_after_precheck d m Hc).
      unfold check_market_updates in Hc. simpl in Hc. rewrite Hc.
      destruct m; reflexivity.
    - rewrite (update_market_precheck_fails d m e Hc).
      unfold check_market_updates in Hc. simpl in Hc. rewrite Hc. reflexivity. }
  split; [exact Hfp |]. split; [exact Hfloat |].
  intros check check_fp. rewrite Hfloat.
  destruct (check_items (fields d)); intros Heq; inversion Heq.
Qed.

(** ** Where the fixed-point time stretch is defined *)

Section FixedTimeStretchDomain.
Import FixedPointMath.

Lemma fixed_denominator_zero (a : Z) :
  (27890000000000000 * (a * 100000000000000000000 / 10 ^ 18) / 10 ^ 18 =? 0)%Z
  = (a =? 0)%Z.
Proof.
  assert (Hp : (a * 100000000000000000000 / 10 ^ 18 = a * 100)%Z).
  { replace (a * 100000000000000000000)%Z with (a * 100 * 10 ^ 18)%Z by lia.
    apply Z.div_mul. lia. }
  rewrite Hp.
  replace (27890000000000000 * (a * 100))%Z with (2789 * a * 10 ^ 15)%Z by lia.
  replace (10 ^ 18)%Z with (1000 * 10 ^ 15)%Z by lia.
  rewrite Z.div_mul_cancel_r by lia.
  destruct (Z.eqb_spec a 0) as [->|Hne].
  - reflexivity.
  - apply Z.eqb_neq. intros Hz.
    apply Z.div_small_iff in Hz; lia.
Qed.

Lemma calc_time_stretch_fixed_domain (apr : FixedPoint) :
  (apr = FPVal 0 ->
   calc_time_stretch apr = Raise FixedPointDivisionByZero) /\
  (apr <> FPVal 0 -> exists v, calc_time_stretch apr = Ok v).
Proof.
  split.
  - intros ->. reflexivity.
  - intros Hne. destruct apr as [a|negative|].
    + unfold calc_time_stretch. simpl.
      unfold truediv, div_down, mul, lit, ONE_18. simpl is_zero.
      change (10 ^ (18 - Z.of_nat 0))%Z with (10 ^ 18)%Z.
      change (10 ^ (18 - Z.of_nat 5))%Z with (10 ^ 13)%Z.
      change (100 * 10 ^ 18)%Z with 100000000000000000000%Z.
      change (2789 * 10 ^ 13)%Z with 27890000000000000%Z.
      rewrite fixed_denominator_zero.
      destruct (Z.eqb_spec a 0) as [->|Ha]; [contradiction |].
      eexists. reflexivity.
    + destruct negative; eexists; reflexivity.
    + eexists. reflexivity.
Qed.

End FixedTimeStretchDomain.

(** X20: [PricingModelFP.calc_time_stretch] fails at the rate zero and
    nowhere else: on every other fixed-point value, negative rates, the
    infinities and not-a-number included, it returns a value (the products
    of the rate by [100] and by [0.02789], rounded down, are zero only for
    the rate zero), and its only exception is the division-by-zero
    error. *)
Theorem calc_time_stretch_fixed_domain_of_definition
    (apr : FixedPointMath.FixedPoint) :
  (calc_time_stretch apr = Raise FixedPointDivisionByZero
   <-> apr = FixedPointMath.FPVal 0) /\
  ((exists v, calc_time_stretch apr = Ok v) <-> apr <> FixedPointMath.FPVal 0) /\
  (forall e, calc_time_stretch apr = Raise e -> e = FixedPointDivisionByZero).
Proof.
  destruct (calc_time_stretch_fixed_domain apr) as [Hzero Hother].
  assert (Hdec : apr = FixedPointMath.FPVal 0 \/ apr <> FixedPointMath.FPVal 0).
  { destruct apr as [a| |]; try (right; discriminate).
    destruct (Z.eq_dec a 0%Z) as [->|Ha]; [left; reflexivity |].
    right. intros Heq. inversion Heq. contradiction. }
  split; [| split].
  - split; [| exact Hzero].
    intros Hraise. destruct Hdec as [Heq|Hne]; [exact Heq |].
    destruct (Hother Hne) as [v Hv]. rewrite Hv in Hraise. discriminate Hraise.
  - split; [| exact Hother].
    intros [v Hv] Heq. rewrite (Hzero Heq) in Hv. discriminate Hv.
  - intros e He. destruct Hdec as [Heq|Hne].
    + rewrite (Hzero Heq) in He. inversion He. reflexivity.
    + destruct (Hother Hne) as [v Hv]. rewrite Hv in He. discriminate He.
Qed.

(** ** The further properties at concrete inputs *)

(** A pool whose share price is zero, with the base class. *)
Lemma get_max_short_zero_share_price_witness :
  get_max_short (pm := base_methods float Z)
    (Pools.fresh_state 0%float 0%float) quarter_year
  = ([], Raise ZeroDivisionError).
Proof.
  apply (proj1 (proj2 (proj1 get_max_short_zero_share_price Z _ _
                         (base_methods float Z)
                         (Pools.fresh_state 0%float 0%float) quarter_year))).
  vm_compute. reflexivity.
Defined.

(** The pool of the earlier example, whose share price is one. *)
Lemma get_max_on_base_class_witness :
  outcome (get_max_short (pm := base_methods float Z)
             low_share_price_state quarter_year)
  = Raise NotImplementedError /\
  length (trace (get_max_short (pm := base_methods float Z)
                   low_share_price_state quarter_year)) = 1.
Proof.
  apply (proj2 (proj2 (proj1 (proj2 get_max_on_base_class) Z _ _
                         low_share_price_state quarter_year))).
  vm_compute. reflexivity.
Defined.

(** One share and one bond added to the fresh floating-point pool. *)
Lemma update_market_success_and_frame_witness :
  market_state
    (update_market (classes := Pools.float_classes)
       (Pools.reserves_delta 0%float 1%float 1%float) Pools.float_market).1
  = (apply_delta (MarketClasses := Pools.float_classes)
       (Pools.reserves_delta 0%float 1%float 1%float)
       (market_state Pools.float_market)).1.
Proof.
  apply (proj2 (proj2 (proj2 (update_market_success_and_frame
                                (classes := Pools.float_classes)
                                (Pools.reserves_delta 0%float 1%float 1%float)
                                Pools.float_market)))).
  vm_compute. reflexivity.
Defined.

(** The trade result whose fee is the float [+inf]. *)
Lemma check_output_assertions_scope_witness :
  check_output_assertions (N:=FixedPointMath.FixedPoint) infinite_fee_result
  = Raise AssertionError.
Proof.
  apply (proj1 (proj2 check_output_assertions_scope) infinite_fee_result).
  reflexivity.
Defined.

(** The pool of the earlier example at maturity. *)
Lemma bond_reserves_at_zero_stretched_time_witness :
  calc_bond_reserves (H1 := float_pow_one) 0.05%float matured_term
    low_share_price_state
  = Raise ZeroDivisionError /\
  calc_initial_bond_reserves (H1 := float_pow_one) 0.05%float matured_term
    low_share_price_state
  = Raise ZeroDivisionError.
Proof.
  apply (proj1 (proj1 bond_reserves_at_zero_stretched_time Z _ _ float_pow_one
                  0.05%float matured_term low_share_price_state)).
  reflexivity.
Defined.

(** A falling market: the policy closes the short minted at time zero,
    whose balance is zero, while the open short is the one minted at
    time one. *)
Lemma custom_shorter_action_witness :
  example_main.action two_shorts (Ok 2000%float) 0.01%float (Ok 0.05%float)
  = example_main.Returns
      [example_main.mkTrade example_main.HYPERDRIVE
         (example_main.mkMarketAction example_main.CLOSE_SHORT 1000
                                      (Some 0%float))].
Proof.
  apply (proj1 (proj2 (proj2 (proj2 (custom_shorter_action two_shorts
                                       (Ok 2000%float) 0.01%float
                                       (Ok 0.05%float)))))
           2000%float 0.05%float 0%float 0%float [(1%float, 5%float)]);
    reflexivity.
Defined.

(** A policy name without parameters. *)
Lemma validate_custom_parameters_failures_witness :
  utils_for_tests.validate_custom_parameters float_of_one_half "single_long"
  = ([], Raise ValueError).
Proof.
  apply (proj1 (validate_custom_parameters_failures float_of_one_half)
           "single_long"%string).
  vm_compute. discriminate.
Defined.
